(** * GitHub REST client wrappers: retry, back-off, pagination, endpoint wrappers

    A shallow embedding of the request-executing methods, the pagination
    helpers and the endpoint wrappers of the tutorial clients
    ([Chapter_2/stargazers.py], [Chapter_3/stargazers.py],
    [samples/Chapter 3/section-4-step-2.py], [Chapter_4/stargazers.py],
    [Chapter_4/stargazers-class.py], [Chapter_4/stargazers-advanced.py],
    [Chapter_4/stargazers-advanced2.py], [Chapter_4/output.py]).

    The network is a script of replies, consumed one per HTTP exchange (the
    [side_effect] list of the repository's mock-based tests).  Every function
    that talks to the network returns what it raised or returned, the
    chronological trace of the exchanges and sleeps it performed, and the part
    of the script it did not read. *)

From Stdlib Require Import ZArith QArith Lia Ascii String.
From stdpp Require Import base option list gmap strings pretty.

#[local] Open Scope string_scope.
#[local] Open Scope list_scope.
#[local] Open Scope Z_scope.

(** ** Python values *)

(** Values decoded from JSON (and the values a caller puts into [params] or a
    request body).  [JNull] is Python's [None], so "returns [None]" and
    "returns the decoded body [null]" are the same value, as in Python.
    Numbers are integers: no function below looks inside a non-integer
    number. *)
#[warnings="-register-all"]
Inductive json : Type :=
| JNull
| JBool (b : bool)
| JNum (n : Z)
| JStr (s : string)
| JList (l : list json)
| JDict (d : gmap string json).

Abbreviation dict := (gmap string json).

(** Truth value of a Python object ([if x], [not x], [x or y]). *)
Definition truthy (v : json) : bool :=
  match v with
  | JNull => false
  | JBool b => b
  | JNum n => negb (n =? 0)
  | JStr s => negb (String.eqb s "")
  | JList l => negb (Nat.eqb (length l) 0)
  | JDict d => negb (Nat.eqb (size d) 0)
  end.

Definition is_list (v : json) : bool :=
  match v with JList _ => true | _ => false end.

(** [len(v)] for the values that reach a [len] call below (lists). *)
Definition len (l : list json) : Z := Z.of_nat (length l).

(** [needle in haystack] on strings: substring test. *)
Fixpoint contains (needle haystack : string) : bool :=
  String.prefix needle haystack ||
  match haystack with
  | EmptyString => false
  | String _ rest => contains needle rest
  end.

(** [int(x)] on a float: truncation toward zero. *)
Definition int_of_float (q : Q) : Z := Z.quot (Qnum q) (Z.pos (Qden q)).

(** ** HTTP replies *)

(** A header as the code reads it, [int(response.headers.get(name, default))]:
    the header is absent, or its text is an integer literal, or [int] raises
    [ValueError] on it. *)
Inductive header : Type :=
| Absent
| IntText (n : Z)
| OtherText (s : string).

(** [response.content] and what [response.json()] makes of it. *)
Inductive content : Type :=
| Empty                      (* b'' : falsy, and not a JSON document *)
| JsonText (j : json)        (* a JSON document decoding to j *)
| Undecodable (s : string).  (* non-empty bytes that are not JSON *)

Record response : Type := Response {
  status_code : Z;
  retry_after : header;          (* headers['Retry-After'] *)
  x_ratelimit_reset : header;    (* headers['X-RateLimit-Reset'] *)
  body : content
}.

(** [bool(response.content)] *)
Definition has_content (r : response) : bool :=
  match body r with Empty => false | _ => true end.

(** [response.json()]: [None] when decoding raises. *)
Definition json_of (r : response) : option json :=
  match body r with JsonText j => Some j | _ => None end.

(** One HTTP exchange ends with a response or with a transport failure
    (connection error, timeout): a [RequestException] whose [response] is
    [None]. *)
Inductive reply : Type :=
| Answer (r : response)
| TransportFailure (msg : string).

(** ** Exceptions *)

(** [requests.exceptions.RequestException] and the subclasses that occur. *)
Inductive request_exception : Type :=
| HTTPError (r : response)          (* raise_for_status(); e.response = r *)
| ConnectionError (msg : string)    (* transport failure; e.response is None *)
| JSONDecodeError                   (* response.json() failed; e.response is None *)
| RequestException (msg : string).  (* the base class, raised by the code itself *)

(** Text of an exception message, kept symbolic. *)
Inductive text : Type :=
| StrOf (e : option request_exception)   (* str(e); str(None) for None *)
| Message (j : json)                     (* error_data["message"] *)
| FailedAfter (n : Z) (detail : text)    (* f"Request failed after {n} retries: {detail}" *)
| ApiError (status : option Z) (detail : text).
    (* f"GitHub API Error: {status} - {detail}" / f"GitHub API Error: {detail}" *)

Inductive exn : Type :=
| RequestError (e : request_exception)
| ValueError
| TypeError
| AttributeError
| KeyError
| GitHubAPIError (status : Z) (message : text)   (* stargazers-advanced2.py *)
| Exception (message : text).                    (* output.py *)

(** [Response.raise_for_status()] of the requests library: an [HTTPError]
    carrying the response for 400 <= status < 600, nothing otherwise. *)
Definition raise_for_status (r : response) : option request_exception :=
  if (400 <=? status_code r) && (status_code r <? 600)
  then Some (HTTPError r) else None.

(** ** Runs *)

Inductive result (A : Type) : Type :=
| Return (a : A)
| Raise (e : exn)
| Blocked      (* the script of replies is used up while a request is pending *)
| OutOfFuel.   (* only for the fuelled loops; shown never to happen *)
Arguments Return {A} a.
Arguments Raise {A} e.
Arguments Blocked {A}.
Arguments OutOfFuel {A}.

Record request : Type := Request {
  method : string;
  url : string;
  params : option dict;
  json_body : option dict;
  headers : gmap string string
}.

(** A wait handed to [time.sleep]: a number of seconds, or the wall-clock
    dependent [max(reset_time - time.time(), 0) + 1]. *)
Inductive wait : Type :=
| Seconds (q : Q)
| UntilReset (reset_time : Z).

Inductive event : Type :=
| Call (rq : request)     (* one completed network exchange *)
| Sleep (w : wait).

Record run (A : Type) : Type := Run {
  outcome : result A;
  trace : list event;
  unread : list reply
}.
Arguments Run {A} outcome trace unread.
Arguments outcome {A} r.
Arguments trace {A} r.
Arguments unread {A} r.

(** Events that happened before the rest of a run. *)
Definition emit {A} (evs : list event) (r : run A) : run A :=
  Run (outcome r) (evs ++ trace r) (unread r).

(** A run that ends at once. *)
Definition finish {A} (o : result A) (pending : list reply) : run A :=
  Run o [] pending.

Definition is_call (e : event) : bool :=
  match e with Call _ => true | Sleep _ => false end.

(** Number of network calls in a trace. *)
Definition calls (t : list event) : nat := length (filter (fun e => is_call e = true) t).


(** [s.lstrip('/')] and [s.rstrip('/')] are applied by the constructors and
    URL builders; [lstrip_slash] is the former. *)
Fixpoint lstrip_slash (s : string) : string :=
  match s with
  | String c rest => if Ascii.eqb c "/"%char then lstrip_slash rest else s
  | EmptyString => s
  end.

(** [s.upper()] on ASCII letters. *)
Definition upper_char (c : Ascii.ascii) : Ascii.ascii :=
  let n := Ascii.nat_of_ascii c in
  if (Nat.leb 97 n && Nat.leb n 122)%bool then Ascii.ascii_of_nat (n - 32) else c.

Fixpoint upper (s : string) : string :=
  match s with
  | String c rest => String (upper_char c) (upper rest)
  | EmptyString => EmptyString
  end.

(** ** The monad of network computations *)

(** A computation reads replies from the script it is given. *)
Definition M (A : Type) : Type := list reply -> run A.

#[global] Instance M_ret : MRet M := fun A a pending => finish (Return a) pending.

#[global] Instance M_bind : MBind M := fun A B k m pending =>
  let r := m pending in
  match outcome r with
  | Return a => emit (trace r) (k a (unread r))
  | Raise e => Run (Raise e) (trace r) (unread r)
  | Blocked => Run Blocked (trace r) (unread r)
  | OutOfFuel => Run OutOfFuel (trace r) (unread r)
  end.

(** [raise e] *)
Definition throw {A} (e : exn) : M A := fun pending => finish (Raise e) pending.

(** [try: m  except: handler] where [handler] re-raises what it does not
    handle. *)
Definition try_except {A} (m : M A) (handler : exn -> M A) : M A := fun pending =>
  let r := m pending in
  match outcome r with
  | Raise e => emit (trace r) (handler e (unread r))
  | _ => r
  end.

(** ** Building arguments *)

(** [s.rstrip('/')] *)
Fixpoint rstrip_slash (s : string) : string :=
  match s with
  | String c rest =>
    let rest' := rstrip_slash rest in
    if Ascii.eqb c "/"%char && String.eqb rest' "" then "" else String c rest'
  | EmptyString => EmptyString
  end.

(** [if v is not None: d[k] = v] *)
Definition set_unless_none (k : string) (v : json) (d : dict) : dict :=
  match v with
  | JNull => d
  | _ => <[k := v]> d
  end.

(** [if v: d[k] = v] *)
Definition set_if_truthy (k : string) (v : json) (d : dict) : dict :=
  if truthy v then <[k := v]> d else d.

(** An optional string argument as a value: [None] or the string. *)
Definition str_or_none (arg : option string) : json :=
  match arg with
  | Some s => JStr s
  | None => JNull
  end.

(** [len(v)]; [None] for the [TypeError] of a value that has no length. *)
Definition len_of (v : json) : option Z :=
  match v with
  | JList l => Some (len l)
  | JDict d => Some (Z.of_nat (size d))
  | JStr s => Some (Z.of_nat (String.length s))
  | _ => None
  end.

(** What [some_list.extend(v)] appends: the elements of a list, the keys of
    a dict, the characters of a string; [None] for the [TypeError] of a value
    that is not iterable. *)
Definition extension (v : json) : option (list json) :=
  match v with
  | JList l => Some l
  | JDict d => Some (JStr <$> (map_to_list d).*1)
  | JStr s => Some ((fun c => JStr (String c EmptyString)) <$> list_ascii_of_string s)
  | _ => None
  end.

(** [v.get(k, default)]; [None] for the [AttributeError] of a value that is
    not a dict. *)
Definition get_or (v : json) (k : string) (dflt : json) : option json :=
  match v with
  | JDict d => Some (default dflt (d !! k))
  | _ => None
  end.

(** [v[k]] for a string [k]: the value, [KeyError] for a dict without the
    key, [TypeError] for a value that is not a dict. *)
Definition subscript (v : json) (k : string) : exn + json :=
  match v with
  | JDict d =>
    match d !! k with
    | Some x => inr x
    | None => inl KeyError
    end
  | _ => inl TypeError
  end.

(** * Chapter_4/stargazers-advanced.py *)
Module StargazersAdvanced.

(** [GitHubAPIClient], after [__init__] ([base_url] is stored
    [rstrip('/')]-ed). *)
Record GitHubAPIClient : Type := {
  base_url : string;
  api_key : option string;
  max_retries : Z;
  retry_delay : Q
}.

(** The [if method.upper() == ...] chain of [_make_request]: the call made on
    the session, or [None] for [raise ValueError("Unsupported HTTP method")].
    GET and DELETE do not pass [json=data]. *)
Definition session_call (method : string) (url : string) (params data : option dict)
    (request_headers : gmap string string) : option request :=
  let m := upper method in
  if String.eqb m "GET" then Some (Request "GET" url params None request_headers)
  else if String.eqb m "POST" then Some (Request "POST" url params data request_headers)
  else if String.eqb m "PUT" then Some (Request "PUT" url params data request_headers)
  else if String.eqb m "PATCH" then Some (Request "PATCH" url params data request_headers)
  else if String.eqb m "DELETE" then Some (Request "DELETE" url params None request_headers)
  else None.

(** The [while retries <= self.max_retries] loop of [_make_request]; one
    iteration reads one reply. *)
Fixpoint _make_request_loop (self : GitHubAPIClient) (call : option request)
    (retries : Z) (delay : Q) (pending : list reply) {struct pending} : run response :=
  if retries <=? max_retries self then
    match call with
    | None => finish (Raise ValueError) pending
    | Some rq =>
      match pending with
      | [] => finish Blocked []
      | rp :: pending' =>
        (* except requests.exceptions.RequestException as e *)
        let on_request_exception (e : request_exception) : run response :=
          if retries >=? max_retries self
          then finish (Raise (RequestError e)) pending'
          else emit [Sleep (Seconds delay)]
                 (_make_request_loop self call (retries + 1) (delay * 2)%Q pending') in
        emit [Call rq]
          match rp with
          | TransportFailure msg => on_request_exception (ConnectionError msg)
          | Answer r =>
            if status_code r =? 429 then
              (* retry_after = int(response.headers.get('Retry-After', delay)) *)
              match retry_after r with
              | OtherText _ => finish (Raise ValueError) pending'
              | h =>
                let retry_after :=
                  match h with IntText n => n | _ => int_of_float delay end in
                emit [Sleep (Seconds (inject_Z retry_after))]
                  (_make_request_loop self call (retries + 1) (delay * 2)%Q pending')
              end
            else
              match raise_for_status r with
              | Some e => on_request_exception e
              | None => finish (Return r) pending'
              end
          end
      end
    end
  else
    finish (Raise (RequestError
      (RequestException "Max retries exceeded with no successful response"))) pending.

Definition _make_request (self : GitHubAPIClient) (method endpoint : string)
    (params data : option dict) (headers : option (gmap string string)) : M response :=
  let url := base_url self +:+ "/" +:+ lstrip_slash endpoint in
  let request_headers := default ∅ headers in
  _make_request_loop self (session_call method url params data request_headers)
    0 (retry_delay self).

(** [response.json() if response.content else None] *)
Definition decoded (r : response) : M json :=
  if has_content r then
    match json_of r with
    | Some j => mret j
    | None => throw (RequestError JSONDecodeError)
    end
  else mret JNull.

Definition get (self : GitHubAPIClient) (endpoint : string)
    (params : option dict) (headers : option (gmap string string)) : M json :=
  response ← _make_request self "GET" endpoint params None headers;
  decoded response.

Definition post (self : GitHubAPIClient) (endpoint : string) (data : dict)
    (params : option dict) (headers : option (gmap string string)) : M json :=
  response ← _make_request self "POST" endpoint params (Some data) headers;
  decoded response.

Definition put (self : GitHubAPIClient) (endpoint : string) (data : dict)
    (params : option dict) (headers : option (gmap string string)) : M json :=
  response ← _make_request self "PUT" endpoint params (Some data) headers;
  decoded response.

Definition patch (self : GitHubAPIClient) (endpoint : string) (data : dict)
    (params : option dict) (headers : option (gmap string string)) : M json :=
  response ← _make_request self "PATCH" endpoint params (Some data) headers;
  decoded response.

Definition delete (self : GitHubAPIClient) (endpoint : string)
    (params : option dict) (headers : option (gmap string string)) : M json :=
  response ← _make_request self "DELETE" endpoint params None headers;
  decoded response.

(** [GitHubStarsClient] *)
Record GitHubStarsClient : Type := { api : GitHubAPIClient }.


(** [GitHubAPIClient.__init__(base_url, api_key=None, max_retries=3,
    retry_delay=1.0)]: the fields of the new client. *)
Definition __init__ (base_url : string) (api_key : option string)
    (max_retries : Z) (retry_delay : Q) : GitHubAPIClient :=
  Build_GitHubAPIClient (rstrip_slash base_url) api_key max_retries retry_delay.

(** [get_raw(endpoint, params=None, accept_format=None)] returns
    [response.content]. *)
Definition get_raw (self : GitHubAPIClient) (endpoint : string)
    (params : option dict) (accept_format : option string) : M content :=
  let headers : gmap string string :=
    if truthy (str_or_none accept_format)
    then {["Accept" := default "" accept_format]} else ∅ in
  response ← _make_request self "GET" endpoint params None (Some headers);
  mret (body response).

(** [GitHubStarsClient.__init__] *)
Definition stars_client (base_url : string) (api_key : option string)
    (max_retries : Z) (retry_delay : Q) : GitHubStarsClient :=
  {| api := __init__ base_url api_key max_retries retry_delay |}.

Definition list_repository_stars (self : GitHubStarsClient) (owner repo : string)
    (per_page page sort : json) : M json :=
  let params : dict :=
    set_unless_none "sort" sort
      (set_unless_none "page" page (set_unless_none "per_page" per_page ∅)) in
  get (api self) ("repos/" +:+ owner +:+ "/" +:+ repo +:+ "/stargazers") (Some params) None.

Definition star_repository (self : GitHubStarsClient) (owner repo : string) : M json :=
  _ ← put (api self) ("user/starred/" +:+ owner +:+ "/" +:+ repo) ∅ None None;
  mret JNull.

Definition unstar_repository (self : GitHubStarsClient) (owner repo : string) : M json :=
  _ ← delete (api self) ("user/starred/" +:+ owner +:+ "/" +:+ repo) None None;
  mret JNull.

Definition list_starred_repositories (self : GitHubStarsClient)
    (username : option string) (per_page page sort direction : json) : M json :=
  let params : dict :=
    set_unless_none "direction" direction
      (set_unless_none "sort" sort
         (set_unless_none "page" page (set_unless_none "per_page" per_page ∅))) in
  let endpoint :=
    if truthy (str_or_none username)
    then "users/" +:+ default "" username +:+ "/starred" else "user/starred" in
  get (api self) endpoint (Some params) None.

Definition get_star_count (self : GitHubStarsClient) (owner repo : string) : M json :=
  repo_info ← get (api self) ("repos/" +:+ owner +:+ "/" +:+ repo) None None;
  match get_or repo_info "stargazers_count" (JNum 0) with
  | Some count => mret count
  | None => throw AttributeError
  end.

(** The state of the [while] loop of [get_star_history] after one more
    iteration. *)
Inductive step : Type :=
| Break (all_stars : list json)
| Continue (star_history : json) (all_stars : list json).

(** The body of the loop, for the page [page] that [params["page"] += 1] has
    made current. *)
Definition star_history_page (self : GitHubStarsClient) (endpoint : string)
    (per_page page : Z) (all_stars : list json) : M step :=
  let headers : gmap string string :=
    {["Accept" := "application/vnd.github.v3.star+json"]} in
  try_except
    (star_history ← get (api self) endpoint
       (Some (<["page" := JNum page]> {["per_page" := JNum per_page]})) (Some headers);
     match extension star_history with
     | Some items => mret (Continue star_history (all_stars ++ items))
     | None => throw TypeError
     end)
    (fun e =>
       match e with
       | RequestError (HTTPError r) =>
         if status_code r =? 404 then mret (Break all_stars) else throw e
       | _ => throw e
       end).

(** [while len(star_history) == per_page: ...] with [all_stars] a list. *)
Fixpoint star_history_pages (fuel : nat) (self : GitHubStarsClient) (endpoint : string)
    (per_page page : Z) (star_history : json) (all_stars : list json) : M (list json) :=
  match fuel with
  | O => fun pending => finish OutOfFuel pending
  | S fuel' =>
    match len_of star_history with
    | None => throw TypeError
    | Some n =>
      if n =? per_page then
        s ← star_history_page self endpoint per_page (page + 1) all_stars;
        match s with
        | Break all_stars => mret all_stars
        | Continue star_history all_stars =>
          star_history_pages fuel' self endpoint per_page (page + 1) star_history all_stars
        end
      else mret all_stars
    end
  end.

(** [get_star_history(owner, repo, per_page=100)].  The first response is
    copied with [.copy()], which lists and dicts have; a dict cannot be
    extended, so for a dict of [per_page] keys the loop fetches one more page
    and raises [AttributeError] at [all_stars.extend]. *)
Definition get_star_history (self : GitHubStarsClient) (owner repo : string)
    (per_page : Z) : M json := fun pending =>
  let headers : gmap string string :=
    {["Accept" := "application/vnd.github.v3.star+json"]} in
  let endpoint := "repos/" +:+ owner +:+ "/" +:+ repo +:+ "/stargazers" in
  (star_history ← get (api self) endpoint
     (Some (<["page" := JNum 1]> {["per_page" := JNum per_page]})) (Some headers);
   match star_history with
   | JList all_stars =>
     all_stars ← star_history_pages (S (length pending)) self endpoint per_page 1
                   star_history all_stars;
     mret (JList all_stars)
   | JDict d =>
     if Z.of_nat (size d) =? per_page then
       try_except
         (_ ← get (api self) endpoint
            (Some (<["page" := JNum 2]> {["per_page" := JNum per_page]})) (Some headers);
          throw AttributeError)
         (fun e =>
            match e with
            | RequestError (HTTPError r) =>
              if status_code r =? 404 then mret star_history else throw e
            | _ => throw e
            end)
     else mret star_history
   | _ => throw AttributeError
   end) pending.

Definition get_trending_repositories (self : GitHubStarsClient)
    (language since spoken_language : json) : M json :=
  let params : dict :=
    set_if_truthy "spoken_language_code" spoken_language
      (set_if_truthy "since" since (set_if_truthy "language" language ∅)) in
  get (api self) "trending/repositories" (Some params) None.

Definition export_stargazers (self : GitHubStarsClient) (owner repo format : string)
    : M content :=
  let accept_format := "application/" +:+ format in
  let endpoint := "repos/" +:+ owner +:+ "/" +:+ repo +:+ "/stargazers/export" in
  let params : dict := {["format" := JStr format]} in
  get_raw (api self) endpoint (Some params) (Some accept_format).

Definition get_user_star_recommendations (self : GitHubStarsClient) (limit : json)
    : M json :=
  let params : dict := set_unless_none "limit" limit ∅ in
  get (api self) "user/recommendations/repositories" (Some params) None.

End StargazersAdvanced.

(** * Chapter_4/stargazers-advanced2.py *)
Module StargazersAdvanced2.

(** [GitHubAPIBase], after [__init__]. *)
Record GitHubAPIBase : Type := {
  base_url : string;
  api_key : option string;
  max_retries : Z;
  retry_delay : Q;
  timeout : Z
}.

(** [GitHubStargazersAPI] *)
Record GitHubStargazersAPI : Type := { api : GitHubAPIBase }.

(** The block shared by the handler and the code after the loop of
    [_request],
<<
    error_message = str(e)
    try:
        error_data = e.response.json()
        if "message" in error_data:
            error_message = error_data["message"]
    except (ValueError, KeyError):
        pass
    raise GitHubAPIError(status_code=e.response.status_code, message=error_message)
>>
    as the exception that leaves it.  A body that is JSON but not an object
    makes [in] or the subscript raise [TypeError], which the [except] clause
    does not catch. *)
Definition api_error (e : request_exception) (r : response) : exn :=
  let plain := GitHubAPIError (status_code r) (StrOf (Some e)) in
  match json_of r with
  | None => plain
  | Some (JDict error_data) =>
    match error_data !! "message" with
    | Some m => GitHubAPIError (status_code r) (Message m)
    | None => plain
    end
  | Some (JList l) =>
    if existsb (fun x => match x with JStr s => String.eqb s "message" | _ => false end) l
    then TypeError else plain
  | Some (JStr s) => if contains "message" s then TypeError else plain
  | Some _ => TypeError
  end.

(** [GitHubAPIBase.__init__(base_url="https://api.github.com", api_key=None,
    max_retries=3, retry_delay=1.0, timeout=30)]: the fields of the new
    client. *)
Definition __init__ (base_url : string) (api_key : option string)
    (max_retries : Z) (retry_delay : Q) (timeout : Z) : GitHubAPIBase :=
  Build_GitHubAPIBase (rstrip_slash base_url) api_key max_retries retry_delay timeout.

(** [400 <= status < 500 and status != 429] *)
Definition is_client_error (status : Z) : bool :=
  (400 <=? status) && (status <? 500) && negb (status =? 429).

Section RequestsVersion.

(** [response.json()] raises a [JSONDecodeError] that is a [ValueError] in
    every version of the requests library and, from requests 2.27 on, also a
    [RequestException].  The repository pins no version; the flag says which
    one is installed. *)
Variable json_error_is_request_exception : bool.

(** The [while retries <= self.max_retries] loop of [_request] and the code
    after it, for [raw_response=False] (no caller in the file passes
    [True]).  One iteration reads one reply. *)
Fixpoint _request_loop (self : GitHubAPIBase) (rq : request)
    (retries : Z) (last_error : option request_exception)
    (pending : list reply) {struct pending} : run json :=
  if retries <=? max_retries self then
    match pending with
    | [] => finish Blocked []
    | rp :: pending' =>
      (* except requests.exceptions.RequestException as e *)
      let on_request_exception (e : request_exception) : run json :=
        let retries := retries + 1 in
        let next :=
          if retries <=? max_retries self then
            emit [Sleep (Seconds (retry_delay self * Qpower 2 (retries - 1))%Q)]
              (_request_loop self rq retries (Some e) pending')
          else _request_loop self rq retries (Some e) pending' in
        match e with
        | HTTPError r =>
          if is_client_error (status_code r)
          then finish (Raise (api_error e r)) pending'
          else next
        | _ => next
        end in
      (* from response.raise_for_status() on *)
      let after_rate_limit_check (r : response) : run json :=
        match raise_for_status r with
        | Some e => on_request_exception e
        | None =>
          if negb (has_content r) then finish (Return JNull) pending'
          else
            match json_of r with
            | Some j => finish (Return j) pending'
            | None =>
              if json_error_is_request_exception
              then on_request_exception JSONDecodeError
              else finish (Raise (RequestError JSONDecodeError)) pending'
            end
        end in
      emit [Call rq]
        match rp with
        | TransportFailure msg => on_request_exception (ConnectionError msg)
        | Answer r =>
          if status_code r =? 429 then
            (* reset_time = int(response.headers.get("X-RateLimit-Reset", 0)) *)
            match x_ratelimit_reset r with
            | OtherText _ => finish (Raise ValueError) pending'
            | h =>
              let reset_time := match h with IntText n => n | _ => 0 end in
              if reset_time >? 0 then
                emit [Sleep (UntilReset reset_time)]
                  (_request_loop self rq retries last_error pending')
              else after_rate_limit_check r
            end
          else after_rate_limit_check r
        end
    end
  else
    match last_error with
    | Some (HTTPError r) => finish (Raise (api_error (HTTPError r) r)) pending
    | _ =>
      finish (Raise (GitHubAPIError 0
                (FailedAfter (max_retries self) (StrOf last_error)))) pending
    end.

Definition _request (self : GitHubAPIBase) (method endpoint : string)
    (params data : option dict) (headers : option (gmap string string)) : M json :=
  let url := base_url self +:+ "/" +:+ lstrip_slash endpoint in
  let request_headers := default ∅ headers in
  _request_loop self (Request method url params data request_headers) 0 None.

Definition get (self : GitHubAPIBase) (endpoint : string)
    (params : option dict) (headers : option (gmap string string)) : M json :=
  _request self "GET" endpoint params None headers.

Definition check_if_starred (self : GitHubStargazersAPI) (owner repo : string) : M bool :=
  let endpoint := "user/starred/" +:+ owner +:+ "/" +:+ repo in
  try_except
    (_ ← get (api self) endpoint None None; mret true)
    (fun e =>
       match e with
       | GitHubAPIError status _ => if status =? 404 then mret false else throw e
       | _ => throw e
       end).

(** What [all_stargazers.extend(v)] appends: the elements of a list, the keys
    of a dict (here in key order: they are strings, which the later
    [isinstance(item, dict)] filter drops), the characters of a string;
    [None] when [v] is not iterable ([TypeError]). *)
Definition iterate (v : json) : option (list json) :=
  match v with
  | JList l => Some l
  | JDict d => Some (JStr <$> (map_to_list d).*1)
  | JStr s => Some ((fun c => JStr (String c EmptyString)) <$> list_ascii_of_string s)
  | _ => None
  end.

Inductive step : Type :=
| Break (all_stargazers : list json)
| Continue (page : Z) (all_stargazers : list json).

(** One iteration of the [while True] loop of [get_star_history]: the
    [try] statement. *)
Definition star_history_page (self : GitHubStargazersAPI) (endpoint : string)
    (max_pages page : Z) (all_stargazers : list json) : M step :=
  try_except
    (let headers : gmap string string :=
       {["Accept" := "application/vnd.github.v3.star+json"]} in
     stargazers_page ← get (api self) endpoint
        (Some (<["page" := JNum page]> {["per_page" := JNum 100]})) (Some headers);
     if negb (truthy stargazers_page) || (page >? max_pages) then
       mret (Break all_stargazers)
     else
       match iterate stargazers_page with
       | None => throw TypeError
       | Some items =>
         let all_stargazers := all_stargazers ++ items in
         let page := page + 1 in
         if is_list stargazers_page && (Z.of_nat (length items) <? 100)
         then mret (Break all_stargazers)
         else mret (Continue page all_stargazers)
       end)
    (fun e =>
       match e with
       | GitHubAPIError _ _ => mret (Break all_stargazers)
       | _ => throw e
       end).

Fixpoint star_history_pages (fuel : nat) (self : GitHubStargazersAPI)
    (endpoint : string) (max_pages page : Z) (all_stargazers : list json) : M (list json) :=
  match fuel with
  | O => fun pending => finish OutOfFuel pending
  | S fuel' =>
    s ← star_history_page self endpoint max_pages page all_stargazers;
    match s with
    | Break all_stargazers => mret all_stargazers
    | Continue page all_stargazers =>
      star_history_pages fuel' self endpoint max_pages page all_stargazers
    end
  end.

(** The [for item in all_stargazers] loop: the entries appended to
    [history]. *)
Fixpoint history_of (all_stargazers : list json) : M (list json) :=
  match all_stargazers with
  | [] => mret []
  | item :: rest =>
    match item with
    | JDict d =>
      let user := default (JDict ∅) (d !! "user") in
      let starred_at := default JNull (d !! "starred_at") in
      if truthy user && truthy starred_at then
        match user with
        | JDict u =>
          let entry : dict :=
            <["user_id" := default JNull (u !! "id")]>
            (<["username" := default JNull (u !! "login")]>
            {["starred_at" := starred_at]}) in
          history ← history_of rest; mret (JDict entry :: history)
        | _ => throw AttributeError      (* user.get on a non-dict *)
        end
      else history_of rest
    | _ => history_of rest
    end
  end.

Definition get_star_history (self : GitHubStargazersAPI) (owner repo : string)
    (max_pages : Z) : M (list json) := fun pending =>
  let endpoint := "repos/" +:+ owner +:+ "/" +:+ repo +:+ "/stargazers" in
  (all_stargazers ←
     star_history_pages (S (length pending)) self endpoint max_pages 1 [];
   history_of all_stargazers) pending.

Definition post (self : GitHubAPIBase) (endpoint : string) (data params : option dict)
    (headers : option (gmap string string)) : M json :=
  _request self "POST" endpoint params data headers.

Definition put (self : GitHubAPIBase) (endpoint : string) (data params : option dict)
    (headers : option (gmap string string)) : M json :=
  _request self "PUT" endpoint params data headers.

Definition patch (self : GitHubAPIBase) (endpoint : string) (data params : option dict)
    (headers : option (gmap string string)) : M json :=
  _request self "PATCH" endpoint params data headers.

Definition delete (self : GitHubAPIBase) (endpoint : string)
    (params : option dict) (headers : option (gmap string string)) : M json :=
  _request self "DELETE" endpoint params None headers.

(** [headers = {"Accept": ...} if sort == "created" else None] *)
Definition star_headers (sort : json) : option (gmap string string) :=
  match sort with
  | JStr s =>
    if String.eqb s "created"
    then Some {["Accept" := "application/vnd.github.v3.star+json"]} else None
  | _ => None
  end.

Definition list_stargazers (self : GitHubStargazersAPI) (owner repo : string)
    (per_page page sort : json) : M json :=
  let params : dict :=
    set_unless_none "page" page (set_unless_none "per_page" per_page ∅) in
  let endpoint := "repos/" +:+ owner +:+ "/" +:+ repo +:+ "/stargazers" in
  get (api self) endpoint (Some params) (star_headers sort).

Definition star_repository (self : GitHubStargazersAPI) (owner repo : string) : M json :=
  let endpoint := "user/starred/" +:+ owner +:+ "/" +:+ repo in
  _ ← put (api self) endpoint None None None;
  mret JNull.

Definition unstar_repository (self : GitHubStargazersAPI) (owner repo : string) : M json :=
  let endpoint := "user/starred/" +:+ owner +:+ "/" +:+ repo in
  _ ← delete (api self) endpoint None None;
  mret JNull.

Definition list_starred_repositories (self : GitHubStargazersAPI)
    (username : option string) (sort direction per_page page : json) : M json :=
  let params : dict :=
    set_unless_none "page" page
      (set_unless_none "per_page" per_page
         (set_unless_none "direction" direction (set_unless_none "sort" sort ∅))) in
  let endpoint :=
    if truthy (str_or_none username)
    then "users/" +:+ default "" username +:+ "/starred" else "user/starred" in
  get (api self) endpoint (Some params) (star_headers sort).

Definition get_repository_stargazer_count (self : GitHubStargazersAPI)
    (owner repo : string) : M json :=
  let endpoint := "repos/" +:+ owner +:+ "/" +:+ repo in
  repo_data ← get (api self) endpoint None None;
  match get_or repo_data "stargazers_count" (JNum 0) with
  | Some count => mret count
  | None => throw AttributeError
  end.

End RequestsVersion.

End StargazersAdvanced2.

(** ** Plain [requests] calls *)

(** [requests.get(...)], [requests.post(...)], [session.get(...)]: one
    exchange, returning the response or raising the transport failure. *)
Definition exchange (rq : request) : M response := fun pending =>
  match pending with
  | [] => finish Blocked []
  | Answer r :: pending' => Run (Return r) [Call rq] pending'
  | TransportFailure msg :: pending' =>
    Run (Raise (RequestError (ConnectionError msg))) [Call rq] pending'
  end.

(** [response.raise_for_status()] as a statement. *)
Definition check_status (r : response) : M unit :=
  match raise_for_status r with
  | Some e => throw (RequestError e)
  | None => mret tt
  end.

(** [response.json()] outside any handler. *)
Definition decode (r : response) : M json :=
  match json_of r with
  | Some j => mret j
  | None => throw (RequestError JSONDecodeError)
  end.

(** * Chapter_4/output.py *)
Module Output.

(** [GitHubAPI], after [__init__] ([base_url] is stored [rstrip('/')]-ed). *)
Record GitHubAPI : Type := {
  token : string;
  base_url : string
}.

(** [self.headers] *)
Definition default_headers (self : GitHubAPI) : gmap string string :=
  <["Authorization" := "token " +:+ token self]>
  (<["Accept" := "application/vnd.github+json"]>
  {["X-GitHub-Api-Version" := "2022-11-28"]}).

(** [GitHubAPI.__init__(token, base_url="https://api.github.com")] *)
Definition __init__ (token base_url : string) : GitHubAPI :=
  Build_GitHubAPI token (rstrip_slash base_url).

(** The handler of [_request],
<<
    try:
        error_data = e.response.json()
        raise Exception(f"GitHub API Error: {e.response.status_code} - {error_data.get('message', str(e))}")
    except (ValueError, AttributeError):
        raise Exception(f"GitHub API Error: {str(e)}")
>>
    as the exception that leaves it: [e.response] is [None] for every
    request exception but [HTTPError], and [.get] exists on objects only. *)
Definition api_error (e : request_exception) : exn :=
  let plain := Exception (ApiError None (StrOf (Some e))) in
  match e with
  | HTTPError r =>
    match json_of r with
    | Some (JDict error_data) =>
      Exception (ApiError (Some (status_code r))
                   (default (StrOf (Some e)) (Message <$> error_data !! "message")))
    | _ => plain
    end
  | _ => plain
  end.

(** Objects live in a store, so that a dict the caller passes and the dict
    the callee writes to can be the same object.  A reference is an index. *)
Abbreviation heap := (list dict).

(** [obj[k] = v] *)
Definition store (h : heap) (obj : nat) (k : string) (v : json) : heap :=
  <[obj := <[k := v]> (h !!! obj)]> h.

(** [n < v] for an [int] [n]: [bool] is a subclass of [int]; other operands
    raise [TypeError] ([None]). *)
Definition int_lt (n : Z) (v : json) : option bool :=
  match v with
  | JNum m => Some (n <? m)
  | JBool b => Some (n <? (if b then 1 else 0))
  | _ => None
  end.

Section RequestsVersion.

(** See [StargazersAdvanced2]. *)
Variable json_error_is_request_exception : bool.

(** [_request]: on 429 it sleeps and calls itself; every call reads one
    reply. *)
Fixpoint _request (self : GitHubAPI) (method endpoint : string)
    (data params : option dict) (headers : option (gmap string string))
    (pending : list reply) {struct pending} : run json :=
  let url := base_url self +:+ endpoint in
  let request_headers := default ∅ headers ∪ default_headers self in
  (* json=data if data else None *)
  let sent :=
    match data with
    | Some d => if truthy (JDict d) then Some d else None
    | None => None
    end in
  match pending with
  | [] => finish Blocked []
  | rp :: pending' =>
    emit [Call (Request method url params sent request_headers)]
      match rp with
      | TransportFailure msg =>
        finish (Raise (api_error (ConnectionError msg))) pending'
      | Answer r =>
        if status_code r =? 429 then
          (* reset_time = int(response.headers.get('X-RateLimit-Reset', 0)) *)
          match x_ratelimit_reset r with
          | OtherText _ => finish (Raise ValueError) pending'
          | h =>
            let reset_time := match h with IntText n => n | _ => 0 end in
            emit [Sleep (UntilReset reset_time)]
              (_request self method endpoint data params headers pending')
          end
        else
          match raise_for_status r with
          | Some e => finish (Raise (api_error e)) pending'
          | None =>
            if status_code r =? 204 then finish (Return JNull) pending'
            else
              match json_of r with
              | Some j => finish (Return j) pending'
              | None =>
                if json_error_is_request_exception
                then finish (Raise (api_error JSONDecodeError)) pending'
                else finish (Raise (RequestError JSONDecodeError)) pending'
              end
          end
      end
  end.

(** The [while True] loop of [paginate]; [params] is the reference of the
    dict it writes [page] to. *)
Fixpoint paginate_loop (fuel : nat) (self : GitHubAPI) (endpoint : string)
    (params : nat) (page : Z) (all_items : list json)
    (h : heap) (pending : list reply) : run (list json) * heap :=
  match fuel with
  | O => (finish OutOfFuel pending, h)
  | S fuel' =>
    let h := store h params "page" (JNum page) in
    let r := _request self "GET" endpoint None (Some (h !!! params)) None pending in
    match outcome r with
    | Return response =>
      match response with
      | JList items =>
        (* not response ... or len(response) == 0 *)
        if negb (truthy response) || (len items =? 0)
        then (Run (Return all_items) (trace r) (unread r), h)
        else
          let all_items := all_items ++ items in
          match (h !!! params) !! "per_page" with
          | None => (Run (Raise KeyError) (trace r) (unread r), h)
          | Some per_page =>
            match int_lt (len items) per_page with
            | None => (Run (Raise TypeError) (trace r) (unread r), h)
            | Some true => (Run (Return all_items) (trace r) (unread r), h)
            | Some false =>
              let '(r', h') :=
                paginate_loop fuel' self endpoint params (page + 1) all_items
                  h (unread r) in
              (emit (trace r) r', h')
            end
          end
      | _ =>
        (* not response or not isinstance(response, list) *)
        (Run (Return all_items) (trace r) (unread r), h)
      end
    | Raise e => (Run (Raise e) (trace r) (unread r), h)
    | Blocked => (Run Blocked (trace r) (unread r), h)
    | OutOfFuel => (Run OutOfFuel (trace r) (unread r), h)
    end
  end.

(** [paginate(endpoint, params)]: [params] is [None] or the reference of the
    caller's dict.  [params or {}] keeps the caller's object only when it is
    truthy, that is non-empty; otherwise a new dict is allocated. *)
Definition paginate (self : GitHubAPI) (endpoint : string) (params : option nat)
    (h : heap) (pending : list reply) : run (list json) * heap :=
  let '(params, h) :=
    match params with
    | Some obj => if truthy (JDict (h !!! obj)) then (obj, h) else (length h, h ++ [∅])
    | None => (length h, h ++ [∅])
    end in
  let h := store h params "per_page"
             (default (JNum 100) ((h !!! params) !! "per_page")) in
  paginate_loop (S (length pending)) self endpoint params 1 [] h pending.

(** [create_issue(owner, repo, title, body=None, **kwargs)] *)
Definition create_issue (self : GitHubAPI) (owner repo title : string)
    (body : option string) (kwargs : dict) : M json :=
  let data : dict := kwargs ∪ {["title" := JStr title]} in
  let data :=
    match body with
    | Some b => if truthy (JStr b) then <["body" := JStr b]> data else data
    | None => data
    end in
  _request self "POST" ("/repos/" +:+ owner +:+ "/" +:+ repo +:+ "/issues")
    (Some data) None None.

(** [update_issue(owner, repo, issue_number, **kwargs)] *)
Definition update_issue (self : GitHubAPI) (owner repo : string) (issue_number : Z)
    (kwargs : dict) : M json :=
  _request self "PATCH"
    ("/repos/" +:+ owner +:+ "/" +:+ repo +:+ "/issues/" +:+ pretty issue_number)
    (Some kwargs) None None.

(** [create_repository(name, org=None, **kwargs)] *)
Definition create_repository (self : GitHubAPI) (name : string) (org : option string)
    (kwargs : dict) : M json :=
  let data : dict := kwargs ∪ {["name" := JStr name]} in
  match org with
  | Some o =>
    if truthy (JStr o)
    then _request self "POST" ("/orgs/" +:+ o +:+ "/repos") (Some data) None None
    else _request self "POST" "/user/repos" (Some data) None None
  | None => _request self "POST" "/user/repos" (Some data) None None
  end.

(** [update_repository(owner, repo, **kwargs)] *)
Definition update_repository (self : GitHubAPI) (owner repo : string)
    (kwargs : dict) : M json :=
  _request self "PATCH" ("/repos/" +:+ owner +:+ "/" +:+ repo) (Some kwargs) None None.

(** [create_pull_request(owner, repo, title, head, base, body=None, **kwargs)] *)
Definition create_pull_request (self : GitHubAPI) (owner repo title head base : string)
    (body : option string) (kwargs : dict) : M json :=
  let data : dict :=
    kwargs ∪ (<["title" := JStr title]> (<["head" := JStr head]> {["base" := JStr base]})) in
  let data :=
    match body with
    | Some b => if truthy (JStr b) then <["body" := JStr b]> data else data
    | None => data
    end in
  _request self "POST" ("/repos/" +:+ owner +:+ "/" +:+ repo +:+ "/pulls")
    (Some data) None None.

(** [update_pull_request(owner, repo, pull_number, **kwargs)] *)
Definition update_pull_request (self : GitHubAPI) (owner repo : string) (pull_number : Z)
    (kwargs : dict) : M json :=
  _request self "PATCH"
    ("/repos/" +:+ owner +:+ "/" +:+ repo +:+ "/pulls/" +:+ pretty pull_number)
    (Some kwargs) None None.

(** The list wrappers build a new dict and hand it to [paginate]: the dict is
    allocated at the end of the store. *)
Definition paginate_with (self : GitHubAPI) (endpoint : string) (params : dict)
    (h : heap) (pending : list reply) : run (list json) * heap :=
  paginate self endpoint (Some (length h)) (h ++ [params]) pending.

(** [list_repositories(org, type='all', sort='updated', direction='desc')] *)
Definition list_repositories (self : GitHubAPI) (org type sort direction : string)
    (h : heap) (pending : list reply) : run (list json) * heap :=
  paginate_with self ("/orgs/" +:+ org +:+ "/repos")
    (<["type" := JStr type]> (<["sort" := JStr sort]> {["direction" := JStr direction]}))
    h pending.

Definition get_repository (self : GitHubAPI) (owner repo : string) : M json :=
  _request self "GET" ("/repos/" +:+ owner +:+ "/" +:+ repo) None None None.

Definition delete_repository (self : GitHubAPI) (owner repo : string) : M json :=
  _request self "DELETE" ("/repos/" +:+ owner +:+ "/" +:+ repo) None None None.

(** [str(protected).lower()] for a [bool] *)
Definition lower_bool (b : bool) : string := if b then "true" else "false".

(** [list_branches(owner, repo, protected=None)] *)
Definition list_branches (self : GitHubAPI) (owner repo : string)
    (protected : option bool) (h : heap) (pending : list reply)
    : run (list json) * heap :=
  let params : dict :=
    match protected with
    | Some b => {["protected" := JStr (lower_bool b)]}
    | None => ∅
    end in
  paginate_with self ("/repos/" +:+ owner +:+ "/" +:+ repo +:+ "/branches") params h pending.

(** [list_issues(owner, repo, state='open', sort='created', direction='desc')] *)
Definition list_issues (self : GitHubAPI) (owner repo state sort direction : string)
    (h : heap) (pending : list reply) : run (list json) * heap :=
  paginate_with self ("/repos/" +:+ owner +:+ "/" +:+ repo +:+ "/issues")
    (<["state" := JStr state]> (<["sort" := JStr sort]> {["direction" := JStr direction]}))
    h pending.

(** [list_pull_requests(owner, repo, state='open', sort='created',
    direction='desc')] *)
Definition list_pull_requests (self : GitHubAPI) (owner repo state sort direction : string)
    (h : heap) (pending : list reply) : run (list json) * heap :=
  paginate_with self ("/repos/" +:+ owner +:+ "/" +:+ repo +:+ "/pulls")
    (<["state" := JStr state]> (<["sort" := JStr sort]> {["direction" := JStr direction]}))
    h pending.


Definition list_organizations (self : GitHubAPI) (h : heap) (pending : list reply)
    : run (list json) * heap :=
  paginate self "/user/orgs" None h pending.

(** [list_organization_members(org, role='all')] *)
Definition list_organization_members (self : GitHubAPI) (org role : string)
    (h : heap) (pending : list reply) : run (list json) * heap :=
  paginate_with self ("/orgs/" +:+ org +:+ "/members") {["role" := JStr role]} h pending.

Definition list_teams (self : GitHubAPI) (org : string) (h : heap) (pending : list reply)
    : run (list json) * heap :=
  paginate self ("/orgs/" +:+ org +:+ "/teams") None h pending.

(** [list_team_members(org, team_slug, role='all')] *)
Definition list_team_members (self : GitHubAPI) (org team_slug role : string)
    (h : heap) (pending : list reply) : run (list json) * heap :=
  paginate_with self ("/orgs/" +:+ org +:+ "/teams/" +:+ team_slug +:+ "/members")
    {["role" := JStr role]} h pending.

(** [list_workflow_runs(owner, repo, workflow_id, status=None)] for a
    workflow file name. *)
Definition list_workflow_runs (self : GitHubAPI) (owner repo workflow_id : string)
    (status : option string) : M json :=
  let params : dict := set_if_truthy "status" (str_or_none status) ∅ in
  _request self "GET"
    ("/repos/" +:+ owner +:+ "/" +:+ repo +:+ "/actions/workflows/" +:+ workflow_id
     +:+ "/runs")
    None (Some params) None.

(** [get_content(owner, repo, path, ref=None)] *)
Definition get_content (self : GitHubAPI) (owner repo path : string)
    (ref : option string) : M json :=
  let params : dict := set_if_truthy "ref" (str_or_none ref) ∅ in
  _request self "GET" ("/repos/" +:+ owner +:+ "/" +:+ repo +:+ "/contents/" +:+ path)
    None (Some params) None.


End RequestsVersion.

End Output.

(** A missing optional argument takes its default [None]. *)
Definition or_none (arg : option json) : json := default JNull arg.

(** * Chapter_2/stargazers.py *)
Module Chapter2.

Record GitHubAPI : Type := {
  token : string;
  base_url : string
}.

(** [self.headers] *)
Definition default_headers (self : GitHubAPI) : gmap string string :=
  <["Authorization" := "Bearer " +:+ token self]>
  {["Accept" := "application/vnd.github+json"]}.

(** The [data] dict of [create_issue(owner, repo, title, body=None,
    assignees=None, labels=None)] (the same in [Chapter_3/stargazers.py],
    [Chapter_3/section-4-step-1.py] and
    [samples/Chapter 3/section-4-step-2.py]). *)
Definition create_issue_data (title : json) (body assignees labels : option json) : dict :=
  <["title" := title]>
  (<["body" := or_none body]>
  (<["assignees" := or_none assignees]>
  {["labels" := or_none labels]})).

Definition create_issue (self : GitHubAPI) (owner repo : string) (title : json)
    (body assignees labels : option json) : M json :=
  let url := base_url self +:+ "/repos/" +:+ owner +:+ "/" +:+ repo +:+ "/issues" in
  let data := create_issue_data title body assignees labels in
  response ← exchange (Request "POST" url None (Some data) (default_headers self));
  _ ← check_status response;
  decode response.

Definition check_if_starred (self : GitHubAPI) (owner repo : string) : M bool :=
  let url := base_url self +:+ "/user/starred/" +:+ owner +:+ "/" +:+ repo in
  response ← exchange (Request "GET" url None None (default_headers self));
  mret (status_code response =? 204).

Definition get_repository (self : GitHubAPI) (owner repo : string) : M json :=
  let url := base_url self +:+ "/repos/" +:+ owner +:+ "/" +:+ repo in
  response ← exchange (Request "GET" url None None (default_headers self));
  _ ← check_status response;
  decode response.

(** [list_issues(owner, repo, state="open")] *)
Definition list_issues (self : GitHubAPI) (owner repo : string) (state : json) : M json :=
  let url := base_url self +:+ "/repos/" +:+ owner +:+ "/" +:+ repo +:+ "/issues" in
  let params : dict := {["state" := state]} in
  response ← exchange (Request "GET" url (Some params) None (default_headers self));
  _ ← check_status response;
  decode response.

Definition list_stargazers (self : GitHubAPI) (owner repo : string) : M json :=
  let url := base_url self +:+ "/repos/" +:+ owner +:+ "/" +:+ repo +:+ "/stargazers" in
  response ← exchange (Request "GET" url None None (default_headers self));
  _ ← check_status response;
  decode response.

Definition list_starred_repositories (self : GitHubAPI) (username : string) : M json :=
  let url := base_url self +:+ "/users/" +:+ username +:+ "/starred" in
  response ← exchange (Request "GET" url None None (default_headers self));
  _ ← check_status response;
  decode response.

Definition star_repository (self : GitHubAPI) (owner repo : string) : M bool :=
  let url := base_url self +:+ "/user/starred/" +:+ owner +:+ "/" +:+ repo in
  response ← exchange (Request "PUT" url None None (default_headers self));
  _ ← check_status response;
  mret (status_code response =? 204).

Definition unstar_repository (self : GitHubAPI) (owner repo : string) : M bool :=
  let url := base_url self +:+ "/user/starred/" +:+ owner +:+ "/" +:+ repo in
  response ← exchange (Request "DELETE" url None None (default_headers self));
  _ ← check_status response;
  mret (status_code response =? 204).

End Chapter2.

(** * samples/Chapter 3/section-4-step-2.py *)
Module Chapter3Samples.

Record GitHubAPI : Type := {
  token : string;
  base_url : string
}.

Definition default_headers (self : GitHubAPI) : gmap string string :=
  <["Authorization" := "Bearer " +:+ token self]>
  {["Accept" := "application/vnd.github+json"]}.

Definition create_issue (self : GitHubAPI) (owner repo : string) (title : json)
    (body assignees labels : option json) : M json :=
  let url := base_url self +:+ "/repos/" +:+ owner +:+ "/" +:+ repo +:+ "/issues" in
  let data := Chapter2.create_issue_data title body assignees labels in
  response ← exchange (Request "POST" url None (Some data) (default_headers self));
  _ ← check_status response;
  decode response.

(** The [data] dict of [update_issue(owner, repo, issue_number, title=None,
    body=None, state=None, assignees=None, labels=None)]. *)
Definition update_issue_data (title body state assignees labels : option json) : dict :=
  <["title" := or_none title]>
  (<["body" := or_none body]>
  (<["state" := or_none state]>
  (<["assignees" := or_none assignees]>
  {["labels" := or_none labels]}))).

Definition update_issue (self : GitHubAPI) (owner repo : string) (issue_number : Z)
    (title body state assignees labels : option json) : M json :=
  let url := base_url self +:+ "/repos/" +:+ owner +:+ "/" +:+ repo +:+ "/issues/"
             +:+ pretty issue_number in
  let data := update_issue_data title body state assignees labels in
  response ← exchange (Request "PATCH" url None (Some data) (default_headers self));
  _ ← check_status response;
  decode response.

(** The URL of an issue, [{self.base_url}/repos/{owner}/{repo}/issues/{issue_number}]. *)
Definition issue_url (self : GitHubAPI) (owner repo : string) (issue_number : Z) : string :=
  base_url self +:+ "/repos/" +:+ owner +:+ "/" +:+ repo +:+ "/issues/"
  +:+ pretty issue_number.

Definition get_issue (self : GitHubAPI) (owner repo : string) (issue_number : Z) : M json :=
  response ← exchange (Request "GET" (issue_url self owner repo issue_number)
                         None None (default_headers self));
  _ ← check_status response;
  decode response.

Definition lock_issue (self : GitHubAPI) (owner repo : string) (issue_number : Z) : M bool :=
  let url := issue_url self owner repo issue_number +:+ "/lock" in
  response ← exchange (Request "PUT" url None None (default_headers self));
  _ ← check_status response;
  mret (status_code response =? 204).

Definition unlock_issue (self : GitHubAPI) (owner repo : string) (issue_number : Z) : M bool :=
  let url := issue_url self owner repo issue_number +:+ "/lock" in
  response ← exchange (Request "DELETE" url None None (default_headers self));
  _ ← check_status response;
  mret (status_code response =? 204).

Definition add_assignees (self : GitHubAPI) (owner repo : string) (issue_number : Z)
    (assignees : json) : M json :=
  let url := issue_url self owner repo issue_number +:+ "/assignees" in
  let data : dict := {["assignees" := assignees]} in
  response ← exchange (Request "POST" url None (Some data) (default_headers self));
  _ ← check_status response;
  decode response.

Definition remove_assignees (self : GitHubAPI) (owner repo : string) (issue_number : Z)
    (assignees : json) : M json :=
  let url := issue_url self owner repo issue_number +:+ "/assignees" in
  let data : dict := {["assignees" := assignees]} in
  response ← exchange (Request "DELETE" url None (Some data) (default_headers self));
  _ ← check_status response;
  decode response.

Definition create_issue_comment (self : GitHubAPI) (owner repo : string) (issue_number : Z)
    (body : json) : M json :=
  let url := issue_url self owner repo issue_number +:+ "/comments" in
  let data : dict := {["body" := body]} in
  response ← exchange (Request "POST" url None (Some data) (default_headers self));
  _ ← check_status response;
  decode response.

Definition delete_issue_comment (self : GitHubAPI) (owner repo : string) (comment_id : Z)
    : M bool :=
  let url := base_url self +:+ "/repos/" +:+ owner +:+ "/" +:+ repo
             +:+ "/issues/comments/" +:+ pretty comment_id in
  response ← exchange (Request "DELETE" url None None (default_headers self));
  _ ← check_status response;
  mret (status_code response =? 204).

End Chapter3Samples.

(** * Chapter_4/stargazers.py *)
Module Chapter4Stargazers.

Definition auth_headers (token : string) : gmap string string :=
  <["Authorization" := "token " +:+ token]>
  (<["Accept" := "application/vnd.github+json"]>
  {["X-GitHub-Api-Version" := "2022-11-28"]}).

(** [check_if_starred(token, owner, repo)]: the function ends after
    [response.raise_for_status()] in the [else] branch, so a status that does
    not raise there yields [None]. *)
Definition check_if_starred (token owner repo : string) : M json :=
  let url := "https://api.github.com/user/starred/" +:+ owner +:+ "/" +:+ repo in
  response ← exchange (Request "GET" url None None (auth_headers token));
  if status_code response =? 204 then mret (JBool true)
  else if status_code response =? 404 then mret (JBool false)
  else (_ ← check_status response; mret JNull).

Definition star_repository (token owner repo : string) : M json :=
  let url := "https://api.github.com/user/starred/" +:+ owner +:+ "/" +:+ repo in
  response ← exchange (Request "PUT" url None None (auth_headers token));
  _ ← check_status response;
  mret JNull.

Definition unstar_repository (token owner repo : string) : M json :=
  let url := "https://api.github.com/user/starred/" +:+ owner +:+ "/" +:+ repo in
  response ← exchange (Request "DELETE" url None None (auth_headers token));
  _ ← check_status response;
  mret JNull.

(** [list_starred_repositories(token, username=None, sort="created",
    direction="desc", per_page=30, page=1)] *)
Definition list_starred_repositories (token : string) (username : option string)
    (sort direction per_page page : json) : M json :=
  let params : dict :=
    <["sort" := sort]> (<["direction" := direction]>
    (<["per_page" := per_page]> {["page" := page]})) in
  let url :=
    if truthy (str_or_none username)
    then "https://api.github.com/users/" +:+ default "" username +:+ "/starred"
    else "https://api.github.com/user/starred" in
  response ← exchange (Request "GET" url (Some params) None (auth_headers token));
  _ ← check_status response;
  decode response.

(** [list_stargazers(token, owner, repo, per_page=30, page=1)] *)
Definition list_stargazers (token owner repo : string) (per_page page : json) : M json :=
  let url := "https://api.github.com/repos/" +:+ owner +:+ "/" +:+ repo +:+ "/stargazers" in
  let params : dict := <["per_page" := per_page]> {["page" := page]} in
  response ← exchange (Request "GET" url (Some params) None (auth_headers token));
  _ ← check_status response;
  decode response.

(** [return response.json()["stargazers_count"]] *)
Definition get_starred_count (token owner repo : string) : M json :=
  let url := "https://api.github.com/repos/" +:+ owner +:+ "/" +:+ repo in
  response ← exchange (Request "GET" url None None (auth_headers token));
  _ ← check_status response;
  data ← decode response;
  match subscript data "stargazers_count" with
  | inr count => mret count
  | inl e => throw e
  end.

End Chapter4Stargazers.

(** * Chapter_4/stargazers-class.py *)
Module StargazersClass.

Record StargazersClient : Type := {
  base_url : string;
  api_key : option string
}.

Definition is_repository_starred (self : StargazersClient)
    (repository_id user_id : string) : M bool :=
  let url := base_url self +:+ "/repositories/" +:+ repository_id +:+ "/stargazers/"
             +:+ user_id in
  try_except
    (response ← exchange (Request "GET" url None None ∅);
     _ ← check_status response;
     mret true)
    (fun e =>
       match e with
       | RequestError (HTTPError r) =>
         if status_code r =? 404 then mret false else throw e
       | _ => throw e
       end).

(** [StargazersClient.__init__(base_url, api_key=None)] *)
Definition __init__ (base_url : string) (api_key : option string) : StargazersClient :=
  Build_StargazersClient (rstrip_slash base_url) api_key.

(** [list_stargazers(repository_id, limit=None, offset=None, sort_by=None)] *)
Definition list_stargazers (self : StargazersClient) (repository_id : string)
    (limit offset sort_by : json) : M json :=
  let params : dict :=
    set_unless_none "sort_by" sort_by
      (set_unless_none "offset" offset (set_unless_none "limit" limit ∅)) in
  let url := base_url self +:+ "/repositories/" +:+ repository_id +:+ "/stargazers" in
  response ← exchange (Request "GET" url (Some params) None ∅);
  _ ← check_status response;
  decode response.

Definition remove_stargazer (self : StargazersClient) (repository_id user_id : string)
    : M json :=
  let url := base_url self +:+ "/repositories/" +:+ repository_id +:+ "/stargazers/"
             +:+ user_id in
  response ← exchange (Request "DELETE" url None None ∅);
  _ ← check_status response;
  mret JNull.

(** [return response.json().get("count", 0)] *)
Definition get_stargazer_count (self : StargazersClient) (repository_id : string) : M json :=
  let url := base_url self +:+ "/repositories/" +:+ repository_id +:+ "/stargazers/count" in
  response ← exchange (Request "GET" url None None ∅);
  _ ← check_status response;
  data ← decode response;
  match get_or data "count" (JNum 0) with
  | Some count => mret count
  | None => throw AttributeError
  end.

(** [get_star_history(repository_id, interval="day", start_date=None,
    end_date=None)] *)
Definition get_star_history (self : StargazersClient) (repository_id : string)
    (interval start_date end_date : json) : M json :=
  let params : dict :=
    set_if_truthy "end_date" end_date
      (set_if_truthy "start_date" start_date {["interval" := interval]}) in
  let url := base_url self +:+ "/repositories/" +:+ repository_id +:+ "/star-history" in
  response ← exchange (Request "GET" url (Some params) None ∅);
  _ ← check_status response;
  decode response.

(** [get_trending_repositories(period="day", category=None, language=None,
    limit=10)] *)
Definition get_trending_repositories (self : StargazersClient)
    (period category language limit : json) : M json :=
  let params : dict :=
    set_unless_none "limit" limit
      (set_if_truthy "language" language
         (set_if_truthy "category" category {["period" := period]})) in
  let url := base_url self +:+ "/repositories/trending" in
  response ← exchange (Request "GET" url (Some params) None ∅);
  _ ← check_status response;
  decode response.

(** [export_stargazers(repository_id, format="json")] returns
    [response.content]. *)
Definition export_stargazers (self : StargazersClient) (repository_id format : string)
    : M content :=
  let params : dict := {["format" := JStr format]} in
  let url := base_url self +:+ "/repositories/" +:+ repository_id +:+ "/stargazers/export" in
  response ← exchange (Request "GET" url (Some params) None
                         {["Accept" := "application/" +:+ format]});
  _ ← check_status response;
  mret (body response).

End StargazersClass.

(** * Vocabulary of the properties *)

(** ** Retrying in [StargazersAdvanced._make_request] *)


(** The sleep that follows a failed attempt made with the current [delay]. *)
Definition failure_wait (delay : Q) (rp : reply) : wait :=
  match rp with
  | Answer r =>
    if status_code r =? 429
    then Seconds (inject_Z (match retry_after r with
                            | IntText n => n
                            | _ => int_of_float delay
                            end))
    else Seconds delay
  | TransportFailure _ => Seconds delay
  end.


Fixpoint retry_trace (rq : request) (delay : Q) (fails : list reply) : list event :=
  match fails with
  | [] => []
  | rp :: fails' =>
    Call rq :: Sleep (failure_wait delay rp) :: retry_trace rq (delay * 2)%Q fails'
  end.


(** ** Retrying in [StargazersAdvanced2._request] *)

(** The reset time of a 429 that carries a positive integer
    [X-RateLimit-Reset]: the loop sleeps until then and tries again without
    counting the attempt. *)
Definition reset_wait (rp : reply) : option Z :=
  match rp with
  | Answer r =>
    if status_code r =? 429 then
      match x_ratelimit_reset r with
      | IntText n => if n >? 0 then Some n else None
      | _ => None
      end
    else None
  | TransportFailure _ => None
  end.

(** The request exception of an attempt that the handler of [_request]
    counts without raising: a transport failure, a response on which
    [raise_for_status] raises and that is no client error (a 5xx, or a 429
    without a positive reset time), an undecodable body when the decoding
    error is a request exception. *)
Definition counted_failure (json_error_is_request_exception : bool) (rp : reply)
    : option request_exception :=
  match rp with
  | TransportFailure msg => Some (ConnectionError msg)
  | Answer r =>
    if (status_code r =? 429) &&
       match x_ratelimit_reset r with
       | OtherText _ => true
       | IntText n => n >? 0
       | Absent => false
       end
    then None
    else
      match raise_for_status r with
      | Some e => if StargazersAdvanced2.is_client_error (status_code r) then None else Some e
      | None =>
        if has_content r && negb (bool_decide (is_Some (json_of r)))
           && json_error_is_request_exception
        then Some JSONDecodeError else None
      end
  end.

(** The loop of [_request] goes on after this reply (if it has retries
    left). *)
Definition goes_on (flag : bool) (rp : reply) : bool :=
  match reset_wait rp, counted_failure flag rp with
  | None, None => false
  | _, _ => true
  end.

(** Number of counted attempts among replies the loop goes on after. *)
Fixpoint counted (fs : list reply) : Z :=
  match fs with
  | [] => 0
  | rp :: fs' =>
    match reset_wait rp with
    | Some _ => counted fs'
    | None => 1 + counted fs'
    end
  end.

(** [last_error] after such replies. *)
Fixpoint last_failure (flag : bool) (last_error : option request_exception)
    (fs : list reply) : option request_exception :=
  match fs with
  | [] => last_error
  | rp :: fs' =>
    match reset_wait rp with
    | Some _ => last_failure flag last_error fs'
    | None => last_failure flag (counted_failure flag rp) fs'
    end
  end.

(** The exchanges and sleeps of such replies, from [retries] counted
    attempts on. *)
Fixpoint request_retry_trace (self : StargazersAdvanced2.GitHubAPIBase) (rq : request)
    (retries : Z) (fs : list reply) : list event :=
  match fs with
  | [] => []
  | rp :: fs' =>
    match reset_wait rp with
    | Some reset_time =>
      Call rq :: Sleep (UntilReset reset_time) :: request_retry_trace self rq retries fs'
    | None =>
      Call rq
      :: Sleep (Seconds (StargazersAdvanced2.retry_delay self * Qpower 2 retries)%Q)
      :: request_retry_trace self rq (retries + 1) fs'
    end
  end.

(** ** Successes and retryable failures *)


(** A 2xx response. *)
Definition is_success (r : response) : bool :=
  (200 <=? status_code r) && (status_code r <? 300).

(** The value a client hands back for a successful response: [None] for an
    empty body, the decoded document otherwise (no value when the body does
    not decode). *)
Definition decoded_value (r : response) : option json :=
  match body r with
  | Empty => Some JNull
  | JsonText j => Some j
  | Undecodable _ => None
  end.

(** The methods [StargazersAdvanced._make_request] dispatches on. *)
Definition supported (method : string) : bool :=
  existsb (String.eqb (upper method)) ["GET"; "POST"; "PUT"; "PATCH"; "DELETE"].

(** ** Sample inputs *)

Definition demo_client : StargazersAdvanced.GitHubAPIClient :=
  {| StargazersAdvanced.base_url := "https://api.github.com";
     StargazersAdvanced.api_key := Some "test_api_key";
     StargazersAdvanced.max_retries := 3;
     StargazersAdvanced.retry_delay := 1 |}.

Definition demo_base : StargazersAdvanced2.GitHubAPIBase :=
  {| StargazersAdvanced2.base_url := "https://api.github.com";
     StargazersAdvanced2.api_key := Some "your_github_token";
     StargazersAdvanced2.max_retries := 3;
     StargazersAdvanced2.retry_delay := 1;
     StargazersAdvanced2.timeout := 30 |}.

Definition demo_json : json := JDict {["data" := JStr "test"]}.

(** Plain responses: a status and a body, no rate-limit headers. *)
Definition plain (status : Z) (b : content) : response :=
  {| status_code := status; retry_after := Absent; x_ratelimit_reset := Absent; body := b |}.

Definition demo_ok : response := plain 200 (JsonText demo_json).

Definition not_found : response :=
  plain 404 (JsonText (JDict {["message" := JStr "Not Found"]})).

(** ** Rate limiting *)

(** [int(headers.get(name, default))] when it does not raise. *)
Definition header_int (default : Z) (h : header) : Z :=
  match h with IntText n => n | _ => default end.

(** [int(headers.get(name, default))] does not raise. *)
Definition readable (h : header) : bool :=
  match h with OtherText _ => false | _ => true end.


(** The request [Output._request] sends. *)
Definition output_request (self : Output.GitHubAPI) (method endpoint : string)
    (data params : option dict) (headers : option (gmap string string)) : request :=
  Request method (Output.base_url self +:+ endpoint) params
    match data with
    | Some d => if truthy (JDict d) then Some d else None
    | None => None
    end
    (default ∅ headers ∪ Output.default_headers self).

(** A 429 after which [Output._request] sleeps and calls itself. *)
Definition rate_limited (rp : reply) : bool :=
  match rp with
  | Answer r => (status_code r =? 429) && readable (x_ratelimit_reset r)
  | TransportFailure _ => false
  end.

Definition reset_of (rp : reply) : Z :=
  match rp with
  | Answer r => header_int 0 (x_ratelimit_reset r)
  | TransportFailure _ => 0
  end.

Fixpoint output_retry_trace (rq : request) (fs : list reply) : list event :=
  match fs with
  | [] => []
  | rp :: fs' => Call rq :: Sleep (UntilReset (reset_of rp)) :: output_retry_trace rq fs'
  end.

Definition demo_api : Output.GitHubAPI :=
  {| Output.token := "your_github_token"; Output.base_url := "https://api.github.com" |}.

(** A 429 with [Retry-After: 1] and a reset time. *)
Definition limited_hinted : response :=
  {| status_code := 429; retry_after := IntText 1;
     x_ratelimit_reset := IntText 1700000000; body := Empty |}.


(** ** Membership checks *)


Definition demo_chapter2 : Chapter2.GitHubAPI :=
  {| Chapter2.token := "test_token"; Chapter2.base_url := "https://api.github.com" |}.

Definition demo_class : StargazersClass.StargazersClient :=
  {| StargazersClass.base_url := "https://api.example.com";
     StargazersClass.api_key := None |}.

Definition demo_stars : StargazersAdvanced.GitHubStarsClient :=
  {| StargazersAdvanced.api := demo_client |}.

Definition demo_stargazers : StargazersAdvanced2.GitHubStargazersAPI :=
  {| StargazersAdvanced2.api := demo_base |}.

(** ** Request bodies *)

(** The requests of a trace, in order. *)
Definition sent_requests (t : list event) : list request :=
  omap (fun e => match e with Call rq => Some rq | Sleep _ => None end) t.

Definition demo_samples : Chapter3Samples.GitHubAPI :=
  {| Chapter3Samples.token := "your_github_token";
     Chapter3Samples.base_url := "https://api.github.com" |}.

(** ** Pagination *)

(** A page as the server returns it: a 200 whose body is the JSON list of
    the items. *)
Definition page_reply (items : list json) : reply :=
  Answer (plain 200 (JsonText (JList items))).

(** A page after which [paginate] goes on: not empty and not shorter than
    [per_page]. *)
Definition full_page (per_page : json) (items : list json) : Prop :=
  items <> [] /\ Output.int_lt (len items) per_page = Some false.

(** A page at which [paginate] stops: empty, or shorter than [per_page]. *)
Definition short_page (per_page : json) (items : list json) : Prop :=
  items = [] \/ Output.int_lt (len items) per_page = Some true.

(** The dict [paginate] works on, as it is when [paginate] is called: the
    caller's, or an empty one. *)
Definition caller_dict (params : option nat) (h : Output.heap) : dict :=
  match params with
  | Some obj => h !!! obj
  | None => ∅
  end.

(** [params.get('per_page', 100)] *)
Definition per_page_of (d : dict) : json := default (JNum 100) (d !! "per_page").

(** The query parameters of the request for page [page]. *)
Definition page_params (d : dict) (page : Z) : dict :=
  <["page" := JNum page]> (<["per_page" := per_page_of d]> d).

(** The run ended: it returned or raised. *)
Definition terminated {A} (o : result A) : Prop :=
  match o with
  | Return _ | Raise _ => True
  | Blocked | OutOfFuel => False
  end.

(** ** Star history *)

(** An item of a stargazers page as the API sends it with the star media
    type: an object with a non-empty [user] object and a [starred_at]
    value. *)
Definition star_record (item : json) : Prop :=
  exists (d u : dict) (starred_at : json),
    item = JDict d /\ d !! "user" = Some (JDict u) /\ u <> ∅ /\
    d !! "starred_at" = Some starred_at /\ truthy starred_at = true.

(** The entry [get_star_history] makes of a star record. *)
Definition star_entry (item : json) : json :=
  match item with
  | JDict d =>
    match d !! "user" with
    | Some (JDict u) =>
      JDict (<["user_id" := default JNull (u !! "id")]>
             (<["username" := default JNull (u !! "login")]>
             {["starred_at" := default JNull (d !! "starred_at")]}))
    | _ => JNull
    end
  | _ => JNull
  end.

(** A star record of the sample inputs. *)
Definition demo_star : json :=
  JDict (<["user" := JDict {["login" := JStr "octocat"]}]>
         {["starred_at" := JStr "2024-01-01T00:00:00Z"]}).

(** The request for page [page] of the stargazers. *)
Definition star_page_call (self : StargazersAdvanced2.GitHubStargazersAPI)
    (owner repo : string) (page : Z) : event :=
  Call (Request "GET"
          (StargazersAdvanced2.base_url (StargazersAdvanced2.api self) +:+ "/"
           +:+ lstrip_slash ("repos/" +:+ owner +:+ "/" +:+ repo +:+ "/stargazers"))
          (Some (<["page" := JNum page]> {["per_page" := JNum 100]})) None
          {["Accept" := "application/vnd.github.v3.star+json"]}).

(** ** Giving up *)




(** The request [StargazersAdvanced2._request] sends. *)
Definition base_request (self : StargazersAdvanced2.GitHubAPIBase) (method endpoint : string)
    (params data : option dict) (headers : option (gmap string string)) : request :=
  Request method (StargazersAdvanced2.base_url self +:+ "/" +:+ lstrip_slash endpoint)
    params data (default ∅ headers).

(** The call [StargazersAdvanced._make_request] makes on the session. *)
Definition client_request (self : StargazersAdvanced.GitHubAPIClient)
    (method endpoint : string) (params data : option dict)
    (headers : option (gmap string string)) : option request :=
  StargazersAdvanced.session_call method
    (StargazersAdvanced.base_url self +:+ "/" +:+ lstrip_slash endpoint)
    params data (default ∅ headers).


(** ** Ends of a sweep *)

(** What [Output._request] makes of a reply that is no 429. *)
Definition output_result (flag : bool) (rp : reply) : result json :=
  match rp with
  | TransportFailure msg => Raise (Output.api_error (ConnectionError msg))
  | Answer r =>
    match raise_for_status r with
    | Some e => Raise (Output.api_error e)
    | None =>
      if status_code r =? 204 then Return JNull
      else
        match json_of r with
        | Some j => Return j
        | None =>
          if flag then Raise (Output.api_error JSONDecodeError)
          else Raise (RequestError JSONDecodeError)
        end
    end
  end.

(** The reply is no 429. *)
Definition not_limited (rp : reply) : bool :=
  match rp with
  | Answer r => negb (status_code r =? 429)
  | TransportFailure _ => true
  end.

(** The result of a request does not let [paginate] go on: it is an
    exception, or a value that is no non-empty list. *)
Definition ends_sweep (ro : result json) : bool :=
  match ro with
  | Return (JList (_ :: _)) => false
  | Return _ | Raise _ => true
  | Blocked | OutOfFuel => false
  end.

(** How [paginate] ends then, with [all_items] gathered so far. *)
Definition sweep_result (ro : result json) (all_items : list json) : result (list json) :=
  match ro with
  | Return _ => Return all_items
  | Raise e => Raise e
  | Blocked => Blocked
  | OutOfFuel => OutOfFuel
  end.

(** A response that carries an error status other than 429. *)
Definition error_status (r : response) : bool :=
  (400 <=? status_code r) && (status_code r <? 600) && negb (status_code r =? 429).

(** ** List wrappers *)

(** The requests of a sweep of [n] pages with the caller's parameters [d]. *)
Definition sweep_calls (self : Output.GitHubAPI) (endpoint : string) (d : dict) (n : nat)
    : list request :=
  (fun i => output_request self "GET" endpoint None
              (Some (page_params d (1 + Z.of_nat i))) None) <$> seq 0 n.

(** A list wrapper called on the store [h] swept the pages: it returned
    their items in order, requested one page after the other with the
    parameters [d], read no further reply and left the objects of [h] as
    they were. *)
Definition swept (res : run (list json) * Output.heap) (self : Output.GitHubAPI)
    (endpoint : string) (d : dict) (pages : list (list json)) (last : list json)
    (rest : list reply) (h : Output.heap) : Prop :=
  outcome res.1 = Return (concat pages ++ last) /\
  sent_requests (trace res.1) = sweep_calls self endpoint d (S (length pages)) /\
  unread res.1 = rest /\
  take (length h) res.2 = h.

(** An optional string argument that is left out or empty. *)
Definition blank (arg : option string) : Prop := arg = None \/ arg = Some "".

(** ** Statuses *)

(** [raise_for_status] raises on the response: 400 <= status < 600. *)
Definition http_error (r : response) : bool :=
  (400 <=? status_code r) && (status_code r <? 600).

(** ** Star history of [StargazersAdvanced.GitHubStarsClient] *)

(** The request for page [page] of the stargazers with timestamps. *)
Definition stars_page_request (self : StargazersAdvanced.GitHubStarsClient)
    (owner repo : string) (per_page page : Z) : request :=
  Request "GET"
    (StargazersAdvanced.base_url (StargazersAdvanced.api self) +:+ "/"
     +:+ lstrip_slash ("repos/" +:+ owner +:+ "/" +:+ repo +:+ "/stargazers"))
    (Some (<["page" := JNum page]> {["per_page" := JNum per_page]})) None
    {["Accept" := "application/vnd.github.v3.star+json"]}.

(** ** Query parameters *)

(** No entry of the dict is [None]. *)
Definition no_null (d : dict) : Prop := forall k, d !! k <> Some JNull.

(** An optional argument as the entry it becomes: nothing for [None]. *)
Definition given (v : json) : option json :=
  match v with
  | JNull => None
  | _ => Some v
  end.

(** The [Accept] header that asks for star timestamps. *)
Definition star_accept : gmap string string :=
  {["Accept" := "application/vnd.github.v3.star+json"]}.


(** * Properties *)

(** ** Traces *)

Lemma emit_nil {A} (r : run A) : emit [] r = r.
Proof. by destruct r. Qed.

Lemma emit_emit {A} (t1 t2 : list event) (r : run A) :
  emit t1 (emit t2 r) = emit (t1 ++ t2) r.
Proof. unfold emit; simpl. by rewrite app_assoc. Qed.

Lemma outcome_emit {A} (t : list event) (r : run A) : outcome (emit t r) = outcome r.
Proof. done. Qed.

Lemma unread_emit {A} (t : list event) (r : run A) : unread (emit t r) = unread r.
Proof. done. Qed.

Lemma trace_emit {A} (t : list event) (r : run A) : trace (emit t r) = t ++ trace r.
Proof. done. Qed.

Lemma calls_app (t1 t2 : list event) : calls (t1 ++ t2) = (calls t1 + calls t2)%nat.
Proof. unfold calls. by rewrite filter_app, length_app. Qed.

Lemma calls_call (rq : request) (t : list event) : calls (Call rq :: t) = S (calls t).
Proof. done. Qed.

Lemma calls_sleep (w : wait) (t : list event) : calls (Sleep w :: t) = calls t.
Proof. done. Qed.


(** ** Integer tests *)



Lemma calls_retry_trace rq delay fails : calls (retry_trace rq delay fails) = length fails.
Proof.
  revert delay; induction fails as [|rp fails IH]; intros delay; [done|].
  cbn [retry_trace length]. by rewrite calls_call, calls_sleep, IH.
Qed.




(** ** The retry loop of [StargazersAdvanced2._request] *)

Lemma counted_nonneg fs : 0 <= counted fs.
Proof. induction fs as [|rp fs IH]; simpl; [lia|]. destruct (reset_wait rp); lia. Qed.

Lemma calls_request_retry_trace self rq retries fs :
  calls (request_retry_trace self rq retries fs) = length fs.
Proof.
  revert retries; induction fs as [|rp fs IH]; intros retries; [done|].
  cbn [request_retry_trace length].
  destruct (reset_wait rp); by rewrite calls_call, calls_sleep, IH.
Qed.

Lemma request_retries (flag : bool) (self : StargazersAdvanced2.GitHubAPIBase)
    (rq : request) (fs w : list reply) (retries : Z)
    (last_error : option request_exception) :
  Forall (fun rp => goes_on flag rp = true) fs ->
  retries + counted fs <= StargazersAdvanced2.max_retries self ->
  StargazersAdvanced2._request_loop flag self rq retries last_error (fs ++ w)
  = emit (request_retry_trace self rq retries fs)
      (StargazersAdvanced2._request_loop flag self rq (retries + counted fs)
         (last_failure flag last_error fs) w).
Proof.
  intros Hf; revert retries last_error.
  induction Hf as [|rp fs Hrp _ IH]; intros retries last_error Hle.
  - simpl. by rewrite emit_nil, Z.add_0_r.
  - pose proof (counted_nonneg fs) as Hnn.
    cbn [app StargazersAdvanced2._request_loop].
    cbn [counted last_failure request_retry_trace] in *.
    assert (Hwait : forall n,
      emit [Call rq] (emit [Sleep (UntilReset n)]
        (StargazersAdvanced2._request_loop flag self rq retries last_error (fs ++ w)))
      = emit (Call rq :: Sleep (UntilReset n) :: request_retry_trace self rq retries fs)
          (StargazersAdvanced2._request_loop flag self rq (retries + counted fs)
             (last_failure flag last_error fs) w)).
    { intros n. rewrite IH, !emit_emit; [done|].
      destruct (reset_wait rp); lia. }
    assert (Hcount : forall e, reset_wait rp = None ->
      emit [Call rq]
        (emit [Sleep (Seconds (StargazersAdvanced2.retry_delay self
                                * Qpower 2 (retries + 1 - 1))%Q)]
           (StargazersAdvanced2._request_loop flag self rq (retries + 1) (Some e) (fs ++ w)))
      = emit (Call rq :: Sleep (Seconds (StargazersAdvanced2.retry_delay self
                                          * Qpower 2 retries)%Q)
                :: request_retry_trace self rq (retries + 1) fs)
          (StargazersAdvanced2._request_loop flag self rq (retries + (1 + counted fs))
             (last_failure flag (Some e) fs) w)).
    { intros e Hnone. rewrite Hnone in Hle.
      rewrite IH, !emit_emit by lia.
      by replace (retries + 1 - 1) with retries by lia;
         replace (retries + 1 + counted fs) with (retries + (1 + counted fs)) by lia. }
    assert (Hle1 : reset_wait rp = None ->
                   (retries + 1 <=? StargazersAdvanced2.max_retries self) = true).
    { intros Hnone. rewrite Hnone in Hle. apply Z.leb_le. lia. }
    destruct (Z.leb_spec retries (StargazersAdvanced2.max_retries self));
      [|destruct (reset_wait rp); lia].
    unfold goes_on in Hrp.
    destruct rp as [r|msg]; cbn [reset_wait counted_failure] in *.
    + destruct (status_code r =? 429) eqn:E429; cbn [andb] in *.
      * destruct (x_ratelimit_reset r) as [|n|s] eqn:Ex; try done.
        -- rewrite (Z.gtb_ltb 0 0), Z.ltb_irrefl.
           unfold raise_for_status in *.
           destruct ((400 <=? status_code r) && (status_code r <? 600)) eqn:E;
             [|apply Z.eqb_eq in E429; rewrite E429 in E; done].
           unfold StargazersAdvanced2.is_client_error in *.
           rewrite E429, andb_false_r in *. rewrite Hle1 by done. by apply Hcount.
        -- destruct (n >? 0) eqn:En; [apply Hwait|].
           unfold raise_for_status in *.
           destruct ((400 <=? status_code r) && (status_code r <? 600)) eqn:E;
             [|apply Z.eqb_eq in E429; rewrite E429 in E; done].
           unfold StargazersAdvanced2.is_client_error in *.
           rewrite E429, andb_false_r in *. rewrite Hle1 by done. by apply Hcount.
      * destruct (raise_for_status r) as [e|] eqn:Er.
        -- unfold raise_for_status in Er.
           destruct ((400 <=? status_code r) && (status_code r <? 600)); [|done].
           injection Er as <-.
           destruct (StargazersAdvanced2.is_client_error (status_code r)); [done|].
           rewrite Hle1 by done. by apply Hcount.
        -- destruct (has_content r); cbn [andb negb] in *; [|done].
           destruct (json_of r) as [j|] eqn:Ej.
           ++ rewrite bool_decide_eq_true_2 in Hrp by eauto. done.
           ++ rewrite bool_decide_eq_false_2 in * by (by intros [? ?]).
              cbn [andb negb] in *. destruct flag; [|done].
              rewrite Hle1 by done. by apply Hcount.
    + rewrite Hle1 by done. by apply Hcount.
Qed.

Lemma calls_nil : calls [] = 0%nat.
Proof. done. Qed.

Ltac count_calls :=
  rewrite ?app_nil_r, ?calls_app, ?calls_retry_trace, ?calls_request_retry_trace,
    ?calls_call, ?calls_sleep, ?calls_nil.

(** ** Retryable failures followed by a success *)




Lemma supported_session_call method url params data hdrs :
  supported method = true ->
  exists rq, StargazersAdvanced.session_call method url params data hdrs = Some rq.
Proof.
  unfold supported, StargazersAdvanced.session_call. cbn [existsb].
  repeat (destruct (String.eqb (upper method) _); [by eauto|]). done.
Qed.

Lemma success_passes r :
  is_success r = true -> (status_code r =? 429) = false /\ raise_for_status r = None.
Proof.
  unfold is_success, raise_for_status.
  intros [H1 H2]%andb_prop. apply Z.leb_le in H1. apply Z.ltb_lt in H2.
  split; [apply Z.eqb_neq; lia|].
  destruct (Z.leb_spec 400 (status_code r)); [lia|done].
Qed.

Lemma decoded_value_content r j :
  decoded_value r = Some j ->
  (has_content r = false /\ j = JNull) \/ (has_content r = true /\ json_of r = Some j).
Proof.
  unfold decoded_value, has_content, json_of.
  destruct (body r); intros; simplify_eq; eauto.
Qed.


Lemma request_success (flag : bool) (self : StargazersAdvanced2.GitHubAPIBase)
    (method endpoint : string) (params data : option dict)
    (headers : option (gmap string string))
    (fs : list reply) (ok : response) (j : json) (rest : list reply) :
  Forall (fun rp => goes_on flag rp = true) fs ->
  counted fs <= StargazersAdvanced2.max_retries self ->
  is_success ok = true ->
  decoded_value ok = Some j ->
  exists rq,
    StargazersAdvanced2._request flag self method endpoint params data headers
      (fs ++ Answer ok :: rest)
    = emit (request_retry_trace self rq 0 fs ++ [Call rq]) (finish (Return j) rest).
Proof.
  intros Hf Hle [H429 Hok]%success_passes Hj.
  unfold StargazersAdvanced2._request. eexists.
  rewrite request_retries by (done || lia).
  rewrite <- emit_emit. f_equal.
  cbn [StargazersAdvanced2._request_loop].
  rewrite H429, Hok.
  destruct (Z.leb_spec (0 + counted fs) (StargazersAdvanced2.max_retries self)); [|lia].
  by destruct (decoded_value_content _ _ Hj) as [[-> ->]|[-> ->]].
Qed.


(** ** Scripts that leave the retry loops waiting for a reply *)


Lemma request_blocked (flag : bool) (self : StargazersAdvanced2.GitHubAPIBase)
    (rq : request) (pre : list reply) (retries : Z)
    (last_error : option request_exception) :
  outcome (StargazersAdvanced2._request_loop flag self rq retries last_error pre) = Blocked ->
  Forall (fun rp => goes_on flag rp = true) pre /\
  retries + counted pre <= StargazersAdvanced2.max_retries self.
Proof.
  revert retries last_error; induction pre as [|rp pre IH]; intros retries last_error H.
  - cbn [StargazersAdvanced2._request_loop] in H.
    destruct (Z.leb_spec retries (StargazersAdvanced2.max_retries self)).
    + split; [done|]. simpl. lia.
    + by destruct last_error as [[]|].
  - cbn [StargazersAdvanced2._request_loop] in H.
    destruct (Z.leb_spec retries (StargazersAdvanced2.max_retries self));
      [|by destruct last_error as [[]|]].
    rewrite outcome_emit in H.
    assert (Hwait : outcome (StargazersAdvanced2._request_loop flag self rq
                      retries last_error pre) = Blocked ->
                    is_Some (reset_wait rp) ->
                    Forall (fun rp => goes_on flag rp = true) (rp :: pre) /\
                    retries + counted (rp :: pre)
                    <= StargazersAdvanced2.max_retries self).
    { intros [? ?]%IH [n Hn]. cbn [counted]. rewrite Hn.
      split; [constructor; [unfold goes_on; by rewrite Hn|done]|done]. }
    assert (Hcount : forall e,
      outcome (if retries + 1 <=? StargazersAdvanced2.max_retries self
               then emit [Sleep (Seconds (StargazersAdvanced2.retry_delay self
                                           * Qpower 2 (retries + 1 - 1))%Q)]
                      (StargazersAdvanced2._request_loop flag self rq (retries + 1)
                         (Some e) pre)
               else StargazersAdvanced2._request_loop flag self rq (retries + 1)
                      (Some e) pre) = Blocked ->
      reset_wait rp = None -> counted_failure flag rp = Some e ->
      Forall (fun rp => goes_on flag rp = true) (rp :: pre) /\
      retries + counted (rp :: pre) <= StargazersAdvanced2.max_retries self).
    { intros e He Hn Hc.
      assert (outcome (StargazersAdvanced2._request_loop flag self rq (retries + 1)
                         (Some e) pre) = Blocked) as [? ?]%IH
        by (by destruct (retries + 1 <=? StargazersAdvanced2.max_retries self)).
      cbn [counted]. rewrite Hn.
      split; [constructor; [unfold goes_on; by rewrite Hn, Hc|done]|lia]. }
    revert H Hwait Hcount.
    destruct rp as [r|msg]; cbn [reset_wait counted_failure].
    + destruct (status_code r =? 429) eqn:E429; cbn [andb].
      * destruct (x_ratelimit_reset r) as [|n|s] eqn:Ex; try done.
        -- rewrite (Z.gtb_ltb 0 0), Z.ltb_irrefl.
           unfold raise_for_status.
           destruct ((400 <=? status_code r) && (status_code r <? 600)) eqn:E;
             [|apply Z.eqb_eq in E429; rewrite E429 in E; done].
           unfold StargazersAdvanced2.is_client_error.
           rewrite E429, andb_false_r. intros H _ Hcount. by eapply Hcount.
        -- destruct (n >? 0) eqn:En; [intros H Hwait _; by apply Hwait; eauto|].
           unfold raise_for_status.
           destruct ((400 <=? status_code r) && (status_code r <? 600)) eqn:E;
             [|apply Z.eqb_eq in E429; rewrite E429 in E; done].
           unfold StargazersAdvanced2.is_client_error.
           rewrite E429, andb_false_r. intros H _ Hcount. by eapply Hcount.
      * unfold raise_for_status.
        destruct ((400 <=? status_code r) && (status_code r <? 600)).
        -- destruct (StargazersAdvanced2.is_client_error (status_code r)); [done|].
           intros H _ Hcount. by eapply Hcount.
        -- destruct (has_content r); cbn [andb negb]; [|done].
           destruct (json_of r) as [j|] eqn:Ej; [done|].
           rewrite bool_decide_eq_false_2 by (by intros [? ?]).
           cbn [andb negb]. destruct flag; [|done].
           intros H _ Hcount. by eapply Hcount.
    + intros H _ Hcount. by eapply Hcount.
Qed.



(** ** Rate limiting *)

Lemma calls_output_retry_trace rq fs : calls (output_retry_trace rq fs) = length fs.
Proof.
  induction fs as [|rp fs IH]; [done|].
  cbn [output_retry_trace length]. by rewrite calls_call, calls_sleep, IH.
Qed.


Lemma output_request_retries (flag : bool) (self : Output.GitHubAPI)
    (method endpoint : string) (data params : option dict)
    (headers : option (gmap string string)) (fs w : list reply) :
  Forall (fun rp => rate_limited rp = true) fs ->
  Output._request flag self method endpoint data params headers (fs ++ w)
  = emit (output_retry_trace (output_request self method endpoint data params headers) fs)
      (Output._request flag self method endpoint data params headers w).
Proof.
  induction 1 as [|rp fs Hrp _ IH]; [by rewrite emit_nil|].
  cbn [app Output._request output_retry_trace].
  destruct rp as [r|msg]; [|done]. cbn [rate_limited reset_of] in *.
  apply andb_prop in Hrp as [-> Hread].
  rewrite IH.
  change (Call ?rq :: Sleep ?w :: ?t) with ([Call rq] ++ [Sleep w] ++ t).
  rewrite <- !emit_emit. unfold output_request.
  by destruct (x_ratelimit_reset r).
Qed.

Lemma output_request_blocked (flag : bool) (self : Output.GitHubAPI)
    (method endpoint : string) (data params : option dict)
    (headers : option (gmap string string)) (pre : list reply) :
  outcome (Output._request flag self method endpoint data params headers pre) = Blocked ->
  Forall (fun rp => rate_limited rp = true) pre.
Proof.
  induction pre as [|rp pre IH]; [done|].
  cbn [Output._request]. rewrite outcome_emit.
  destruct rp as [r|msg]; [|done].
  destruct (status_code r =? 429) eqn:E429.
  - destruct (x_ratelimit_reset r) eqn:Ex; try done; rewrite outcome_emit;
      intros ?%IH; (constructor; [|done]); cbn [rate_limited]; by rewrite E429, Ex.
  - destruct (raise_for_status r); [done|].
    destruct (status_code r =? 204); [done|].
    destruct (json_of r); [done|]. by destruct flag.
Qed.









Lemma output_request_success (flag : bool) (self : Output.GitHubAPI)
    (method endpoint : string) (data params : option dict)
    (headers : option (gmap string string))
    (fs : list reply) (ok : response) (j : json) (rest : list reply) :
  Forall (fun rp => rate_limited rp = true) fs ->
  is_success ok = true -> status_code ok <> 204 -> json_of ok = Some j ->
  Output._request flag self method endpoint data params headers (fs ++ Answer ok :: rest)
  = emit (output_retry_trace (output_request self method endpoint data params headers) fs
          ++ [Call (output_request self method endpoint data params headers)])
      (finish (Return j) rest).
Proof.
  intros Hf [H429 Hok]%success_passes H204 Hj.
  rewrite output_request_retries by done. rewrite <- emit_emit. f_equal.
  cbn [Output._request]. rewrite H429, Hok, Hj.
  by destruct (Z.eqb_spec (status_code ok) 204).
Qed.


(** ** Membership checks *)







Lemma status_success r n :
  status_code r = n -> 200 <= n < 300 -> is_success r = true.
Proof.
  intros <- [H1 H2]. unfold is_success.
  by rewrite (proj2 (Z.leb_le _ _) H1), (proj2 (Z.ltb_lt _ _) H2).
Qed.


(** C9.  [check_if_starred] of Chapter 2 answers every response with the
    boolean [status == 204]: it returns false for every status other than
    204 (200, 401, 403, 5xx, ...) and raises for none, after exactly one
    call. *)
Theorem chapter2_check_if_starred (self : Chapter2.GitHubAPI) (owner repo : string)
    (r : response) (rest : list reply) :
  let run := Chapter2.check_if_starred self owner repo (Answer r :: rest) in
  outcome run = Return (status_code r =? 204) /\
  (status_code r <> 204 -> outcome run = Return false) /\
  calls (trace run) = 1%nat /\
  unread run = rest.
Proof.
  unfold Chapter2.check_if_starred, mbind, M_bind, exchange. cbn.
  split_and!; try done.
  intros Hs. by destruct (Z.eqb_spec (status_code r) 204).
Qed.

(** ** Request bodies *)

Lemma sent_requests_app t1 t2 : sent_requests (t1 ++ t2) = sent_requests t1 ++ sent_requests t2.
Proof. unfold sent_requests. apply omap_app. Qed.

Lemma sent_requests_call rq t : sent_requests (Call rq :: t) = rq :: sent_requests t.
Proof. done. Qed.

Lemma sent_requests_sleep w t : sent_requests (Sleep w :: t) = sent_requests t.
Proof. done. Qed.

Lemma calls_sent_requests t : calls t = length (sent_requests t).
Proof.
  induction t as [|[rq|w] t IH]; [done| |].
  - by rewrite calls_call, sent_requests_call, IH.
  - by rewrite calls_sleep, sent_requests_sleep, IH.
Qed.

(** One call of [Output._request], with the request it sends named. *)
Lemma output_request_cons (flag : bool) (self : Output.GitHubAPI)
    (method endpoint : string) (data params : option dict)
    (headers : option (gmap string string)) (rp : reply) (pending : list reply) :
  Output._request flag self method endpoint data params headers (rp :: pending)
  = emit [Call (output_request self method endpoint data params headers)]
      match rp with
      | TransportFailure msg =>
        finish (Raise (Output.api_error (ConnectionError msg))) pending
      | Answer r =>
        if status_code r =? 429 then
          if readable (x_ratelimit_reset r) then
            emit [Sleep (UntilReset (header_int 0 (x_ratelimit_reset r)))]
              (Output._request flag self method endpoint data params headers pending)
          else finish (Raise ValueError) pending
        else
          match raise_for_status r with
          | Some e => finish (Raise (Output.api_error e)) pending
          | None =>
            if status_code r =? 204 then finish (Return JNull) pending
            else
              match json_of r with
              | Some j => finish (Return j) pending
              | None =>
                if flag
                then finish (Raise (Output.api_error JSONDecodeError)) pending
                else finish (Raise (RequestError JSONDecodeError)) pending
              end
          end
      end.
Proof.
  cbn [Output._request]. unfold output_request. f_equal.
  destruct rp as [r|msg]; [|done].
  destruct (status_code r =? 429); [|done]. by destruct (x_ratelimit_reset r).
Qed.

Lemma output_request_sent (flag : bool) (self : Output.GitHubAPI)
    (method endpoint : string) (data params : option dict)
    (headers : option (gmap string string)) (pending : list reply) :
  exists n,
    sent_requests (trace (Output._request flag self method endpoint data params headers
                            pending))
    = replicate n (output_request self method endpoint data params headers) /\
    (pending <> [] -> (0 < n)%nat).
Proof.
  induction pending as [|rp pending (n & IH & _)]; [by exists 0%nat|].
  rewrite output_request_cons, trace_emit. cbn [app]. rewrite sent_requests_call.
  destruct rp as [r|msg]; [|exists 1%nat; split; [done|lia]].
  destruct (status_code r =? 429).
  - destruct (readable (x_ratelimit_reset r)); [|exists 1%nat; split; [done|lia]].
    exists (S n). rewrite trace_emit. cbn [app]. rewrite sent_requests_sleep, IH.
    split; [done|lia].
  - exists 1%nat. split; [|lia].
    destruct (raise_for_status r); [done|].
    destruct (status_code r =? 204); [done|].
    destruct (json_of r); [done|]. by destruct flag.
Qed.

Lemma exchange_sent (rq : request) (rp : reply) (rest : list reply) :
  trace (exchange rq (rp :: rest)) = [Call rq].
Proof. by destruct rp. Qed.

Lemma bind_trace_first {A B} (m : M A) (k : A -> M B) (pending : list reply) (t : list event) :
  trace (m pending) = t ->
  exists more, trace ((m ≫= k) pending) = t ++ more.
Proof.
  intros <-. unfold mbind, M_bind.
  destruct (outcome (m pending)); cbn [emit trace]; eauto using app_nil_r.
  all: exists []; by rewrite app_nil_r.
Qed.

Lemma dict_truthy (d : dict) : d <> ∅ -> truthy (JDict d) = true.
Proof.
  intros Hd. cbn [truthy]. apply negb_true_iff, Nat.eqb_neq.
  by intros ?%map_size_empty_iff.
Qed.

Lemma dict_falsy : truthy (JDict ∅) = false.
Proof. done. Qed.

(** Every request [Output._request] sends for [data] carries [data] as its
    JSON body when [data] is a non-empty dict, and no body when it is empty;
    at least one request is sent when a reply is there. *)
Lemma output_request_body (flag : bool) (self : Output.GitHubAPI)
    (method endpoint : string) (data : dict) (rp : reply) (rest : list reply) :
  let sent := sent_requests (trace (Output._request flag self method endpoint (Some data)
                                      None None (rp :: rest))) in
  sent <> [] /\
  (data <> ∅ -> Forall (fun rq => json_body rq = Some data) sent) /\
  (data = ∅ -> Forall (fun rq => json_body rq = None) sent).
Proof.
  intros sent.
  destruct (output_request_sent flag self method endpoint (Some data) None None (rp :: rest))
    as (n & Hsent & Hn).
  subst sent. rewrite Hsent. split_and!.
  - specialize (Hn ltac:(done)). by destruct n; [lia|].
  - intros Hd. apply Forall_replicate. cbn [output_request json_body].
    by rewrite dict_truthy.
  - intros ->. by apply Forall_replicate.
Qed.

Lemma chapter2_create_issue_sent (self : Chapter2.GitHubAPI) (owner repo : string)
    (title : json) (body assignees labels : option json) (rp : reply) (rest : list reply) :
  exists rq,
    sent_requests (trace (Chapter2.create_issue self owner repo title body assignees labels
                            (rp :: rest))) = [rq] /\
    json_body rq = Some (Chapter2.create_issue_data title body assignees labels).
Proof.
  exists (Request "POST"
    (Chapter2.base_url self +:+ "/repos/" +:+ owner +:+ "/" +:+ repo +:+ "/issues") None
    (Some (Chapter2.create_issue_data title body assignees labels))
    (Chapter2.default_headers self)).
  unfold Chapter2.create_issue, mbind, M_bind, exchange, check_status.
  split; [|reflexivity].
  destruct rp as [r|msg]; [|done]. cbn [outcome trace unread emit].
  destruct (raise_for_status r); [done|]. cbn.
  unfold decode. by destruct (json_of r).
Qed.

Lemma samples_create_issue_sent (self : Chapter3Samples.GitHubAPI) (owner repo : string)
    (title : json) (body assignees labels : option json) (rp : reply) (rest : list reply) :
  exists rq,
    sent_requests (trace (Chapter3Samples.create_issue self owner repo title body assignees
                            labels (rp :: rest))) = [rq] /\
    json_body rq = Some (Chapter2.create_issue_data title body assignees labels).
Proof.
  exists (Request "POST"
    (Chapter3Samples.base_url self +:+ "/repos/" +:+ owner +:+ "/" +:+ repo +:+ "/issues")
    None (Some (Chapter2.create_issue_data title body assignees labels))
    (Chapter3Samples.default_headers self)).
  unfold Chapter3Samples.create_issue, mbind, M_bind, exchange, check_status.
  split; [|reflexivity].
  destruct rp as [r|msg]; [|done]. cbn [outcome trace unread emit].
  destruct (raise_for_status r); [done|]. cbn.
  unfold decode. by destruct (json_of r).
Qed.

Lemma samples_update_issue_sent (self : Chapter3Samples.GitHubAPI) (owner repo : string)
    (issue_number : Z) (title body state assignees labels : option json)
    (rp : reply) (rest : list reply) :
  exists rq,
    sent_requests (trace (Chapter3Samples.update_issue self owner repo issue_number
                            title body state assignees labels (rp :: rest))) = [rq] /\
    json_body rq
    = Some (Chapter3Samples.update_issue_data title body state assignees labels).
Proof.
  exists (Request "PATCH"
    (Chapter3Samples.base_url self +:+ "/repos/" +:+ owner +:+ "/" +:+ repo +:+ "/issues/"
     +:+ pretty issue_number)
    None (Some (Chapter3Samples.update_issue_data title body state assignees labels))
    (Chapter3Samples.default_headers self)).
  unfold Chapter3Samples.update_issue, mbind, M_bind, exchange, check_status.
  split; [|reflexivity].
  destruct rp as [r|msg]; [|done]. cbn [outcome trace unread emit].
  destruct (raise_for_status r); [done|]. cbn.
  unfold decode. by destruct (json_of r).
Qed.

(** C6, as the code has it.  Invoked with only their required arguments,
    the create wrappers of output.py ([create_issue], [create_repository],
    [create_pull_request]) send a JSON body that holds exactly the required
    keys, on every request they make; [create_issue] of Chapter 2 and of the
    Chapter 3 samples sends the four keys [title], [body], [assignees],
    [labels], with [null] for each optional argument that was not
    supplied. *)
Theorem create_bodies (flag : bool) (api : Output.GitHubAPI)
    (ch2 : Chapter2.GitHubAPI) (ch3 : Chapter3Samples.GitHubAPI)
    (owner repo title name head base : string) (rp : reply) (rest : list reply) :
  let pending := rp :: rest in
  let issue := sent_requests (trace (Output.create_issue flag api owner repo title
                                       None ∅ pending)) in
  let repository := sent_requests (trace (Output.create_repository flag api name
                                            None ∅ pending)) in
  let pull := sent_requests (trace (Output.create_pull_request flag api owner repo title
                                      head base None ∅ pending)) in
  (issue <> [] /\
   Forall (fun rq => json_body rq = Some {["title" := JStr title]}) issue) /\
  (repository <> [] /\
   Forall (fun rq => json_body rq = Some {["name" := JStr name]}) repository) /\
  (pull <> [] /\
   Forall (fun rq => json_body rq
                     = Some (<["title" := JStr title]>
                             (<["head" := JStr head]> {["base" := JStr base]}))) pull) /\
  (exists rq,
     sent_requests (trace (Chapter2.create_issue ch2 owner repo (JStr title)
                             None None None pending)) = [rq] /\
     json_body rq
     = Some (<["title" := JStr title]>
             (<["body" := JNull]> (<["assignees" := JNull]> {["labels" := JNull]})))) /\
  (exists rq,
     sent_requests (trace (Chapter3Samples.create_issue ch3 owner repo (JStr title)
                             None None None pending)) = [rq] /\
     json_body rq
     = Some (<["title" := JStr title]>
             (<["body" := JNull]> (<["assignees" := JNull]> {["labels" := JNull]})))).
Proof.
  intros pending issue repository pull. split; [|split; [|split; [|split]]].
  - subst issue. unfold Output.create_issue. rewrite (left_id_L ∅ (∪)).
    destruct (output_request_body flag api "POST"
      ("/repos/" +:+ owner +:+ "/" +:+ repo +:+ "/issues") {["title" := JStr title]}
      rp rest) as (Hne & Hsome & _).
    split; [done|]. apply Hsome. apply map_non_empty_singleton.
  - subst repository. unfold Output.create_repository. rewrite (left_id_L ∅ (∪)).
    destruct (output_request_body flag api "POST" "/user/repos" {["name" := JStr name]}
      rp rest) as (Hne & Hsome & _).
    split; [done|]. apply Hsome. apply map_non_empty_singleton.
  - subst pull. unfold Output.create_pull_request. rewrite (left_id_L ∅ (∪)).
    destruct (output_request_body flag api "POST"
      ("/repos/" +:+ owner +:+ "/" +:+ repo +:+ "/pulls")
      (<["title" := JStr title]> (<["head" := JStr head]> {["base" := JStr base]}))
      rp rest) as (Hne & Hsome & _).
    split; [done|]. apply Hsome. apply insert_non_empty.
  - apply chapter2_create_issue_sent.
  - apply samples_create_issue_sent.
Qed.

(** C7, as the code has it.  The update wrappers of output.py
    ([update_issue], [update_repository], [update_pull_request]) send as
    PATCH body exactly the fields the caller supplied (no body at all when
    none was supplied); [update_issue] of the Chapter 3 samples always sends
    the five keys [title], [body], [state], [assignees], [labels], with
    [null] for each field that was not supplied. *)
Theorem update_bodies (flag : bool) (api : Output.GitHubAPI)
    (ch3 : Chapter3Samples.GitHubAPI)
    (owner repo : string) (number : Z) (kwargs : dict)
    (title body state assignees labels : option json) (rp : reply) (rest : list reply) :
  let pending := rp :: rest in
  let issue := sent_requests (trace (Output.update_issue flag api owner repo number
                                       kwargs pending)) in
  let repository := sent_requests (trace (Output.update_repository flag api owner repo
                                            kwargs pending)) in
  let pull := sent_requests (trace (Output.update_pull_request flag api owner repo number
                                      kwargs pending)) in
  (issue <> [] /\ repository <> [] /\ pull <> []) /\
  Forall (fun rq => method rq = "PATCH") (issue ++ repository ++ pull) /\
  (kwargs <> ∅ ->
   Forall (fun rq => json_body rq = Some kwargs) (issue ++ repository ++ pull)) /\
  (kwargs = ∅ ->
   Forall (fun rq => json_body rq = None) (issue ++ repository ++ pull)) /\
  (exists rq,
     sent_requests (trace (Chapter3Samples.update_issue ch3 owner repo number
                             title body state assignees labels pending)) = [rq] /\
     method rq = "PATCH" /\
     json_body rq
     = Some (<["title" := or_none title]>
             (<["body" := or_none body]>
             (<["state" := or_none state]>
             (<["assignees" := or_none assignees]>
             {["labels" := or_none labels]}))))).
Proof.
  intros pending issue repository pull.
  destruct (output_request_body flag api "PATCH"
    ("/repos/" +:+ owner +:+ "/" +:+ repo +:+ "/issues/" +:+ pretty number)
    kwargs rp rest) as (Hne1 & Hsome1 & Hnone1).
  destruct (output_request_body flag api "PATCH"
    ("/repos/" +:+ owner +:+ "/" +:+ repo) kwargs rp rest) as (Hne2 & Hsome2 & Hnone2).
  destruct (output_request_body flag api "PATCH"
    ("/repos/" +:+ owner +:+ "/" +:+ repo +:+ "/pulls/" +:+ pretty number)
    kwargs rp rest) as (Hne3 & Hsome3 & Hnone3).
  split; [done|]. split; [|split; [|split]].
  - subst issue repository pull.
    unfold Output.update_issue, Output.update_repository, Output.update_pull_request.
    rewrite !Forall_app. split_and!.
    + destruct (output_request_sent flag api "PATCH"
        ("/repos/" +:+ owner +:+ "/" +:+ repo +:+ "/issues/" +:+ pretty number)
        (Some kwargs) None None pending) as (n & -> & _).
      by apply Forall_replicate.
    + destruct (output_request_sent flag api "PATCH"
        ("/repos/" +:+ owner +:+ "/" +:+ repo) (Some kwargs) None None pending)
        as (n & -> & _).
      by apply Forall_replicate.
    + destruct (output_request_sent flag api "PATCH"
        ("/repos/" +:+ owner +:+ "/" +:+ repo +:+ "/pulls/" +:+ pretty number)
        (Some kwargs) None None pending) as (n & -> & _).
      by apply Forall_replicate.
  - intros Hk. rewrite !Forall_app. auto.
  - intros Hk. rewrite !Forall_app. auto.
  - destruct (samples_update_issue_sent ch3 owner repo number
      title body state assignees labels rp rest) as (rq & Hsent & Hbody).
    exists rq. split_and!; [done| |done].
    revert Hsent. unfold Chapter3Samples.update_issue, mbind, M_bind, exchange.
    destruct rp as [r|msg]; cbn [outcome trace unread emit].
    + destruct (outcome (check_status r rest)); cbn; intros [= <-]; done.
    + intros [= <-]. done.
Qed.

(** ** The store *)

Lemma store_length (h : Output.heap) obj k v : length (Output.store h obj k v) = length h.
Proof. unfold Output.store. apply length_insert. Qed.

Lemma store_lookup (h : Output.heap) obj k v :
  (obj < length h)%nat -> Output.store h obj k v !!! obj = <[k := v]> (h !!! obj).
Proof. intros Hlt. unfold Output.store. by apply list_lookup_total_insert_eq. Qed.

Lemma store_lookup_ne (h : Output.heap) obj other k v :
  other <> obj -> Output.store h obj k v !! other = h !! other.
Proof. intros Hne. unfold Output.store. by apply list_lookup_insert_ne. Qed.

Lemma store_store (h : Output.heap) obj k v v' :
  Output.store (Output.store h obj k v) obj k v' = Output.store h obj k v'.
Proof.
  destruct (decide (obj < length h)%nat) as [Hlt|Hge].
  - unfold Output.store at 1. rewrite store_lookup by done.
    unfold Output.store. by rewrite list_insert_insert_eq, insert_insert_eq.
  - unfold Output.store.
    rewrite (list_insert_ge h) by lia. by rewrite (list_insert_ge h) by lia.
Qed.

Lemma lookup_total_some (h : Output.heap) obj (d : dict) :
  h !! obj = Some d -> h !!! obj = d /\ (obj < length h)%nat.
Proof.
  intros H. split; [by apply list_lookup_total_correct|by eapply lookup_lt_Some].
Qed.

Lemma truthy_in_range (h : Output.heap) obj :
  truthy (JDict (h !!! obj)) = true -> (obj < length h)%nat.
Proof.
  intros Ht. destruct (decide (obj < length h)%nat) as [|Hge]; [done|].
  rewrite list_lookup_total_alt, lookup_ge_None_2 in Ht by lia. done.
Qed.

Lemma falsy_empty (d : dict) : truthy (JDict d) = false -> d = ∅.
Proof.
  cbn [truthy]. intros H%negb_false_iff%Nat.eqb_eq. by apply map_size_empty_iff.
Qed.

(** ** Full sweeps of [paginate] *)

Lemma output_request_page (flag : bool) (self : Output.GitHubAPI)
    (method endpoint : string) (data params : option dict)
    (headers : option (gmap string string)) (items : list json) (rest : list reply) :
  Output._request flag self method endpoint data params headers (page_reply items :: rest)
  = Run (Return (JList items))
      [Call (output_request self method endpoint data params headers)] rest.
Proof. by rewrite output_request_cons. Qed.

Lemma paginate_loop_sweep (flag : bool) (self : Output.GitHubAPI) (endpoint : string)
    (obj : nat) (per_page : json) (pages : list (list json)) (last : list json)
    (w : list reply) (fuel : nat) (page : Z) (all_items : list json) (h : Output.heap) :
  (obj < length h)%nat ->
  (h !!! obj) !! "per_page" = Some per_page ->
  Forall (full_page per_page) pages ->
  short_page per_page last ->
  (length pages < fuel)%nat ->
  Output.paginate_loop flag fuel self endpoint obj page all_items h
    ((page_reply <$> pages) ++ page_reply last :: w)
  = (Run (Return (all_items ++ concat pages ++ last))
       ((fun i => Call (output_request self "GET" endpoint None
                          (Some (<["page" := JNum (page + Z.of_nat i)]> (h !!! obj))) None))
        <$> seq 0 (S (length pages)))
       w,
     Output.store h obj "page" (JNum (page + Z.of_nat (length pages)))).
Proof.
  intros Hobj Hpp Hfull Hshort. revert fuel page all_items h Hobj Hpp.
  induction Hfull as [|items pages [Hne Hge] _ IH]; intros fuel page all_items h Hobj Hpp Hfuel.
  - destruct fuel as [|fuel]; [simpl in Hfuel; lia|].
    cbn [fmap list_fmap app Output.paginate_loop].
    rewrite output_request_page. cbn [outcome trace unread length seq].
    rewrite store_lookup by done. rewrite lookup_insert_ne by done. rewrite Hpp.
    cbn [fmap list_fmap concat app]. change (Z.of_nat 0) with 0. rewrite !Z.add_0_r.
    destruct Hshort as [->|Hlt].
    + change (negb (truthy (JList [])) || (len [] =? 0)) with true.
      cbn iota. by rewrite app_nil_r.
    + rewrite Hlt.
      destruct last as [|x last].
      * change (negb (truthy (JList [])) || (len [] =? 0)) with true.
        cbn iota. by rewrite app_nil_r.
      * replace (negb (truthy (JList (x :: last))) || (len (x :: last) =? 0)) with false
          by (by cbn).
        done.
  - destruct fuel as [|fuel]; [simpl in Hfuel; lia|].
    cbn [fmap list_fmap app Output.paginate_loop].
    rewrite output_request_page. cbn [outcome trace unread].
    rewrite store_lookup by done. rewrite lookup_insert_ne by done. rewrite Hpp, Hge.
    destruct items as [|x items]; [done|].
    replace (negb (truthy (JList (x :: items))) || (len (x :: items) =? 0)) with false
      by (by cbn).
    rewrite (IH fuel (page + 1) (all_items ++ x :: items)
               (Output.store h obj "page" (JNum page))).
    + rewrite store_store.
      unfold emit. cbn [outcome trace unread concat length].
      f_equal; [|do 2 f_equal; lia].
      f_equal; [by rewrite <- !app_assoc|].
      replace (seq 0 (S (S (length pages))))
        with (0%nat :: (S <$> seq 0 (S (length pages)))) by (by rewrite fmap_S_seq).
      rewrite fmap_cons, <- list_fmap_compose. cbn [app].
      change (Z.of_nat 0) with 0. rewrite Z.add_0_r.
      f_equal. apply list_fmap_ext. intros _ i _. cbn [compose].
      rewrite store_lookup by done.
      rewrite insert_insert_eq. do 5 f_equal. lia.
    + by rewrite store_length.
    + rewrite store_lookup by done. by rewrite lookup_insert_ne.
    + simpl in Hfuel. lia.
Qed.

(** [params = params or {}] and [params['per_page'] = params.get('per_page', 100)]:
    the loop starts on an object that holds the caller's entries, which is
    the caller's object exactly when that one is a non-empty dict. *)
Lemma paginate_entry (flag : bool) (self : Output.GitHubAPI) (endpoint : string)
    (params : option nat) (h : Output.heap) (pending : list reply) :
  exists obj h1,
    (obj < length h1)%nat /\
    h1 !!! obj = caller_dict params h /\
    Output.paginate flag self endpoint params h pending
    = Output.paginate_loop flag (S (length pending)) self endpoint obj 1 []
        (Output.store h1 obj "per_page" (per_page_of (caller_dict params h))) pending /\
    (forall o, params = Some o -> h !!! o <> ∅ -> obj = o /\ h1 = h) /\
    (forall o, params = Some o -> h !!! o = ∅ -> obj = length h /\ h1 = h ++ [∅]).
Proof.
  unfold Output.paginate, per_page_of.
  assert (Hfresh : (h ++ [∅ : dict]) !!! length h = (∅ : dict)).
  { rewrite list_lookup_total_alt, lookup_app_r, Nat.sub_diag by lia. done. }
  destruct params as [o|]; cbn [caller_dict].
  - destruct (truthy (JDict (h !!! o))) eqn:Ht.
    + exists o, h. split; [|split; [|split; [|split]]]; try done.
      * by apply truthy_in_range.
      * by intros o' [= <-] _.
      * intros o' [= <-] Hempty. rewrite Hempty in Ht. done.
    + apply falsy_empty in Ht. exists (length h), (h ++ [∅]).
      rewrite Hfresh, Ht. split; [|split; [|split; [|split]]]; try done;
        try (by intros o' [= <-] ?).
      rewrite length_app. simpl. lia.
  - exists (length h), (h ++ [∅]). rewrite Hfresh.
    split; [|split; [|split; [|split]]]; try done.
    rewrite length_app. simpl. lia.
Qed.

Lemma paginate_sweep (flag : bool) (self : Output.GitHubAPI) (endpoint : string)
    (params : option nat) (h : Output.heap)
    (pages : list (list json)) (last : list json) (rest : list reply) :
  Forall (full_page (per_page_of (caller_dict params h))) pages ->
  short_page (per_page_of (caller_dict params h)) last ->
  exists obj h1,
    (obj < length h1)%nat /\
    h1 !!! obj = caller_dict params h /\
    (forall o, params = Some o -> h !!! o <> ∅ -> obj = o /\ h1 = h) /\
    Output.paginate flag self endpoint params h
      ((page_reply <$> pages) ++ page_reply last :: rest)
    = (Run (Return (concat pages ++ last))
         ((fun i => Call (output_request self "GET" endpoint None
                            (Some (page_params (caller_dict params h) (1 + Z.of_nat i)))
                            None))
          <$> seq 0 (S (length pages)))
         rest,
       <[obj := page_params (caller_dict params h) (1 + Z.of_nat (length pages))]> h1).
Proof.
  intros Hfull Hshort.
  destruct (paginate_entry flag self endpoint params h
    ((page_reply <$> pages) ++ page_reply last :: rest))
    as (obj & h1 & Hobj & Hd & Hrun & Hsame & _).
  exists obj, h1. split_and!; try done.
  rewrite Hrun.
  rewrite (paginate_loop_sweep flag self endpoint obj
    (per_page_of (caller_dict params h)) pages last rest); try done.
  - rewrite store_lookup, Hd by done. cbn [app]. f_equal.
    unfold Output.store at 1. rewrite store_lookup, Hd by done.
    unfold page_params, Output.store. by rewrite list_insert_insert_eq.
  - by rewrite store_length.
  - rewrite store_lookup by done. by rewrite lookup_insert_eq.
  - rewrite length_app, length_fmap. simpl. lia.
Qed.



(** ** What one call of [Output._request] reads *)

(** A call that ended does not depend on the replies after those it read. *)
Lemma output_request_frame (flag : bool) (self : Output.GitHubAPI)
    (method endpoint : string) (data params : option dict)
    (headers : option (gmap string string)) (pending extra : list reply) :
  outcome (Output._request flag self method endpoint data params headers pending) <> Blocked ->
  Output._request flag self method endpoint data params headers (pending ++ extra)
  = Run (outcome (Output._request flag self method endpoint data params headers pending))
      (trace (Output._request flag self method endpoint data params headers pending))
      (unread (Output._request flag self method endpoint data params headers pending)
       ++ extra).
Proof.
  induction pending as [|rp pending IH]; [done|].
  cbn [app]. rewrite !output_request_cons.
  unfold emit at 1 3 4 5. cbn [outcome trace unread].
  destruct rp as [r|msg]; [|done].
  destruct (status_code r =? 429).
  - destruct (readable (x_ratelimit_reset r)); [|done].
    unfold emit. cbn [outcome trace unread]. intros H. by rewrite IH.
  - destruct (raise_for_status r); [done|].
    destruct (status_code r =? 204); [done|].
    destruct (json_of r); [done|]. by destruct flag.
Qed.

(** A call reads a prefix of the script, one reply per network call, at
    least one when it ends, and never runs out of fuel. *)
Lemma output_request_consumes (flag : bool) (self : Output.GitHubAPI)
    (method endpoint : string) (data params : option dict)
    (headers : option (gmap string string)) (pending : list reply) :
  let r := Output._request flag self method endpoint data params headers pending in
  exists used,
    pending = used ++ unread r /\
    calls (trace r) = length used /\
    (terminated (outcome r) -> used <> []) /\
    outcome r <> OutOfFuel.
Proof.
  induction pending as [|rp pending (used & Hsplit & Hcalls & _ & Hfuel)];
    [by exists []|].
  rewrite output_request_cons. cbn zeta.
  unfold emit at 1 2 3 4. cbn [outcome trace unread app]. rewrite calls_call.
  assert (Hone : forall o : result json,
    o <> OutOfFuel ->
    exists used0,
      rp :: pending = used0 ++ unread (finish o pending) /\
      S (calls (trace (finish o pending))) = length used0 /\
      (terminated (outcome (finish o pending)) -> used0 <> []) /\
      outcome (finish o pending) <> OutOfFuel).
  { intros o Ho. by exists [rp]. }
  destruct rp as [r|msg]; [|by apply Hone].
  destruct (status_code r =? 429).
  - destruct (readable (x_ratelimit_reset r)); [|by apply Hone].
    exists (Answer r :: used). unfold emit. cbn [outcome trace unread app].
    rewrite calls_sleep, Hcalls. split_and!; [by rewrite <- Hsplit|done|done|done].
  - destruct (raise_for_status r); [by apply Hone|].
    destruct (status_code r =? 204); [by apply Hone|].
    destruct (json_of r); [by apply Hone|]. destruct flag; by apply Hone.
Qed.

Lemma terminated_cases {A} (o : result A) :
  o <> Blocked -> o <> OutOfFuel -> terminated o.
Proof. by destruct o. Qed.

(** On a script that holds a page after [pre], a call either ends within
    [pre] or reads all of [pre] (rate-limit replies) and returns the page. *)
Lemma output_request_before_page (flag : bool) (self : Output.GitHubAPI)
    (method endpoint : string) (data params : option dict)
    (headers : option (gmap string string))
    (pre : list reply) (r : response) (items : list json) (rest : list reply) :
  status_code r = 200 -> body r = JsonText (JList items) ->
  let rr := Output._request flag self method endpoint data params headers
              (pre ++ Answer r :: rest) in
  (outcome rr = Return (JList items) /\ unread rr = rest /\
   calls (trace rr) = S (length pre)) \/
  (exists used left,
     pre = used ++ left /\ used <> [] /\
     unread rr = left ++ Answer r :: rest /\
     calls (trace rr) = length used /\
     terminated (outcome rr)).
Proof.
  intros Hs Hb rr.
  destruct (output_request_consumes flag self method endpoint data params headers pre)
    as (used & Hsplit & Hcalls & Hused & Hfuel).
  assert (Hdec : outcome (Output._request flag self method endpoint data params headers
                            pre) = Blocked \/
                 outcome (Output._request flag self method endpoint data params headers
                            pre) <> Blocked)
    by (destruct (outcome _); auto).
  destruct Hdec as [Hblocked|Hended].
  - left. apply output_request_blocked in Hblocked.
    subst rr. rewrite (output_request_success _ _ _ _ _ _ _ _ _ (JList items)); try done.
    + cbn [emit finish outcome trace unread].
      by rewrite app_nil_r, calls_app, calls_output_retry_trace, calls_call, calls_nil,
        Nat.add_1_r.
    + by apply (status_success r 200).
    + by rewrite Hs.
    + unfold json_of. by rewrite Hb.
  - right. exists used,
      (unread (Output._request flag self method endpoint data params headers pre)).
    subst rr. rewrite output_request_frame by done. cbn [outcome trace unread].
    pose proof (terminated_cases _ Hended Hfuel). auto.
Qed.

Lemma store_per_page (h : Output.heap) obj v :
  (Output.store h obj "page" v !!! obj) !! "per_page" = (h !!! obj) !! "per_page".
Proof.
  destruct (decide (obj < length h)%nat) as [Hlt|Hge].
  - rewrite store_lookup by done. by rewrite lookup_insert_ne.
  - unfold Output.store. by rewrite list_insert_ge by lia.
Qed.

(** ** Termination of [paginate] *)

Lemma paginate_loop_terminates (flag : bool) (self : Output.GitHubAPI) (endpoint : string)
    (obj : nat) (per_page : json) (r : response) (items : list json) (rest : list reply)
    (n : nat) :
  status_code r = 200 -> body r = JsonText (JList items) ->
  short_page per_page items ->
  forall (pre : list reply) (fuel : nat) (page : Z) (all_items : list json)
         (h : Output.heap),
    (length pre <= n)%nat -> (length pre < fuel)%nat ->
    (h !!! obj) !! "per_page" = Some per_page ->
    let res := Output.paginate_loop flag fuel self endpoint obj page all_items h
                 (pre ++ Answer r :: rest) in
    terminated (outcome res.1) /\
    (exists left, unread res.1 = left ++ rest) /\
    (calls (trace res.1) <= S (length pre))%nat.
Proof.
  intros Hs Hb Hshort.
  induction n as [|n IH]; intros pre fuel page all_items h Hn Hfuel Hpp res;
    (destruct fuel as [|fuel]; [lia|]); subst res;
    cbn [Output.paginate_loop];
    set (h1 := Output.store h obj "page" (JNum page));
    (assert (Hpp1 : (h1 !!! obj) !! "per_page" = Some per_page)
       by (subst h1; by rewrite store_per_page));
    destruct (output_request_before_page flag self "GET" endpoint None
                (Some (h1 !!! obj)) None pre r items rest Hs Hb)
      as [(Ho & Hu & Hc)|(used & left & Hsplit & Hused & Hu & Hc & Ht)].
  1, 3: (* the call returns the short page *)
    rewrite Ho, Hpp1;
    destruct Hshort as [->|Hlt];
    [ change (negb (truthy (JList [])) || (len [] =? 0)) with true; cbn iota;
      cbn [fst outcome trace unread]; rewrite Hu, Hc; split_and!; [done|by exists []|lia]
    | rewrite Hlt; destruct (negb (truthy (JList items)) || (len items =? 0));
      cbn [fst outcome trace unread]; rewrite Hu, Hc; split_and!;
      (done || (by exists []) || lia) ].
  - (* no reply before the page: the call cannot have ended earlier *)
    destruct pre; [by destruct used|simpl in Hn; lia].
  - (* the call ended before the page *)
    assert (Hlen : length pre = (length used + length left)%nat)
      by (by rewrite Hsplit, length_app).
    assert (Hused' : (0 < length used)%nat) by (destruct used; [done|simpl; lia]).
    assert (Hend : forall o : result (list json), terminated o ->
      let res := (Run o (trace (Output._request flag self "GET" endpoint None
                                  (Some (h1 !!! obj)) None (pre ++ Answer r :: rest)))
                    (unread (Output._request flag self "GET" endpoint None
                               (Some (h1 !!! obj)) None (pre ++ Answer r :: rest))), h1) in
      terminated (outcome res.1) /\
      (exists left0, unread res.1 = left0 ++ rest) /\
      (calls (trace res.1) <= S (length pre))%nat).
    { intros o Hto. cbn [fst outcome trace unread]. rewrite Hu, Hc.
      split_and!; [done| |lia]. exists (left ++ [Answer r]). by rewrite <- app_assoc. }
    destruct (outcome (Output._request flag self "GET" endpoint None
                         (Some (h1 !!! obj)) None (pre ++ Answer r :: rest)))
      as [v|e| |] eqn:Hout; try done; [|by apply Hend].
    destruct v as [| | | |page_items|]; try (by apply Hend).
    destruct (negb (truthy (JList page_items)) || (len page_items =? 0));
      [by apply Hend|].
    rewrite Hpp1.
    destruct (Output.int_lt (len page_items) per_page) as [[|]|]; try (by apply Hend).
    rewrite Hu.
    pose proof (IH left fuel (page + 1) (all_items ++ page_items) h1
                  ltac:(lia) ltac:(lia) Hpp1) as Hrec.
    cbn zeta in Hrec.
    destruct (Output.paginate_loop flag fuel self endpoint obj (page + 1)
                (all_items ++ page_items) h1 (left ++ Answer r :: rest)) as [r' h'].
    cbn [fst] in Hrec |- *. destruct Hrec as (Ht' & Hleft' & Hcalls').
    unfold emit. cbn [outcome trace unread]. rewrite calls_app, Hc.
    split_and!; [done|done|lia].
Qed.

(** Whatever comes first in the script, once a page that is empty or
    shorter than [per_page] is among the replies, [paginate] ends (it
    returns, or raises what an earlier reply made it raise): it reads no
    reply after that page and performs at most one call per reply up to
    it. *)
Lemma paginate_terminates (flag : bool) (self : Output.GitHubAPI) (endpoint : string)
    (params : option nat) (h : Output.heap)
    (pre : list reply) (r : response) (items : list json) (rest : list reply) :
  status_code r = 200 -> body r = JsonText (JList items) ->
  short_page (per_page_of (caller_dict params h)) items ->
  let run := (Output.paginate flag self endpoint params h (pre ++ Answer r :: rest)).1 in
  terminated (outcome run) /\
  (exists left, unread run = left ++ rest) /\
  (calls (trace run) <= S (length pre))%nat.
Proof.
  intros Hs Hb Hshort run.
  destruct (paginate_entry flag self endpoint params h (pre ++ Answer r :: rest))
    as (obj & h1 & Hobj & Hd & Hrun & _).
  subst run. rewrite Hrun.
  apply (paginate_loop_terminates flag self endpoint obj
           (per_page_of (caller_dict params h)) r items rest (length pre)); try done.
  - rewrite length_app. simpl. lia.
  - rewrite store_lookup by done. by rewrite lookup_insert_eq.
Qed.

(** ** What [paginate] does to the dict it works on *)

Lemma store_insert (h : Output.heap) obj k v :
  Output.store h obj k v = <[obj := <[k := v]> (h !!! obj)]> h.
Proof. done. Qed.

Lemma last_replicate_pos {A} (n : nat) (x : A) : (0 < n)%nat -> last (replicate n x) = Some x.
Proof.
  destruct n as [|n]; [lia|]. intros _. by rewrite replicate_S_end, last_snoc.
Qed.

(** The last request of a call that ended is the request of that call. *)
Lemma output_request_last (flag : bool) (self : Output.GitHubAPI)
    (method endpoint : string) (data params : option dict)
    (headers : option (gmap string string)) (pending : list reply) :
  terminated (outcome (Output._request flag self method endpoint data params headers
                         pending)) ->
  last (sent_requests (trace (Output._request flag self method endpoint data params headers
                                pending)))
  = Some (output_request self method endpoint data params headers).
Proof.
  intros Ht.
  destruct (output_request_sent flag self method endpoint data params headers pending)
    as (n & Hsent & Hn).
  rewrite Hsent. apply last_replicate_pos, Hn. by intros ->.
Qed.

Lemma paginate_loop_params (flag : bool) (self : Output.GitHubAPI) (endpoint : string)
    (obj : nat) (fuel : nat) :
  forall (page : Z) (all_items : list json) (h : Output.heap) (pending : list reply),
    (obj < length h)%nat ->
    let res := Output.paginate_loop flag (S fuel) self endpoint obj page all_items h
                 pending in
    exists p : Z,
      page <= p /\
      res.2 = <[obj := <["page" := JNum p]> (h !!! obj)]> h /\
      (terminated (outcome res.1) ->
       last (sent_requests (trace res.1))
       = Some (output_request self "GET" endpoint None
                 (Some (<["page" := JNum p]> (h !!! obj))) None)).
Proof.
  induction fuel as [|fuel IH]; intros page all_items h pending Hobj res; subst res;
    [|remember (S fuel) as fuel' eqn:Hfuel'];
    cbn [Output.paginate_loop];
    set (h1 := Output.store h obj "page" (JNum page));
    (assert (Hh1 : h1 !!! obj = <["page" := JNum page]> (h !!! obj))
       by (subst h1; by apply store_lookup));
    pose proof (output_request_last flag self "GET" endpoint None (Some (h1 !!! obj))
                  None pending) as Hlast;
    rewrite Hh1 in Hlast |- *;
    (assert (Hend : forall o : result (list json),
       (terminated o ->
        terminated (outcome (Output._request flag self "GET" endpoint None
                               (Some (<["page" := JNum page]> (h !!! obj))) None
                               pending))) ->
       let res := (Run o (trace (Output._request flag self "GET" endpoint None
                                   (Some (<["page" := JNum page]> (h !!! obj))) None
                                   pending))
                     (unread (Output._request flag self "GET" endpoint None
                                (Some (<["page" := JNum page]> (h !!! obj))) None
                                pending)), h1) in
       exists p : Z,
         page <= p /\
         res.2 = <[obj := <["page" := JNum p]> (h !!! obj)]> h /\
         (terminated (outcome res.1) ->
          last (sent_requests (trace res.1))
          = Some (output_request self "GET" endpoint None
                    (Some (<["page" := JNum p]> (h !!! obj))) None)))
       by (intros o Ho; exists page; cbn [fst snd outcome trace];
           split_and!; [lia|done|intros Ht; by apply Hlast, Ho]));
    (destruct (outcome (Output._request flag self "GET" endpoint None
                          (Some (<["page" := JNum page]> (h !!! obj))) None pending))
       as [v|e| |] eqn:Hout; try (by apply Hend));
    (destruct v as [| | | |items|]; try (by apply Hend));
    (destruct (negb (truthy (JList items)) || (len items =? 0)); [by apply Hend|]);
    (destruct (<["page" := JNum page]> (h !!! obj) !! "per_page") as [per_page|];
       [|by apply Hend]);
    (destruct (Output.int_lt (len items) per_page) as [[|]|]; try (by apply Hend)).
  - (* out of fuel *)
    cbn [Output.paginate_loop]. exists page. cbn [fst snd].
    split_and!; [lia|done|done].
  - (* next page *)
    subst fuel'.
    pose proof (IH (page + 1) (all_items ++ items) h1
                  (unread (Output._request flag self "GET" endpoint None
                             (Some (<["page" := JNum page]> (h !!! obj))) None pending))
                  ltac:(subst h1; by rewrite store_length)) as Hrec.
    cbn zeta in Hrec.
    destruct (Output.paginate_loop flag (S fuel) self endpoint obj (page + 1)
                (all_items ++ items) h1 _) as [r' h'].
    cbn [fst snd] in Hrec. cbn iota. cbn [fst snd].
    destruct Hrec as (p & Hp & Hh' & Hlast').
    exists p. split_and!; [lia| |].
    + rewrite Hh', Hh1. subst h1. rewrite store_insert.
      by rewrite list_insert_insert_eq, insert_insert_eq.
    + unfold emit. cbn [outcome trace]. intros Ht.
      rewrite sent_requests_app, last_app, (Hlast' Ht), Hh1.
      by rewrite insert_insert_eq.
Qed.

(** C10, as the code has it.  When the caller passes a non-empty params
    dict, [paginate] writes to that very object: after the call (however it
    ended) the caller's dict holds its former entries, a [per_page] key (its
    own value, 100 by default) and a [page] key with a page number at least
    1, no other object is touched, and when the call returned or raised that
    page number is the one of the last request made.  An empty dict is left
    as it is: [params or {}] makes [paginate] work on a new dict. *)
Theorem paginate_mutates_params (flag : bool) (self : Output.GitHubAPI)
    (endpoint : string) (h : Output.heap) (obj : nat) (d : dict)
    (pending : list reply) :
  h !! obj = Some d ->
  let res := Output.paginate flag self endpoint (Some obj) h pending in
  (d <> ∅ ->
   exists p : Z,
     1 <= p /\
     res.2 !! obj = Some (page_params d p) /\
     page_params d p !! "per_page" = Some (per_page_of d) /\
     page_params d p !! "page" = Some (JNum p) /\
     (forall other, other <> obj -> res.2 !! other = h !! other) /\
     (terminated (outcome res.1) ->
      exists rq, last (sent_requests (trace res.1)) = Some rq /\
                 params rq = Some (page_params d p))) /\
  (d = ∅ -> res.2 !! obj = Some ∅).
Proof.
  intros Hd res. destruct (lookup_total_some h obj d Hd) as [Htot Hlt].
  destruct (paginate_entry flag self endpoint (Some obj) h pending)
    as (obj' & h1 & Hobj' & Hd1 & Hrun & Hsame & Hfresh).
  cbn [caller_dict] in *. rewrite Htot in *.
  pose proof (paginate_loop_params flag self endpoint obj' (length pending) 1 []
                (Output.store h1 obj' "per_page" (per_page_of d)) pending
                ltac:(by rewrite store_length)) as Hloop.
  cbn zeta in Hloop. rewrite <- Hrun in Hloop. fold res in Hloop.
  destruct Hloop as (p & Hp & Hh' & Hlast).
  rewrite store_lookup, Hd1 in Hh', Hlast by done.
  rewrite store_insert, list_insert_insert_eq in Hh'.
  split.
  - intros Hne. destruct (Hsame obj eq_refl ltac:(by rewrite Htot)) as [-> ->].
    exists p. fold (page_params d p) in Hh', Hlast. split_and!.
    + done.
    + rewrite Hh'. by apply list_lookup_insert_eq.
    + unfold page_params. rewrite lookup_insert_ne by done. by rewrite lookup_insert_eq.
    + unfold page_params. by rewrite lookup_insert_eq.
    + intros other Hother. rewrite Hh'. by apply list_lookup_insert_ne.
    + intros Ht. eexists. split; [by apply Hlast|done].
  - intros ->. destruct (Hfresh obj eq_refl Htot) as [-> ->].
    rewrite Hh', list_lookup_insert_ne by lia. by rewrite lookup_app_l.
Qed.

(** ** What one call of [StargazersAdvanced2._request] reads *)

Lemma request_loop_exit (flag : bool) (self : StargazersAdvanced2.GitHubAPIBase)
    (rq : request) (retries : Z) (last_error : option request_exception) :
  StargazersAdvanced2.max_retries self < retries ->
  exists e, forall pending,
    StargazersAdvanced2._request_loop flag self rq retries last_error pending
    = finish (Raise e) pending.
Proof.
  intros Hgt.
  assert (Hleb : (retries <=? StargazersAdvanced2.max_retries self) = false)
    by (apply Z.leb_gt; lia).
  destruct last_error as [[r| | |]|].
  1: exists (StargazersAdvanced2.api_error (HTTPError r) r).
  2: exists (GitHubAPIError 0 (FailedAfter (StargazersAdvanced2.max_retries self)
                                 (StrOf (Some (ConnectionError msg))))).
  3: exists (GitHubAPIError 0 (FailedAfter (StargazersAdvanced2.max_retries self)
                                 (StrOf (Some JSONDecodeError)))).
  4: exists (GitHubAPIError 0 (FailedAfter (StargazersAdvanced2.max_retries self)
                                 (StrOf (Some (RequestException msg))))).
  5: exists (GitHubAPIError 0 (FailedAfter (StargazersAdvanced2.max_retries self)
                                 (StrOf None))).
  all: intros [|rp pending]; cbn [StargazersAdvanced2._request_loop]; by rewrite Hleb.
Qed.

(** One iteration of the loop either ends the call or sleeps and goes on. *)
Lemma request_loop_step (flag : bool) (self : StargazersAdvanced2.GitHubAPIBase)
    (rq : request) (retries : Z) (last_error : option request_exception) (rp : reply) :
  retries <= StargazersAdvanced2.max_retries self ->
  (exists o : result json,
     terminated o /\
     forall pending,
       StargazersAdvanced2._request_loop flag self rq retries last_error (rp :: pending)
       = Run o [Call rq] pending) \/
  (exists w retries' last_error',
     forall pending,
       StargazersAdvanced2._request_loop flag self rq retries last_error (rp :: pending)
       = emit [Call rq; Sleep w]
           (StargazersAdvanced2._request_loop flag self rq retries' last_error' pending)).
Proof.
  intros Hle.
  assert (Hleb : (retries <=? StargazersAdvanced2.max_retries self) = true)
    by (by apply Z.leb_le).
  cbn [StargazersAdvanced2._request_loop]. rewrite Hleb.
  (* the call ends with this reply *)
  assert (Hends : forall (o : result json) (F : list reply -> run json),
    terminated o -> (forall pending, F pending = emit [Call rq] (finish o pending)) ->
    (exists o' : result json,
       terminated o' /\ forall pending, F pending = Run o' [Call rq] pending) \/
    (exists w retries' last_error',
       forall pending,
         F pending
         = emit [Call rq; Sleep w]
             (StargazersAdvanced2._request_loop flag self rq retries' last_error' pending)))
    by (intros o F Ho HF; left; exists o; split; [done|]; intros pending; by rewrite HF).
  (* a counted failure: a sleep and another iteration, or the code after the loop *)
  assert (Hcounted : forall (e : request_exception) (F : list reply -> run json),
    (forall pending,
       F pending
       = emit [Call rq]
           (if retries + 1 <=? StargazersAdvanced2.max_retries self
            then emit [Sleep (Seconds (StargazersAdvanced2.retry_delay self
                                        * Qpower 2 (retries + 1 - 1))%Q)]
                   (StargazersAdvanced2._request_loop flag self rq (retries + 1)
                      (Some e) pending)
            else StargazersAdvanced2._request_loop flag self rq (retries + 1)
                   (Some e) pending)) ->
    (exists o' : result json,
       terminated o' /\ forall pending, F pending = Run o' [Call rq] pending) \/
    (exists w retries' last_error',
       forall pending,
         F pending
         = emit [Call rq; Sleep w]
             (StargazersAdvanced2._request_loop flag self rq retries' last_error' pending))).
  { intros e F HF.
    destruct (Z.leb_spec (retries + 1) (StargazersAdvanced2.max_retries self)).
    - right. eexists _, _, _. intros pending. by rewrite HF, emit_emit.
    - left. destruct (request_loop_exit flag self rq (retries + 1) (Some e) ltac:(lia))
        as [e' He'].
      exists (Raise e'). split; [done|]. intros pending. by rewrite HF, He'. }
  destruct rp as [r|msg]; [|(eapply Hcounted; intros ?; reflexivity)].
  destruct (status_code r =? 429);
    [destruct (x_ratelimit_reset r) as [|n|s];
       [rewrite (Z.gtb_ltb 0 0), Z.ltb_irrefl
       |destruct (n >? 0);
          [right; eexists _, _, _; intros pending; by rewrite emit_emit|]
       |(eapply Hends; [|intros ?; reflexivity]; exact I)]|];
    (unfold raise_for_status;
     destruct ((400 <=? status_code r) && (status_code r <? 600));
     [destruct (StargazersAdvanced2.is_client_error (status_code r));
        [(eapply Hends; [|intros ?; reflexivity]; exact I)|(eapply Hcounted; intros ?; reflexivity)]
     |destruct (negb (has_content r)); [(eapply Hends; [|intros ?; reflexivity]; exact I)|];
      destruct (json_of r); [(eapply Hends; [|intros ?; reflexivity]; exact I)|];
      destruct flag; [(eapply Hcounted; intros ?; reflexivity)|(eapply Hends; [|intros ?; reflexivity]; exact I)]]).
Qed.

Lemma request_loop_nil (flag : bool) (self : StargazersAdvanced2.GitHubAPIBase)
    (rq : request) (retries : Z) (last_error : option request_exception) :
  retries <= StargazersAdvanced2.max_retries self ->
  StargazersAdvanced2._request_loop flag self rq retries last_error [] = finish Blocked [].
Proof.
  intros Hle. cbn [StargazersAdvanced2._request_loop].
  by rewrite (proj2 (Z.leb_le _ _) Hle).
Qed.

Lemma request_loop_frame (flag : bool) (self : StargazersAdvanced2.GitHubAPIBase)
    (rq : request) (pending extra : list reply) :
  forall (retries : Z) (last_error : option request_exception),
    outcome (StargazersAdvanced2._request_loop flag self rq retries last_error pending)
    <> Blocked ->
    StargazersAdvanced2._request_loop flag self rq retries last_error (pending ++ extra)
    = Run (outcome (StargazersAdvanced2._request_loop flag self rq retries last_error
                      pending))
        (trace (StargazersAdvanced2._request_loop flag self rq retries last_error pending))
        (unread (StargazersAdvanced2._request_loop flag self rq retries last_error pending)
         ++ extra).
Proof.
  induction pending as [|rp pending IH]; intros retries last_error;
    destruct (Z.leb_spec retries (StargazersAdvanced2.max_retries self)) as [Hle|Hgt].
  - by rewrite request_loop_nil.
  - destruct (request_loop_exit flag self rq retries last_error Hgt) as [e He].
    by rewrite !He.
  - cbn [app].
    destruct (request_loop_step flag self rq retries last_error rp Hle)
      as [(o & _ & Hstep)|(w & retries' & last' & Hstep)]; rewrite !Hstep; [done|].
    unfold emit. cbn [outcome trace unread]. intros H. by rewrite IH.
  - destruct (request_loop_exit flag self rq retries last_error Hgt) as [e He].
    by rewrite !He.
Qed.

Lemma request_loop_consumes (flag : bool) (self : StargazersAdvanced2.GitHubAPIBase)
    (rq : request) (pending : list reply) :
  forall (retries : Z) (last_error : option request_exception),
    let r := StargazersAdvanced2._request_loop flag self rq retries last_error pending in
    exists used,
      pending = used ++ unread r /\
      calls (trace r) = length used /\
      outcome r <> OutOfFuel /\
      (forall v, outcome r = Return v -> used <> []).
Proof.
  induction pending as [|rp pending IH]; intros retries last_error;
    destruct (Z.leb_spec retries (StargazersAdvanced2.max_retries self)) as [Hle|Hgt];
    cbn zeta.
  - rewrite request_loop_nil by done. by exists [].
  - destruct (request_loop_exit flag self rq retries last_error Hgt) as [e He].
    rewrite He. by exists [].
  - destruct (request_loop_step flag self rq retries last_error rp Hle)
      as [(o & Ho & Hstep)|(w & retries' & last' & Hstep)]; rewrite Hstep.
    + exists [rp]. cbn [outcome trace unread]. split_and!; try done.
      intros ->. done.
    + destruct (IH retries' last') as (used & Hsplit & Hcalls & Hfuel & Hret).
      exists (rp :: used). unfold emit. cbn [outcome trace unread app].
      rewrite calls_call, calls_sleep, Hcalls. split_and!; try done.
      by rewrite <- Hsplit.
  - destruct (request_loop_exit flag self rq retries last_error Hgt) as [e He].
    rewrite He. exists []. cbn [finish outcome trace unread]. by split_and!.
Qed.

(** On a script that holds a page after [pre], [get] either ends within
    [pre] or reads all of [pre] and returns the page. *)
Lemma get_before_page (flag : bool) (self : StargazersAdvanced2.GitHubAPIBase)
    (endpoint : string) (params : option dict) (headers : option (gmap string string))
    (pre : list reply) (r : response) (items : list json) (rest : list reply) :
  status_code r = 200 -> body r = JsonText (JList items) ->
  let rr := StargazersAdvanced2.get flag self endpoint params headers
              (pre ++ Answer r :: rest) in
  (outcome rr = Return (JList items) /\ unread rr = rest /\
   calls (trace rr) = S (length pre)) \/
  (exists used left,
     pre = used ++ left /\
     unread rr = left ++ Answer r :: rest /\
     calls (trace rr) = length used /\
     terminated (outcome rr) /\
     (forall v, outcome rr = Return v -> used <> [])).
Proof.
  intros Hs Hb rr. unfold StargazersAdvanced2.get, StargazersAdvanced2._request in rr.
  set (rq := Request "GET"
               (StargazersAdvanced2.base_url self +:+ "/" +:+ lstrip_slash endpoint)
               params None (default ∅ headers)) in *.
  destruct (request_loop_consumes flag self rq pre 0 None)
    as (used & Hsplit & Hcalls & Hfuel & Hret).
  assert (Hdec : outcome (StargazersAdvanced2._request_loop flag self rq 0 None pre)
                 = Blocked \/
                 outcome (StargazersAdvanced2._request_loop flag self rq 0 None pre)
                 <> Blocked)
    by (destruct (outcome _); auto).
  destruct Hdec as [Hblocked|Hended].
  - left. apply request_blocked in Hblocked as [Hgo Hle].
    destruct (request_success flag self "GET" endpoint params None headers pre r
                (JList items) rest Hgo ltac:(lia)
                (status_success r 200 Hs ltac:(lia))) as [rq' Hrun].
    { unfold decoded_value. by rewrite Hb. }
    unfold StargazersAdvanced2._request in Hrun. fold rq in Hrun.
    subst rr. rewrite Hrun. cbn [emit finish outcome trace unread]. count_calls.
    split_and!; [done|done|lia].
  - right. exists used, (unread (StargazersAdvanced2._request_loop flag self rq 0 None pre)).
    subst rr. rewrite request_loop_frame by done. cbn [outcome trace unread].
    pose proof (terminated_cases _ Hended Hfuel). split_and!; auto.
Qed.

(** ** The star history sweep *)

(** The post-processing reads no reply and always ends. *)
Lemma history_of_ends (items : list json) :
  exists o : result (list json),
    terminated o /\ forall pending, StargazersAdvanced2.history_of items pending
                                    = finish o pending.
Proof.
  induction items as [|item items (o & Ho & IH)]; [by exists (Return [])|].
  cbn [StargazersAdvanced2.history_of].
  destruct item as [| | | | |d]; try (by exists o).
  destruct (truthy (default (JDict ∅) (d !! "user"))
            && truthy (default JNull (d !! "starred_at"))); [|by exists o].
  destruct (default (JDict ∅) (d !! "user")) as [| | | | |u];
    try (by exists (Raise AttributeError)).
  unfold mbind, M_bind. destruct o as [history|e| |]; try done.
  - eexists (Return _). split; [|intros pending; rewrite IH; reflexivity]. done.
  - exists (Raise e). split; [done|]. intros pending. by rewrite IH.
Qed.

Lemma history_of_records (items : list json) (pending : list reply) :
  Forall star_record items ->
  StargazersAdvanced2.history_of items pending
  = finish (Return (star_entry <$> items)) pending.
Proof.
  induction 1 as [|item items (d & u & s & -> & Hu & Hne & Hs & Ht) _ IH]; [done|].
  cbn [StargazersAdvanced2.history_of fmap list_fmap star_entry].
  rewrite Hu, Hs. cbn [default from_option id]. rewrite (dict_truthy u Hne), Ht. cbn [andb].
  unfold mbind, M_bind. rewrite IH. done.
Qed.

(** One iteration of the loop of [get_star_history], seen from the run of
    its [get]. *)
Lemma star_history_page_run (flag : bool) (self : StargazersAdvanced2.GitHubStargazersAPI)
    (endpoint : string) (max_pages page : Z) (all_stargazers : list json)
    (pending : list reply) :
  let rr := StargazersAdvanced2.get flag (StargazersAdvanced2.api self) endpoint
              (Some (<["page" := JNum page]> {["per_page" := JNum 100]}))
              (Some {["Accept" := "application/vnd.github.v3.star+json"]}) pending in
  let sp := StargazersAdvanced2.star_history_page flag self endpoint max_pages page
              all_stargazers pending in
  trace sp = trace rr /\ unread sp = unread rr /\
  (terminated (outcome rr) -> terminated (outcome sp)) /\
  (outcome sp = OutOfFuel -> outcome rr = OutOfFuel) /\
  (forall p a, outcome sp = Return (StargazersAdvanced2.Continue p a) ->
     exists v, outcome rr = Return v) /\
  (forall items, outcome rr = Return (JList items) ->
     items = [] \/ Z.of_nat (length items) < 100 ->
     exists a, outcome sp = Return (StargazersAdvanced2.Break a)) /\
  (forall items, outcome rr = Return (JList items) ->
     items <> [] -> page <= max_pages ->
     outcome sp
     = Return (if Z.of_nat (length items) <? 100
               then StargazersAdvanced2.Break (all_stargazers ++ items)
               else StargazersAdvanced2.Continue (page + 1) (all_stargazers ++ items))).
Proof.
  intros rr sp. subst sp.
  unfold StargazersAdvanced2.star_history_page, try_except, mbind, M_bind.
  fold rr. destruct (outcome rr) as [v|e| |] eqn:Hout; cbn [outcome trace unread].
  - destruct (negb (truthy v) || (page >? max_pages)) eqn:Hc.
    + cbn [mret M_ret emit finish outcome trace unread]. rewrite app_nil_r.
      split_and!;
        first
          [ done
          | by eauto
          | intros items Heq _; by eexists
          | intros items Heq Hne Hp; injection Heq as ->; destruct items; [done|];
            cbn in Hc; apply Z.gtb_lt in Hc; lia ].
    + destruct v as [|b|n|s|items|d]; cbn [StargazersAdvanced2.iterate is_list andb];
        try (destruct (Z.of_nat (length items) <? 100) eqn:Hshort);
        cbn [mret M_ret throw emit finish outcome trace unread]; rewrite ?app_nil_r;
        split_and!;
        first
          [ done
          | by eauto
          | intros items' Heq; discriminate Heq
          | intros items' Heq _; by eexists
          | intros items' Heq; injection Heq as <-; intros _ _; by rewrite Hshort
          | intros items' Heq; injection Heq as <-; intros [->|Hlt];
            [by cbn in Hc|apply Z.ltb_ge in Hshort; lia] ].
  - destruct e; cbn [mret M_ret throw emit finish outcome trace unread];
      rewrite ?app_nil_r; by split_and!.
  - by split_and!.
  - by split_and!.
Qed.

Lemma run_eta {A} (r : run A) : r = Run (outcome r) (trace r) (unread r).
Proof. by destruct r. Qed.

Lemma get_page (flag : bool) (self : StargazersAdvanced2.GitHubAPIBase)
    (endpoint : string) (params : option dict) (headers : option (gmap string string))
    (items : list json) (rest : list reply) :
  0 <= StargazersAdvanced2.max_retries self ->
  StargazersAdvanced2.get flag self endpoint params headers (page_reply items :: rest)
  = Run (Return (JList items))
      [Call (Request "GET"
               (StargazersAdvanced2.base_url self +:+ "/" +:+ lstrip_slash endpoint)
               params None (default ∅ headers))]
      rest.
Proof.
  intros Hle. unfold StargazersAdvanced2.get, StargazersAdvanced2._request.
  cbn [StargazersAdvanced2._request_loop]. by rewrite (proj2 (Z.leb_le _ _) Hle).
Qed.

Lemma star_history_page_on_page (flag : bool)
    (self : StargazersAdvanced2.GitHubStargazersAPI) (owner repo : string)
    (max_pages page : Z) (all_stargazers items : list json) (rest : list reply) :
  0 <= StargazersAdvanced2.max_retries (StargazersAdvanced2.api self) ->
  StargazersAdvanced2.star_history_page flag self
    ("repos/" +:+ owner +:+ "/" +:+ repo +:+ "/stargazers") max_pages page all_stargazers
    (page_reply items :: rest)
  = Run (Return (if negb (truthy (JList items)) || (page >? max_pages)
                 then StargazersAdvanced2.Break all_stargazers
                 else if Z.of_nat (length items) <? 100
                      then StargazersAdvanced2.Break (all_stargazers ++ items)
                      else StargazersAdvanced2.Continue (page + 1)
                             (all_stargazers ++ items)))
      [star_page_call self owner repo page] rest.
Proof.
  intros Hmax.
  unfold StargazersAdvanced2.star_history_page, try_except, mbind, M_bind.
  rewrite get_page by done. cbn [outcome trace unread].
  destruct (negb (truthy (JList items)) || (page >? max_pages)); [done|].
  cbn [StargazersAdvanced2.iterate is_list andb].
  by destruct (Z.of_nat (length items) <? 100).
Qed.


Lemma bind_run {A B} (m : M A) (k : A -> M B) (pending : list reply) :
  (m ≫= k) pending
  = match outcome (m pending) with
    | Return a => emit (trace (m pending)) (k a (unread (m pending)))
    | Raise e => Run (Raise e) (trace (m pending)) (unread (m pending))
    | Blocked => Run Blocked (trace (m pending)) (unread (m pending))
    | OutOfFuel => Run OutOfFuel (trace (m pending)) (unread (m pending))
    end.
Proof. done. Qed.

Lemma star_history_pages_terminates (flag : bool)
    (self : StargazersAdvanced2.GitHubStargazersAPI) (endpoint : string) (max_pages : Z)
    (r : response) (items : list json) (rest : list reply) (n : nat) :
  status_code r = 200 -> body r = JsonText (JList items) ->
  (length items < 100)%nat ->
  forall (pre : list reply) (fuel : nat) (page : Z) (all_stargazers : list json),
    (length pre <= n)%nat -> (length pre < fuel)%nat ->
    let res := StargazersAdvanced2.star_history_pages flag fuel self endpoint max_pages
                 page all_stargazers (pre ++ Answer r :: rest) in
    terminated (outcome res) /\
    (exists left, unread res = left ++ rest) /\
    (calls (trace res) <= S (length pre))%nat.
Proof.
  intros Hs Hb Hshort.
  induction n as [|n IH]; intros pre fuel page all_stargazers Hn Hfuel res;
    (destruct fuel as [|fuel]; [lia|]); subst res;
    cbn [StargazersAdvanced2.star_history_pages]; rewrite bind_run;
    destruct (star_history_page_run flag self endpoint max_pages page all_stargazers
                (pre ++ Answer r :: rest))
      as (Htrace & Hunread & Hterm & _ & Hcont & Hbreak & _);
    destruct (get_before_page flag (StargazersAdvanced2.api self) endpoint
                (Some (<["page" := JNum page]> {["per_page" := JNum 100]}))
                (Some {["Accept" := "application/vnd.github.v3.star+json"]})
                pre r items rest Hs Hb)
      as [(Ho & Hu & Hc)|(used & left & Hsplit & Hu & Hc & Ht & Hret)].
  1, 3: (* the call returns the short page *)
    destruct (Hbreak items Ho ltac:(right; lia)) as [a Ha];
    rewrite Ha; unfold emit; cbn [mret M_ret finish outcome trace unread];
    rewrite app_nil_r, Htrace, Hunread, Hu, Hc;
    split_and!; [done|by exists []|lia].
  - (* no reply before the page: the call ended without reading *)
    assert (pre = []) as -> by (destruct pre; [done|simpl in Hn; lia]).
    symmetry in Hsplit. apply app_eq_nil in Hsplit as [-> ->].
    specialize (Hterm Ht).
    assert (Hleft : exists left0, unread (StargazersAdvanced2.star_history_page flag self
                      endpoint max_pages page all_stargazers ([] ++ Answer r :: rest))
                    = left0 ++ rest)
      by (exists [Answer r]; by rewrite Hunread, Hu).
    destruct (outcome (StargazersAdvanced2.star_history_page flag self endpoint max_pages
                         page all_stargazers ([] ++ Answer r :: rest)))
      as [[a|p a]|e| |] eqn:Hsp; try done.
    + unfold emit. cbn [mret M_ret finish outcome trace unread].
      rewrite app_nil_r, Htrace, Hc. split_and!; [done|done|simpl; lia].
    + destruct (Hcont p a eq_refl) as [v Hv]. by destruct (Hret v Hv).
    + cbn [outcome trace unread]. rewrite Htrace, Hc. split_and!; [done|done|simpl; lia].
  - (* the call ended before the page *)
    assert (Hlen : length pre = (length used + length left)%nat)
      by (by rewrite Hsplit, length_app).
    specialize (Hterm Ht).
    assert (Hleft : exists left0, unread (StargazersAdvanced2.star_history_page flag self
                      endpoint max_pages page all_stargazers (pre ++ Answer r :: rest))
                    = left0 ++ rest)
      by (exists (left ++ [Answer r]); by rewrite Hunread, Hu, <- app_assoc).
    destruct (outcome (StargazersAdvanced2.star_history_page flag self endpoint max_pages
                         page all_stargazers (pre ++ Answer r :: rest)))
      as [[a|p a]|e| |] eqn:Hsp; try done.
    + unfold emit. cbn [mret M_ret finish outcome trace unread].
      rewrite app_nil_r, Htrace, Hc. split_and!; [done|done|lia].
    + destruct (Hcont p a eq_refl) as [v Hv]. pose proof (Hret v Hv) as Hused.
      assert (0 < length used)%nat by (destruct used; [done|simpl; lia]).
      rewrite Hunread, Hu.
      destruct (IH left fuel p a ltac:(lia) ltac:(lia)) as (Ht' & Hleft' & Hcalls').
      unfold emit. cbn [outcome trace unread]. rewrite calls_app, Htrace, Hc.
      split_and!; [done|done|lia].
    + cbn [outcome trace unread]. rewrite Htrace, Hc. split_and!; [done|done|lia].
Qed.

Lemma get_star_history_terminates (flag : bool)
    (self : StargazersAdvanced2.GitHubStargazersAPI) (owner repo : string) (max_pages : Z)
    (pre : list reply) (r : response) (items : list json) (rest : list reply) :
  status_code r = 200 -> body r = JsonText (JList items) ->
  (length items < 100)%nat ->
  let run := StargazersAdvanced2.get_star_history flag self owner repo max_pages
               (pre ++ Answer r :: rest) in
  terminated (outcome run) /\
  (exists left, unread run = left ++ rest) /\
  (calls (trace run) <= S (length pre))%nat.
Proof.
  intros Hs Hb Hshort run. subst run.
  unfold StargazersAdvanced2.get_star_history, mbind, M_bind.
  destruct (star_history_pages_terminates flag self
    ("repos/" +:+ owner +:+ "/" +:+ repo +:+ "/stargazers") max_pages r items rest
    (length pre) Hs Hb Hshort pre (S (length (pre ++ Answer r :: rest))) 1 []
    ltac:(lia) ltac:(rewrite length_app; simpl; lia)) as (Ht & Hleft & Hcalls).
  destruct (outcome (StargazersAdvanced2.star_history_pages flag
    (S (length (pre ++ Answer r :: rest))) self
    ("repos/" +:+ owner +:+ "/" +:+ repo +:+ "/stargazers") max_pages 1 []
    (pre ++ Answer r :: rest))) as [all_stargazers|e| |] eqn:Hout; try done.
  destruct (history_of_ends all_stargazers) as (o & Ho & Hhist).
  rewrite Hhist. unfold emit. cbn [finish outcome trace unread]. by rewrite app_nil_r.
Qed.


(** ** Pagination *)


(** C8.  In the well-behaved case the pagination operation ends: whatever
    comes first in the script, once a page that is empty or shorter than
    [per_page] is among the replies, [paginate] of output.py and
    [get_star_history] of stargazers-advanced2.py (whose [per_page] is 100)
    return, or raise what an earlier reply made them raise; they read no
    reply after that page and perform at most one call per reply up to
    it. *)
Theorem pagination_terminates (flag : bool) (self : Output.GitHubAPI)
    (stars : StargazersAdvanced2.GitHubStargazersAPI)
    (endpoint owner repo : string) (params : option nat) (h : Output.heap)
    (max_pages : Z)
    (pre : list reply) (r : response) (items : list json) (rest : list reply) :
  status_code r = 200 -> body r = JsonText (JList items) ->
  (short_page (per_page_of (caller_dict params h)) items ->
   let run := (Output.paginate flag self endpoint params h (pre ++ Answer r :: rest)).1 in
   terminated (outcome run) /\
   (exists left, unread run = left ++ rest) /\
   (calls (trace run) <= S (length pre))%nat) /\
  ((length items < 100)%nat ->
   let run := StargazersAdvanced2.get_star_history flag stars owner repo max_pages
                (pre ++ Answer r :: rest) in
   terminated (outcome run) /\
   (exists left, unread run = left ++ rest) /\
   (calls (trace run) <= S (length pre))%nat).
Proof.
  intros Hs Hb. split.
  - intros Hshort. exact (paginate_terminates flag self endpoint params h pre r items rest Hs Hb Hshort).
  - intros Hshort.
    exact (get_star_history_terminates flag stars owner repo max_pages pre r items rest Hs Hb Hshort).
Qed.

(** * Instances *)








Lemma chapter2_check_if_starred_witness :
  status_code (plain 403 Empty) <> 204 /\
  outcome (Chapter2.check_if_starred demo_chapter2 "octocat" "Hello-World"
             [Answer (plain 403 Empty)]) = Return false.
Proof.
  assert (H : status_code (plain 403 Empty) <> 204) by (vm_compute; discriminate).
  split; [exact H|].
  destruct (chapter2_check_if_starred demo_chapter2 "octocat" "Hello-World"
              (plain 403 Empty) []) as (_ & Hfalse & _).
  exact (Hfalse H).
Defined.

Lemma create_issue_nulls_counterexample :
  exists rq d,
    sent_requests (trace (Chapter2.create_issue demo_chapter2 "octocat" "Hello-World"
                            (JStr "New issue title") None None None [Answer demo_ok]))
    = [rq] /\
    json_body rq = Some d /\
    d !! "body" = Some JNull /\ d !! "assignees" = Some JNull /\ d !! "labels" = Some JNull.
Proof. do 2 eexists. split_and!; reflexivity. Qed.

Lemma update_bodies_witness :
  let kwargs : dict := {["title" := JStr "Updated title"]} in
  (kwargs <> ∅ /\ (∅ : dict) = ∅) /\
  Forall (fun rq => json_body rq = Some kwargs)
    (sent_requests (trace (Output.update_issue true demo_api "octocat" "Hello-World" 1
                             kwargs [Answer demo_ok]))) /\
  Forall (fun rq => json_body rq = None)
    (sent_requests (trace (Output.update_issue true demo_api "octocat" "Hello-World" 1
                             ∅ [Answer demo_ok]))).
Proof.
  intros kwargs.
  assert (H1 : kwargs <> ∅) by apply map_non_empty_singleton.
  assert (H2 : (∅ : dict) = ∅) by reflexivity.
  split; [done|].
  destruct (update_bodies true demo_api demo_samples "octocat" "Hello-World" 1 kwargs
              None None None None None (Answer demo_ok) []) as (_ & _ & Hsome & _ & _).
  destruct (update_bodies true demo_api demo_samples "octocat" "Hello-World" 1 ∅
              None None None None None (Answer demo_ok) []) as (_ & _ & _ & Hnone & _).
  specialize (Hsome H1). specialize (Hnone H2).
  rewrite !Forall_app in Hsome, Hnone.
  split; [apply Hsome | apply Hnone].
Defined.

Lemma update_issue_nulls_counterexample :
  exists rq d,
    sent_requests (trace (Chapter3Samples.update_issue demo_samples "octocat" "Hello-World" 1
                            (Some (JStr "Updated title")) None None None None
                            [Answer demo_ok]))
    = [rq] /\
    json_body rq = Some d /\
    d !! "title" = Some (JStr "Updated title") /\
    d !! "body" = Some JNull /\ d !! "state" = Some JNull /\
    d !! "assignees" = Some JNull /\ d !! "labels" = Some JNull.
Proof. do 2 eexists. split_and!; reflexivity. Qed.



Lemma pagination_terminates_witness :
  let h : Output.heap := [{["per_page" := JNum 2]}] in
  let short := plain 200 (JsonText (JList [JNum 3])) in
  let pre := [Answer limited_hinted; page_reply [JNum 1; JNum 2]] in
  (status_code short = 200 /\ body short = JsonText (JList [JNum 3]) /\
   short_page (per_page_of (caller_dict (Some 0%nat) h)) [JNum 3] /\
   (length [JNum 3] < 100)%nat) /\
  (let run := (Output.paginate true demo_api "/user/orgs" (Some 0%nat) h
                 (pre ++ Answer short :: [page_reply [JNum 4; JNum 5]])).1 in
   terminated (outcome run) /\
   (exists left, unread run = left ++ [page_reply [JNum 4; JNum 5]]) /\
   (calls (trace run) <= 3)%nat) /\
  (let run := StargazersAdvanced2.get_star_history true demo_stargazers
                "octocat" "hello-world" 10
                (pre ++ Answer short :: [page_reply [JNum 4; JNum 5]]) in
   terminated (outcome run) /\
   (exists left, unread run = left ++ [page_reply [JNum 4; JNum 5]]) /\
   (calls (trace run) <= 3)%nat).
Proof.
  intros h short pre.
  assert (H1 : status_code short = 200) by reflexivity.
  assert (H2 : body short = JsonText (JList [JNum 3])) by reflexivity.
  assert (H3 : short_page (per_page_of (caller_dict (Some 0%nat) h)) [JNum 3])
    by (right; reflexivity).
  assert (H4 : (length [JNum 3] < 100)%nat) by (vm_compute; lia).
  split; [done|].
  destruct (pagination_terminates true demo_api demo_stargazers "/user/orgs"
              "octocat" "hello-world" (Some 0%nat) h 10 pre short
              [JNum 3] [page_reply [JNum 4; JNum 5]] H1 H2) as (Hpaginate & Hstars).
  split; [exact (Hpaginate H3)|exact (Hstars H4)].
Defined.

Lemma paginate_mutates_params_witness :
  let d : dict := {["state" := JStr "open"]} in
  let h : Output.heap := [d] in
  (h !! 0%nat = Some d /\ d <> ∅) /\
  exists p : Z,
    1 <= p /\
    (Output.paginate true demo_api "/repos/octocat/hello-world/issues" (Some 0%nat) h
       [page_reply []]).2 !! 0%nat = Some (page_params d p).
Proof.
  intros d h.
  assert (H1 : h !! 0%nat = Some d) by reflexivity.
  assert (H2 : d <> ∅) by apply map_non_empty_singleton.
  split; [done|].
  destruct (paginate_mutates_params true demo_api "/repos/octocat/hello-world/issues"
              h 0%nat d [page_reply []] H1) as [Hmut _].
  destruct (Hmut H2) as (p & Hp & Hobj & _).
  exists p. split; [exact Hp|exact Hobj].
Defined.

Lemma paginate_empty_params_counterexample :
  let h : Output.heap := [∅] in
  let res := Output.paginate true demo_api "/repos/octocat/hello-world/branches"
               (Some 0%nat) h [page_reply []] in
  outcome res.1 = Return [] /\
  res.2 !! 0%nat = Some ∅ /\
  (res.2 !!! 0%nat) !! "per_page" = None /\
  (res.2 !!! 0%nat) !! "page" = None.
Proof. vm_compute. done. Qed.

(** * Further properties of the clients *)

(** ** The retry loops *)








(** X3.  A 429 whose rate-limit header is present but is not an integer
    literal (an HTTP date in [Retry-After], say) is not retried: [int(...)]
    raises [ValueError], which no handler of the three request methods
    catches.  The method has made that one call, slept for nothing and read
    nothing more. *)
Theorem unreadable_rate_limit_header (flag : bool)
    (c1 : StargazersAdvanced.GitHubAPIClient) (c2 : StargazersAdvanced2.GitHubAPIBase)
    (c3 : Output.GitHubAPI)
    (method endpoint : string) (params data : option dict)
    (headers : option (gmap string string)) (r : response) (rest : list reply) :
  status_code r = 429 ->
  (supported method = true -> 0 <= StargazersAdvanced.max_retries c1 ->
   readable (retry_after r) = false ->
   exists rq,
     StargazersAdvanced._make_request c1 method endpoint params data headers
       (Answer r :: rest)
     = Run (Raise ValueError) [Call rq] rest) /\
  (0 <= StargazersAdvanced2.max_retries c2 ->
   readable (x_ratelimit_reset r) = false ->
   StargazersAdvanced2._request flag c2 method endpoint params data headers
     (Answer r :: rest)
   = Run (Raise ValueError) [Call (base_request c2 method endpoint params data headers)]
       rest) /\
  (readable (x_ratelimit_reset r) = false ->
   Output._request flag c3 method endpoint data params headers (Answer r :: rest)
   = Run (Raise ValueError)
       [Call (output_request c3 method endpoint data params headers)] rest).
Proof.
  intros Hs. split; [|split].
  - intros Hm Hmax Hh. unfold StargazersAdvanced._make_request.
    destruct (supported_session_call method
                (StargazersAdvanced.base_url c1 +:+ "/" +:+ lstrip_slash endpoint)
                params data (default ∅ headers) Hm) as [rq ->].
    exists rq. cbn [StargazersAdvanced._make_request_loop].
    destruct (Z.leb_spec 0 (StargazersAdvanced.max_retries c1)); [|lia].
    rewrite Hs. cbn. by destruct (retry_after r).
  - intros Hmax Hh.
    unfold StargazersAdvanced2._request, base_request.
    cbn [StargazersAdvanced2._request_loop].
    destruct (Z.leb_spec 0 (StargazersAdvanced2.max_retries c2)); [|lia].
    rewrite Hs. cbn. by destruct (x_ratelimit_reset r).
  - intros Hh. rewrite output_request_cons, Hs, Hh. done.
Qed.

Lemma unreadable_rate_limit_header_witness :
  let r := {| status_code := 429; retry_after := OtherText "Wed, 21 Oct 2015 07:28:00 GMT";
              x_ratelimit_reset := OtherText "soon"; body := Empty |} in
  status_code r = 429 /\
  Output._request true demo_api "GET" "/user" None None None [Answer r; Answer demo_ok]
  = Run (Raise ValueError) [Call (output_request demo_api "GET" "/user" None None None)]
      [Answer demo_ok].
Proof.
  intros r.
  assert (H1 : status_code r = 429) by reflexivity.
  split; [exact H1|].
  destruct (unreadable_rate_limit_header true demo_client demo_base demo_api
              "GET" "/user" None None None r [Answer demo_ok] H1) as (_ & _ & Houtput).
  apply Houtput. reflexivity.
Defined.

(** ** URLs *)

Lemma rstrip_slash_snoc (s : string) : rstrip_slash (s +:+ "/") = rstrip_slash s.
Proof.
  induction s as [|c s IH]; [done|].
  change (String c s +:+ "/") with (String c (s +:+ "/")).
  cbn [rstrip_slash]. by rewrite IH.
Qed.

Lemma rstrip_slash_idemp (s : string) : rstrip_slash (rstrip_slash s) = rstrip_slash s.
Proof.
  induction s as [|c s IH]; [done|].
  cbn [rstrip_slash].
  destruct (Ascii.eqb c "/" && String.eqb (rstrip_slash s) "") eqn:E; [done|].
  cbn [rstrip_slash]. by rewrite IH, E.
Qed.

Lemma lstrip_slash_idemp (s : string) : lstrip_slash (lstrip_slash s) = lstrip_slash s.
Proof.
  induction s as [|c s IH]; [done|].
  cbn [lstrip_slash]. destruct (Ascii.eqb c "/") eqn:E; [done|].
  cbn [lstrip_slash]. by rewrite E.
Qed.

(** X4.  Slashes at the junction of base URL and endpoint.  Every
    constructor that stores [base_url.rstrip('/')] makes the same client
    from a base URL with one more trailing slash: [_request] of
    [output.py] and [is_repository_starred] then behave the same on every
    script.  The clients of [stargazers-advanced.py] and
    [stargazers-advanced2.py] strip the endpoint as well: asked for an
    endpoint with one more leading slash they behave exactly as for the
    plain endpoint.  Stripping is idempotent. *)
Theorem junction_slashes (flag : bool) (base token : string) (api_key : option string)
    (max_retries : Z) (retry_delay : Q) (timeout : Z)
    (method endpoint owner repo : string) (params data : option dict)
    (headers : option (gmap string string)) (pending : list reply) :
  StargazersAdvanced._make_request
    (StargazersAdvanced.__init__ (base +:+ "/") api_key max_retries retry_delay)
    method ("/" +:+ endpoint) params data headers pending
  = StargazersAdvanced._make_request
      (StargazersAdvanced.__init__ base api_key max_retries retry_delay)
      method endpoint params data headers pending /\
  StargazersAdvanced2._request flag
    (StargazersAdvanced2.__init__ (base +:+ "/") api_key max_retries retry_delay timeout)
    method ("/" +:+ endpoint) params data headers pending
  = StargazersAdvanced2._request flag
      (StargazersAdvanced2.__init__ base api_key max_retries retry_delay timeout)
      method endpoint params data headers pending /\
  Output._request flag (Output.__init__ token (base +:+ "/")) method endpoint data params
    headers pending
  = Output._request flag (Output.__init__ token base) method endpoint data params
      headers pending /\
  StargazersClass.is_repository_starred (StargazersClass.__init__ (base +:+ "/") api_key)
    owner repo pending
  = StargazersClass.is_repository_starred (StargazersClass.__init__ base api_key)
      owner repo pending /\
  rstrip_slash (rstrip_slash base) = rstrip_slash base /\
  lstrip_slash (lstrip_slash endpoint) = lstrip_slash endpoint.
Proof.
  split_and!.
  - unfold StargazersAdvanced._make_request, StargazersAdvanced.__init__.
    cbn [StargazersAdvanced.base_url StargazersAdvanced.retry_delay].
    by rewrite rstrip_slash_snoc.
  - unfold StargazersAdvanced2._request, StargazersAdvanced2.__init__.
    cbn [StargazersAdvanced2.base_url]. by rewrite rstrip_slash_snoc.
  - unfold Output.__init__. by rewrite rstrip_slash_snoc.
  - unfold StargazersClass.__init__. by rewrite rstrip_slash_snoc.
  - apply rstrip_slash_idemp.
  - apply lstrip_slash_idemp.
Qed.

(** ** Requests of a run *)

Lemma make_request_loop_sent (self : StargazersAdvanced.GitHubAPIClient) (rq : request)
    (pending : list reply) :
  forall (retries : Z) (delay : Q),
    Forall (fun sent => sent = rq)
      (sent_requests (trace (StargazersAdvanced._make_request_loop self (Some rq)
                               retries delay pending))).
Proof.
  induction pending as [|rp pending IH]; intros retries delay;
    cbn [StargazersAdvanced._make_request_loop];
    destruct (retries <=? StargazersAdvanced.max_retries self); try done.
  rewrite trace_emit, sent_requests_app. apply Forall_app. split; [by constructor|].
  assert (Hexc : forall e,
    Forall (fun sent => sent = rq)
      (sent_requests (trace
         (if retries >=? StargazersAdvanced.max_retries self
          then finish (Raise (RequestError e)) pending
          else emit [Sleep (Seconds delay)]
                 (StargazersAdvanced._make_request_loop self (Some rq) (retries + 1)
                    (delay * 2)%Q pending))))).
  { intros e. destruct (retries >=? StargazersAdvanced.max_retries self); [done|].
    rewrite trace_emit, sent_requests_app. apply Forall_app. split; [done|]. apply IH. }
  destruct rp as [r|msg]; [|apply Hexc].
  destruct (status_code r =? 429).
  - destruct (retry_after r); try done;
      rewrite trace_emit, sent_requests_app; apply Forall_app; (split; [done|]); apply IH.
  - destruct (raise_for_status r); [apply Hexc|done].
Qed.

Lemma request_loop_sent (flag : bool) (self : StargazersAdvanced2.GitHubAPIBase)
    (rq : request) (pending : list reply) :
  forall (retries : Z) (last_error : option request_exception),
    Forall (fun sent => sent = rq)
      (sent_requests (trace (StargazersAdvanced2._request_loop flag self rq retries
                               last_error pending))).
Proof.
  induction pending as [|rp pending IH]; intros retries last_error.
  - destruct (Z.leb_spec retries (StargazersAdvanced2.max_retries self)) as [Hle|Hlt].
    + by rewrite request_loop_nil.
    + destruct (request_loop_exit flag self rq retries last_error Hlt) as [e ->]. done.
  - destruct (Z.leb_spec retries (StargazersAdvanced2.max_retries self)) as [Hle|Hlt].
    + destruct (request_loop_step flag self rq retries last_error rp Hle)
        as [(o & _ & ->)|(w & retries' & last_error' & ->)].
      * by repeat constructor.
      * rewrite trace_emit, sent_requests_app. apply Forall_app.
        split; [by repeat constructor|]. apply IH.
    + destruct (request_loop_exit flag self rq retries last_error Hlt) as [e ->]. done.
Qed.

(** X5.  However often a request is retried, every attempt sends the same
    request: same method, URL, query parameters, JSON body and headers.  (So
    a POST that is retried is posted again.)  This holds for
    [_make_request], for [_request] of [stargazers-advanced2.py] and for
    [_request] of [output.py], on every script of replies. *)
Theorem attempts_repeat_request (flag : bool)
    (c1 : StargazersAdvanced.GitHubAPIClient) (c2 : StargazersAdvanced2.GitHubAPIBase)
    (c3 : Output.GitHubAPI)
    (method endpoint : string) (params data : option dict)
    (headers : option (gmap string string)) (pending : list reply) :
  Forall (fun sent => client_request c1 method endpoint params data headers = Some sent)
    (sent_requests (trace (StargazersAdvanced._make_request c1 method endpoint params data
                             headers pending))) /\
  Forall (fun sent => sent = base_request c2 method endpoint params data headers)
    (sent_requests (trace (StargazersAdvanced2._request flag c2 method endpoint params data
                             headers pending))) /\
  Forall (fun sent => sent = output_request c3 method endpoint data params headers)
    (sent_requests (trace (Output._request flag c3 method endpoint data params headers
                             pending))).
Proof.
  split; [|split].
  - unfold StargazersAdvanced._make_request, client_request.
    destruct (StargazersAdvanced.session_call method _ params data (default ∅ headers))
      as [rq|] eqn:Ecall.
    + eapply Forall_impl; [apply make_request_loop_sent|]. by intros sent ->.
    + destruct pending; cbn [StargazersAdvanced._make_request_loop];
        by destruct (0 <=? StargazersAdvanced.max_retries c1).
  - apply request_loop_sent.
  - destruct (output_request_sent flag c3 method endpoint data params headers pending)
      as (n & -> & _).
    apply Forall_forall. intros sent Hin. by apply elem_of_replicate in Hin as [-> _].
Qed.

(** ** Giving up in [stargazers-advanced2.py] *)






(** ** Successful responses without a JSON document *)

Lemma get_success (self : StargazersAdvanced.GitHubAPIClient) (endpoint : string)
    (params : option dict) (headers : option (gmap string string))
    (ok : response) (rest : list reply) :
  0 <= StargazersAdvanced.max_retries self ->
  is_success ok = true ->
  exists rq,
    client_request self "GET" endpoint params None headers = Some rq /\
    StargazersAdvanced.get self endpoint params headers (Answer ok :: rest)
    = emit [Call rq] (StargazersAdvanced.decoded ok rest).
Proof.
  intros Hmax Hok. eexists. split; [reflexivity|].
  unfold StargazersAdvanced.get, mbind, M_bind, StargazersAdvanced._make_request.
  cbn [StargazersAdvanced.session_call upper upper_char String.eqb Ascii.eqb
       StargazersAdvanced._make_request_loop].
  destruct (success_passes ok Hok) as [E429 Eraise].
  destruct (Z.leb_spec 0 (StargazersAdvanced.max_retries self)); [|lia].
  vm_compute (String.eqb _ _).
  cbn iota. rewrite E429, Eraise. done.
Qed.

Lemma request_first_success (flag : bool) (self : StargazersAdvanced2.GitHubAPIBase)
    (method endpoint : string) (params data : option dict)
    (headers : option (gmap string string)) (ok : response) (rest : list reply) :
  0 <= StargazersAdvanced2.max_retries self ->
  is_success ok = true ->
  StargazersAdvanced2._request flag self method endpoint params data headers
    (Answer ok :: rest)
  = emit [Call (base_request self method endpoint params data headers)]
      (if negb (has_content ok) then finish (Return JNull) rest
       else match json_of ok with
            | Some j => finish (Return j) rest
            | None =>
              if flag
              then (if 1 <=? StargazersAdvanced2.max_retries self
                    then emit [Sleep (Seconds (StargazersAdvanced2.retry_delay self
                                               * Qpower 2 (1 - 1))%Q)]
                    else fun r => r)
                     (StargazersAdvanced2._request_loop flag self
                        (base_request self method endpoint params data headers)
                        1 (Some JSONDecodeError) rest)
              else finish (Raise (RequestError JSONDecodeError)) rest
            end).
Proof.
  intros Hmax Hok.
  unfold StargazersAdvanced2._request, base_request.
  cbn [StargazersAdvanced2._request_loop].
  destruct (success_passes ok Hok) as [E429 Eraise].
  destruct (Z.leb_spec 0 (StargazersAdvanced2.max_retries self)); [|lia].
  rewrite E429, Eraise.
  destruct (negb (has_content ok)); [done|].
  destruct (json_of ok); [done|].
  destruct flag; [|done].
  change (0 + 1) with 1.
  by destruct (1 <=? StargazersAdvanced2.max_retries self).
Qed.

(** X7.  A successful response without content.  [get] of
    [stargazers-advanced.py] and [_request] of [stargazers-advanced2.py]
    look at the content: an empty body gives [None], whatever the 2xx
    status.  [_request] of [output.py] looks at the status: a 204 gives
    [None] whatever the body, and any other 2xx status with an empty body
    makes it raise after that one call, because [response.json()] fails on
    the empty content. *)
Theorem success_without_content (flag : bool)
    (c1 : StargazersAdvanced.GitHubAPIClient) (c2 : StargazersAdvanced2.GitHubAPIBase)
    (c3 : Output.GitHubAPI)
    (method endpoint : string) (params data : option dict)
    (headers : option (gmap string string)) (ok : response) (rest : list reply) :
  is_success ok = true ->
  (body ok = Empty -> 0 <= StargazersAdvanced.max_retries c1 ->
   outcome (StargazersAdvanced.get c1 endpoint params headers (Answer ok :: rest))
   = Return JNull) /\
  (body ok = Empty -> 0 <= StargazersAdvanced2.max_retries c2 ->
   outcome (StargazersAdvanced2._request flag c2 method endpoint params data headers
              (Answer ok :: rest))
   = Return JNull) /\
  (status_code ok = 204 ->
   outcome (Output._request flag c3 method endpoint data params headers
              (Answer ok :: rest))
   = Return JNull) /\
  (body ok = Empty -> status_code ok <> 204 ->
   Output._request flag c3 method endpoint data params headers (Answer ok :: rest)
   = Run (Raise (if flag then Exception (ApiError None (StrOf (Some JSONDecodeError)))
                 else RequestError JSONDecodeError))
       [Call (output_request c3 method endpoint data params headers)] rest).
Proof.
  intros Hok. destruct (success_passes ok Hok) as [E429 Eraise].
  split; [|split; [|split]].
  - intros Hb Hmax.
    destruct (get_success c1 endpoint params headers ok rest Hmax Hok) as (rq & _ & ->).
    unfold StargazersAdvanced.decoded, has_content. by rewrite Hb.
  - intros Hb Hmax. rewrite request_first_success by done.
    unfold has_content. by rewrite Hb.
  - intros Hs. rewrite output_request_cons, E429, Eraise, Hs. done.
  - intros Hb Hs. rewrite output_request_cons, E429, Eraise.
    destruct (Z.eqb_spec (status_code ok) 204); [done|].
    unfold json_of. rewrite Hb. by destruct flag.
Qed.

Lemma success_without_content_witness :
  let created := plain 201 Empty in
  is_success created = true /\
  outcome (StargazersAdvanced.get demo_client "user" None None [Answer created])
  = Return JNull /\
  outcome (Output._request true demo_api "POST" "/user/repos" None None None
             [Answer created])
  = Raise (Exception (ApiError None (StrOf (Some JSONDecodeError)))).
Proof.
  intros created.
  assert (H1 : is_success created = true) by reflexivity.
  split; [exact H1|].
  destruct (success_without_content true demo_client demo_base demo_api
              "POST" "user" None None None created [] H1) as (Hget & _ & _ & _).
  destruct (success_without_content true demo_client demo_base demo_api
              "POST" "/user/repos" None None None created [] H1) as (_ & _ & _ & Hout).
  split.
  - apply Hget; [reflexivity|vm_compute; discriminate].
  - rewrite Hout; [reflexivity|reflexivity|vm_compute; discriminate].
Defined.




(** ** The star history of [stargazers-advanced2.py] *)

Lemma star_history_pages_until (flag : bool)
    (self : StargazersAdvanced2.GitHubStargazersAPI) (owner repo : string)
    (max_pages q : Z) (pages : list (list json)) (stop rest : list reply)
    (tr : list event) :
  0 <= StargazersAdvanced2.max_retries (StargazersAdvanced2.api self) ->
  Forall (fun p => (100 <= length p)%nat) pages ->
  q <= max_pages + 1 ->
  (forall all_stargazers,
     StargazersAdvanced2.star_history_page flag self
       ("repos/" +:+ owner +:+ "/" +:+ repo +:+ "/stargazers") max_pages q all_stargazers
       (stop ++ rest)
     = Run (Return (StargazersAdvanced2.Break all_stargazers)) tr rest) ->
  forall (fuel : nat) (page : Z) (all_stargazers : list json),
    (length pages < fuel)%nat ->
    page + Z.of_nat (length pages) = q ->
    StargazersAdvanced2.star_history_pages flag fuel self
      ("repos/" +:+ owner +:+ "/" +:+ repo +:+ "/stargazers") max_pages page all_stargazers
      ((page_reply <$> pages) ++ stop ++ rest)
    = Run (Return (all_stargazers ++ concat pages))
        (((fun i => star_page_call self owner repo (page + Z.of_nat i))
          <$> seq 0 (length pages)) ++ tr)
        rest.
Proof.
  intros Hmax Hfull Hq Hstop.
  induction Hfull as [|items pages Hitems _ IH]; intros fuel page all_stargazers Hfuel Hpage;
    (destruct fuel as [|fuel]; [simpl in Hfuel; lia|]);
    cbn [fmap list_fmap app StargazersAdvanced2.star_history_pages];
    unfold mbind at 1, M_bind at 1.
  - cbn [length] in Hpage. change (Z.of_nat 0) with 0 in Hpage. rewrite Z.add_0_r in Hpage.
    subst q. rewrite Hstop. cbn [outcome trace unread length seq fmap list_fmap concat app].
    unfold emit, mret, M_ret, finish. cbn [outcome trace unread].
    by rewrite !app_nil_r.
  - rewrite star_history_page_on_page by done. cbn [outcome trace unread].
    rewrite length_cons, Nat2Z.inj_succ in Hpage.
    replace (negb (truthy (JList items)) || (page >? max_pages)) with false.
    + destruct (Z.ltb_spec (Z.of_nat (length items)) 100); [lia|].
      rewrite IH by (simpl in Hfuel; lia).
      unfold emit. cbn [outcome trace unread concat length].
      f_equal; [by rewrite <- !app_assoc|].
      replace (seq 0 (S (length pages)))
        with (0%nat :: (S <$> seq 0 (length pages))) by (by rewrite fmap_S_seq).
      rewrite fmap_cons, <- list_fmap_compose. cbn [app].
      change (Z.of_nat 0) with 0. rewrite Z.add_0_r.
      f_equal. f_equal. apply list_fmap_ext. intros _ i _. cbn [compose]. f_equal. lia.
    + symmetry. destruct items; [simpl in Hitems; lia|].
      cbn. rewrite Z.gtb_ltb. apply Z.ltb_ge. lia.
Qed.

Lemma get_star_history_until (flag : bool)
    (self : StargazersAdvanced2.GitHubStargazersAPI) (owner repo : string)
    (max_pages : Z) (pages : list (list json)) (stop rest : list reply)
    (tr : list event) :
  0 <= StargazersAdvanced2.max_retries (StargazersAdvanced2.api self) ->
  Forall (fun p => (100 <= length p)%nat) pages ->
  Z.of_nat (length pages) <= max_pages ->
  (forall all_stargazers,
     StargazersAdvanced2.star_history_page flag self
       ("repos/" +:+ owner +:+ "/" +:+ repo +:+ "/stargazers") max_pages
       (1 + Z.of_nat (length pages)) all_stargazers (stop ++ rest)
     = Run (Return (StargazersAdvanced2.Break all_stargazers)) tr rest) ->
  Forall star_record (concat pages) ->
  StargazersAdvanced2.get_star_history flag self owner repo max_pages
    ((page_reply <$> pages) ++ stop ++ rest)
  = Run (Return (star_entry <$> concat pages))
      (((fun i => star_page_call self owner repo (1 + Z.of_nat i))
        <$> seq 0 (length pages)) ++ tr)
      rest.
Proof.
  intros Hmax Hfull Hpages Hstop Hrec.
  unfold StargazersAdvanced2.get_star_history, mbind, M_bind.
  rewrite (star_history_pages_until flag self owner repo max_pages
             (1 + Z.of_nat (length pages)) pages stop rest tr)
    by (done || lia || (rewrite length_app, length_fmap; simpl; lia)).
  cbn [outcome trace unread app]. rewrite history_of_records by done.
  unfold emit. cbn [finish outcome trace unread]. by rewrite app_nil_r.
Qed.



Lemma calls_star_pages (self : StargazersAdvanced2.GitHubStargazersAPI)
    (owner repo : string) (f : nat -> Z) (l : list nat) :
  calls ((fun i => star_page_call self owner repo (f i)) <$> l) = length l.
Proof.
  induction l as [|i l IH]; [done|].
  rewrite fmap_cons. unfold star_page_call at 1. rewrite calls_call. by rewrite IH.
Qed.



(** X10.  [get_star_history] of [stargazers-advanced2.py] tests
    [page > max_pages] only after it has fetched the page: when the first
    [max_pages] pages are full, one more page is requested, and whatever it
    holds is dropped.  The result is the entries of the first [max_pages]
    pages, after [max_pages + 1] calls. *)
Theorem star_history_page_cap (flag : bool)
    (self : StargazersAdvanced2.GitHubStargazersAPI) (owner repo : string)
    (max_pages : Z) (pages : list (list json)) (extra : list json) (rest : list reply) :
  0 <= StargazersAdvanced2.max_retries (StargazersAdvanced2.api self) ->
  Forall (fun p => (100 <= length p)%nat) pages ->
  Z.of_nat (length pages) = max_pages ->
  Forall star_record (concat pages) ->
  let run := StargazersAdvanced2.get_star_history flag self owner repo max_pages
               ((page_reply <$> pages) ++ page_reply extra :: rest) in
  outcome run = Return (star_entry <$> concat pages) /\
  calls (trace run) = S (length pages) /\
  Z.of_nat (calls (trace run)) = max_pages + 1 /\
  unread run = rest.
Proof.
  intros Hmax Hfull Hpages Hrec run. subst run.
  change (page_reply extra :: rest) with ([page_reply extra] ++ rest).
  rewrite (get_star_history_until flag self owner repo max_pages pages [page_reply extra] rest
             [star_page_call self owner repo (1 + Z.of_nat (length pages))]);
    try (done || lia).
  - cbn [outcome trace unread].
    assert (Hcalls : calls (((fun i => star_page_call self owner repo (1 + Z.of_nat i))
                             <$> seq 0 (length pages))
                            ++ [star_page_call self owner repo (1 + Z.of_nat (length pages))])
                     = S (length pages)).
    { rewrite calls_app, calls_star_pages, length_seq.
      unfold star_page_call. rewrite calls_call, calls_nil. lia. }
    rewrite Hcalls. split; [done|]. split; [done|]. split; [lia|done].
  - intros all_stargazers. cbn [app].
    rewrite star_history_page_on_page by done.
    replace (1 + Z.of_nat (length pages) >? max_pages) with true; [by rewrite orb_true_r|].
    symmetry. rewrite Z.gtb_ltb. apply Z.ltb_lt. lia.
Qed.

Lemma star_history_page_cap_witness :
  (0 <= StargazersAdvanced2.max_retries (StargazersAdvanced2.api demo_stargazers) /\
   Forall (fun p => (100 <= length p)%nat) [replicate 100 demo_star] /\
   Z.of_nat (length [replicate 100 demo_star]) = 1) /\
  let run := StargazersAdvanced2.get_star_history true demo_stargazers "octocat"
               "hello-world" 1
               [page_reply (replicate 100 demo_star); page_reply [demo_star; demo_star]] in
  calls (trace run) = 2%nat /\
  exists entries, outcome run = Return entries /\ length entries = 100%nat.
Proof.
  assert (H1 : 0 <= StargazersAdvanced2.max_retries (StargazersAdvanced2.api demo_stargazers))
    by (vm_compute; discriminate).
  assert (H2 : Forall (fun p => (100 <= length p)%nat) [replicate 100 demo_star])
    by (constructor; [vm_compute; lia|constructor]).
  assert (H3 : Z.of_nat (length [replicate 100 demo_star]) = 1) by reflexivity.
  assert (H6 : Forall star_record (concat [replicate 100 demo_star])).
  { cbn [concat]. rewrite app_nil_r. apply Forall_forall. intros item Hitem.
    apply elem_of_replicate in Hitem as [-> _].
    exists (<["user" := JDict {["login" := JStr "octocat"]}]>
              {["starred_at" := JStr "2024-01-01T00:00:00Z"]}),
           {["login" := JStr "octocat"]}, (JStr "2024-01-01T00:00:00Z").
    split; [reflexivity|]. split; [reflexivity|].
    split; [apply map_non_empty_singleton|]. split; reflexivity. }
  split; [done|].
  destruct (star_history_page_cap true demo_stargazers "octocat" "hello-world" 1
              [replicate 100 demo_star] [demo_star; demo_star] [] H1 H2 H3 H6)
    as (Hout & Hcalls & _).
  split; [exact Hcalls|].
  eexists. split; [exact Hout|]. reflexivity.
Defined.





(** ** Failures in [output.py] *)

Lemma output_request_single (flag : bool) (self : Output.GitHubAPI)
    (method endpoint : string) (data params : option dict)
    (headers : option (gmap string string)) (rp : reply) (w : list reply) :
  not_limited rp = true ->
  Output._request flag self method endpoint data params headers (rp :: w)
  = Run (output_result flag rp)
      [Call (output_request self method endpoint data params headers)] w.
Proof.
  intros Hrp. rewrite output_request_cons. unfold output_result.
  destruct rp as [r|msg]; [|done].
  cbn [not_limited] in Hrp. apply negb_true_iff in Hrp. rewrite Hrp.
  destruct (raise_for_status r); [done|].
  destruct (status_code r =? 204); [done|].
  destruct (json_of r); [done|]. by destruct flag.
Qed.

Lemma error_status_result (flag : bool) (r : response) :
  error_status r = true ->
  not_limited (Answer r) = true /\
  output_result flag (Answer r) = Raise (Output.api_error (HTTPError r)).
Proof.
  unfold error_status. intros [[H1 H2]%andb_prop H3]%andb_prop.
  split; [done|]. unfold output_result, raise_for_status. by rewrite H1, H2.
Qed.



(** ** Sweeps of [paginate] that end on something else than a short page *)

Lemma paginate_loop_until (flag : bool) (self : Output.GitHubAPI) (endpoint : string)
    (obj : nat) (per_page : json) (pages : list (list json)) (stop : reply)
    (w : list reply) :
  Forall (full_page per_page) pages ->
  not_limited stop = true ->
  ends_sweep (output_result flag stop) = true ->
  forall (fuel : nat) (page : Z) (all_items : list json) (h : Output.heap),
    (obj < length h)%nat ->
    (h !!! obj) !! "per_page" = Some per_page ->
    (length pages < fuel)%nat ->
    let res := Output.paginate_loop flag fuel self endpoint obj page all_items h
                 ((page_reply <$> pages) ++ stop :: w) in
    outcome res.1 = sweep_result (output_result flag stop) (all_items ++ concat pages) /\
    calls (trace res.1) = S (length pages) /\
    unread res.1 = w.
Proof.
  intros Hfull Hstop Hends.
  induction Hfull as [|items pages [Hne Hge] _ IH];
    intros fuel page all_items h Hobj Hpp Hfuel res; subst res.
  - destruct fuel as [|fuel]; [simpl in Hfuel; lia|].
    cbn [fmap list_fmap app Output.paginate_loop concat length].
    rewrite output_request_single by done. cbn [outcome trace unread].
    rewrite app_nil_r.
    destruct (output_result flag stop) as [response|e| |]; try done.
    destruct response as [| | | |[|x l]|]; try done.
  - destruct fuel as [|fuel]; [simpl in Hfuel; lia|].
    cbn [fmap list_fmap app Output.paginate_loop].
    rewrite output_request_page. cbn [outcome trace unread].
    rewrite store_lookup by done. rewrite lookup_insert_ne by done. rewrite Hpp, Hge.
    destruct items as [|x items]; [done|].
    replace (negb (truthy (JList (x :: items))) || (len (x :: items) =? 0)) with false
      by (by cbn).
    specialize (IH fuel (page + 1) (all_items ++ x :: items)
                  (Output.store h obj "page" (JNum page))).
    destruct (Output.paginate_loop flag fuel self endpoint obj (page + 1)
                (all_items ++ x :: items) (Output.store h obj "page" (JNum page))
                ((page_reply <$> pages) ++ stop :: w)) as [r' h'] eqn:Eloop.
    cbn [fst] in IH |- *.
    destruct IH as (Hout & Hcalls & Hunread).
    + by rewrite store_length.
    + rewrite store_lookup by done. by rewrite lookup_insert_ne.
    + simpl in Hfuel. lia.
    + rewrite outcome_emit, unread_emit, trace_emit, Hout, Hunread.
      cbn [concat length]. rewrite <- !app_assoc. split; [done|]. split; [|done].
      cbn [app]. by rewrite calls_call, Hcalls.
Qed.

Lemma paginate_until (flag : bool) (self : Output.GitHubAPI) (endpoint : string)
    (params : option nat) (h : Output.heap)
    (pages : list (list json)) (stop : reply) (rest : list reply) :
  Forall (full_page (per_page_of (caller_dict params h))) pages ->
  not_limited stop = true ->
  ends_sweep (output_result flag stop) = true ->
  let run := (Output.paginate flag self endpoint params h
                ((page_reply <$> pages) ++ stop :: rest)).1 in
  outcome run = sweep_result (output_result flag stop) (concat pages) /\
  calls (trace run) = S (length pages) /\
  unread run = rest.
Proof.
  intros Hfull Hstop Hends run. subst run.
  destruct (paginate_entry flag self endpoint params h
              ((page_reply <$> pages) ++ stop :: rest))
    as (obj & h1 & Hobj & Hd & -> & _).
  apply (paginate_loop_until flag self endpoint obj
           (per_page_of (caller_dict params h)) pages stop rest); try done.
  - by rewrite store_length.
  - rewrite store_lookup by done. by rewrite lookup_insert_eq.
  - rewrite length_app, length_fmap. simpl. lia.
Qed.

(** X13.  [paginate] of [output.py] after any number of full pages:
    - a response with an error status makes it raise the [Exception] of
      [_request]; the items of the pages fetched before are not returned;
    - a 200 whose body is a JSON object, not a list, ends the sweep without
      any error: the items of the full pages are returned and the object is
      dropped.
    Either way it has made one call per page and one for the last response,
    and reads nothing more. *)
Theorem paginate_other_ends (flag : bool) (self : Output.GitHubAPI) (endpoint : string)
    (params : option nat) (h : Output.heap)
    (pages : list (list json)) (r : response) (rest : list reply) :
  Forall (full_page (per_page_of (caller_dict params h))) pages ->
  let run := (Output.paginate flag self endpoint params h
                ((page_reply <$> pages) ++ Answer r :: rest)).1 in
  (error_status r = true ->
   outcome run = Raise (Output.api_error (HTTPError r)) /\
   calls (trace run) = S (length pages) /\ unread run = rest) /\
  (forall d : dict, status_code r = 200 -> body r = JsonText (JDict d) ->
   outcome run = Return (concat pages) /\
   calls (trace run) = S (length pages) /\ unread run = rest).
Proof.
  intros Hfull run. subst run. split.
  - intros Hr. destruct (error_status_result flag r Hr) as [Hnot Hres].
    destruct (paginate_until flag self endpoint params h pages (Answer r) rest Hfull Hnot)
      as (Hout & Hcalls & Hunread); [by rewrite Hres|].
    rewrite Hres in Hout. done.
  - intros d Hs Hb.
    assert (Hres : output_result flag (Answer r) = Return (JDict d)).
    { unfold output_result, raise_for_status, json_of. by rewrite Hs, Hb. }
    assert (Hnot : not_limited (Answer r) = true) by (cbn; by rewrite Hs).
    destruct (paginate_until flag self endpoint params h pages (Answer r) rest Hfull Hnot)
      as (Hout & Hcalls & Hunread); [by rewrite Hres|].
    rewrite Hres in Hout. done.
Qed.

Lemma paginate_other_ends_witness :
  let h : Output.heap := [] in
  let page := replicate 100 JNull in
  let workflows := plain 200 (JsonText (JDict {["total_count" := JNum 0]})) in
  Forall (full_page (per_page_of (caller_dict None h))) [page] /\
  outcome (Output.paginate true demo_api "/user/orgs" None h
             [page_reply page; Answer not_found]).1
  = Raise (Exception (ApiError (Some 404) (Message (JStr "Not Found")))) /\
  outcome (Output.paginate true demo_api "/user/orgs" None h
             [page_reply page; Answer workflows]).1
  = Return page.
Proof.
  intros h page workflows.
  assert (H1 : Forall (full_page (per_page_of (caller_dict None h))) [page])
    by (repeat constructor; done).
  split; [exact H1|].
  destruct (paginate_other_ends true demo_api "/user/orgs" None h [page] not_found [] H1)
    as [Herror _].
  destruct (paginate_other_ends true demo_api "/user/orgs" None h [page] workflows [] H1)
    as [_ Hobject].
  split.
  - destruct Herror as (Hout & _); [reflexivity|]. exact Hout.
  - destruct (Hobject {["total_count" := JNum 0]} eq_refl eq_refl) as (Hout & _).
    refine (eq_trans Hout _). cbn [concat]. by rewrite app_nil_r.
Defined.

(** ** The list wrappers of [output.py] *)

Lemma sent_requests_fmap_call {A} (f : A -> request) (l : list A) :
  sent_requests ((fun i => Call (f i)) <$> l) = f <$> l.
Proof.
  induction l as [|x l IH]; [done|]. rewrite !fmap_cons, sent_requests_call. by rewrite IH.
Qed.

Lemma full_page_100 (items : list json) :
  (100 <= length items)%nat -> full_page (JNum 100) items.
Proof.
  intros Hlen. split.
  - intros ->. simpl in Hlen. lia.
  - cbn [Output.int_lt]. f_equal. apply Z.ltb_ge. unfold len. lia.
Qed.

Lemma short_page_100 (items : list json) :
  (length items < 100)%nat -> short_page (JNum 100) items.
Proof.
  intros Hlen. right. cbn [Output.int_lt]. f_equal. apply Z.ltb_lt. unfold len. lia.
Qed.

Lemma paginate_with_sweep (flag : bool) (self : Output.GitHubAPI) (endpoint : string)
    (d : dict) (h : Output.heap)
    (pages : list (list json)) (last : list json) (rest : list reply) :
  d <> ∅ -> d !! "per_page" = None ->
  Forall (fun p => (100 <= length p)%nat) pages ->
  (length last < 100)%nat ->
  swept (Output.paginate_with flag self endpoint d h
           ((page_reply <$> pages) ++ page_reply last :: rest))
    self endpoint d pages last rest h.
Proof.
  intros Hne Hpp Hfull Hshort. unfold Output.paginate_with, swept.
  assert (Hd : (h ++ [d]) !!! length h = d).
  { rewrite list_lookup_total_alt, lookup_app_r, Nat.sub_diag by lia. done. }
  assert (Hper : per_page_of (caller_dict (Some (length h)) (h ++ [d])) = JNum 100).
  { cbn [caller_dict]. rewrite Hd. unfold per_page_of. by rewrite Hpp. }
  destruct (paginate_sweep flag self endpoint (Some (length h)) (h ++ [d]) pages last rest)
    as (obj & h1 & Hobj & Hh1 & Hsame & ->).
  - rewrite Hper. eapply Forall_impl; [exact Hfull|]. apply full_page_100.
  - rewrite Hper. by apply short_page_100.
  - destruct (Hsame (length h) eq_refl) as [-> ->]; [by rewrite Hd|].
    cbn [fst snd outcome trace unread caller_dict]. rewrite Hd.
    split; [done|]. split; [|split; [done|]].
    + unfold sweep_calls. apply sent_requests_fmap_call.
    + rewrite take_insert_ge by lia. by rewrite take_app_length.
Qed.

Lemma paginate_none_sweep (flag : bool) (self : Output.GitHubAPI) (endpoint : string)
    (h : Output.heap) (pages : list (list json)) (last : list json) (rest : list reply) :
  Forall (fun p => (100 <= length p)%nat) pages ->
  (length last < 100)%nat ->
  swept (Output.paginate flag self endpoint None h
           ((page_reply <$> pages) ++ page_reply last :: rest))
    self endpoint ∅ pages last rest h.
Proof.
  intros Hfull Hshort. unfold swept.
  assert (Hfresh : (h ++ [∅ : dict]) !!! length h = (∅ : dict)).
  { rewrite list_lookup_total_alt, lookup_app_r, Nat.sub_diag by lia. done. }
  assert (Hlen : (length h < length (h ++ [∅ : dict]))%nat)
    by (rewrite length_app; simpl; lia).
  change (Output.paginate flag self endpoint None h
            ((page_reply <$> pages) ++ page_reply last :: rest))
    with (Output.paginate_loop flag
            (S (length ((page_reply <$> pages) ++ page_reply last :: rest)))
            self endpoint (length h) 1 []
            (Output.store (h ++ [∅]) (length h) "per_page"
               (default (JNum 100) (((h ++ [∅]) !!! length h) !! "per_page")))
            ((page_reply <$> pages) ++ page_reply last :: rest)).
  rewrite Hfresh. change (default (JNum 100) ((∅ : dict) !! "per_page")) with (JNum 100).
  rewrite (paginate_loop_sweep flag self endpoint (length h) (JNum 100) pages last rest).
  - cbn [fst snd outcome trace unread app].
    rewrite store_lookup, Hfresh by done.
    split; [done|]. split; [|split; [done|]].
    + unfold sweep_calls. apply sent_requests_fmap_call.
    + unfold Output.store. rewrite !take_insert_ge by lia. by rewrite take_app_length.
  - by rewrite store_length.
  - rewrite store_lookup, Hfresh by done. by rewrite lookup_insert_eq.
  - eapply Forall_impl; [exact Hfull|]. apply full_page_100.
  - by apply short_page_100.
  - rewrite length_app, length_fmap. simpl. lia.
Qed.

Lemma paginate_with_empty (flag : bool) (self : Output.GitHubAPI) (endpoint : string)
    (h : Output.heap) (pending : list reply) :
  Output.paginate_with flag self endpoint ∅ h pending
  = Output.paginate flag self endpoint None (h ++ [∅]) pending.
Proof.
  unfold Output.paginate_with, Output.paginate.
  assert (Hfresh : (h ++ [∅ : dict]) !!! length h = (∅ : dict)).
  { rewrite list_lookup_total_alt, lookup_app_r, Nat.sub_diag by lia. done. }
  by rewrite Hfresh.
Qed.

Lemma swept_longer (res : run (list json) * Output.heap) (self : Output.GitHubAPI)
    (endpoint : string) (d : dict) (pages : list (list json)) (last : list json)
    (rest : list reply) (h more : Output.heap) :
  swept res self endpoint d pages last rest (h ++ more) ->
  swept res self endpoint d pages last rest h.
Proof.
  unfold swept. intros (H1 & H2 & H3 & H4). split_and!; try done.
  apply (f_equal (take (length h))) in H4.
  rewrite take_take, take_app_length in H4.
  rewrite length_app in H4. by replace (length h `min` (length h + length more))%nat
    with (length h) in H4 by lia.
Qed.

(** X14.  The list wrappers of [output.py] that pass parameters
    ([list_repositories], [list_issues], [list_pull_requests],
    [list_organization_members], [list_team_members]) sweep all pages: when
    the server sends full pages of 100 items and then a shorter one, they
    return all items in order, every request carries the wrapper's
    parameters together with [per_page = 100] and the page number 1, 2, ...,
    and no object the caller holds is changed (the dict [paginate] writes to
    is the wrapper's own). *)
Theorem list_wrappers_sweep (flag : bool) (self : Output.GitHubAPI)
    (owner repo org team_slug type state sort direction role : string)
    (h : Output.heap) (pages : list (list json)) (last : list json) (rest : list reply) :
  Forall (fun p => (100 <= length p)%nat) pages ->
  (length last < 100)%nat ->
  let pending := (page_reply <$> pages) ++ page_reply last :: rest in
  swept (Output.list_repositories flag self org type sort direction h pending) self
    ("/orgs/" +:+ org +:+ "/repos")
    (<["type" := JStr type]> (<["sort" := JStr sort]> {["direction" := JStr direction]}))
    pages last rest h /\
  swept (Output.list_issues flag self owner repo state sort direction h pending) self
    ("/repos/" +:+ owner +:+ "/" +:+ repo +:+ "/issues")
    (<["state" := JStr state]> (<["sort" := JStr sort]> {["direction" := JStr direction]}))
    pages last rest h /\
  swept (Output.list_pull_requests flag self owner repo state sort direction h pending) self
    ("/repos/" +:+ owner +:+ "/" +:+ repo +:+ "/pulls")
    (<["state" := JStr state]> (<["sort" := JStr sort]> {["direction" := JStr direction]}))
    pages last rest h /\
  swept (Output.list_organization_members flag self org role h pending) self
    ("/orgs/" +:+ org +:+ "/members") {["role" := JStr role]} pages last rest h /\
  swept (Output.list_team_members flag self org team_slug role h pending) self
    ("/orgs/" +:+ org +:+ "/teams/" +:+ team_slug +:+ "/members") {["role" := JStr role]}
    pages last rest h.
Proof.
  intros Hfull Hshort pending. subst pending.
  split_and!; apply paginate_with_sweep; try done;
    first [apply insert_non_empty | apply map_non_empty_singleton].
Qed.

Lemma list_wrappers_sweep_witness :
  let page := replicate 100 JNull in
  (Forall (fun p => (100 <= length p)%nat) [page] /\ (length [JNum 1] < 100)%nat) /\
  outcome (Output.list_issues true demo_api "octocat" "hello-world" "open" "created" "desc"
             [] [page_reply page; page_reply [JNum 1]]).1
  = Return (page ++ [JNum 1]).
Proof.
  intros page.
  assert (H1 : Forall (fun p => (100 <= length p)%nat) [page])
    by (constructor; [vm_compute; lia|constructor]).
  assert (H2 : (length [JNum 1] < 100)%nat) by (vm_compute; lia).
  split; [done|].
  destruct (list_wrappers_sweep true demo_api "octocat" "hello-world" "github" "core"
              "all" "open" "created" "desc" "all" [] [page] [JNum 1] [] H1 H2)
    as (_ & (Hout & _) & _).
  refine (eq_trans Hout _). cbn [concat]. by rewrite app_nil_r.
Defined.

(** X15.  The list wrappers of [output.py] without parameters.
    [list_branches] sends the filter [protected] as the lower-case string
    ["true"] or ["false"], and not at all when the argument is [None];
    [list_organizations] and [list_teams] pass no parameters.  Without
    parameters the requests of the sweep carry [per_page = 100] and the page
    number only.  The sweep returns all items of the full pages and the
    shorter last one, in order, and changes no object of the caller. *)
Theorem list_branches_sweep (flag : bool) (self : Output.GitHubAPI)
    (owner repo org : string) (b : bool)
    (h : Output.heap) (pages : list (list json)) (last : list json) (rest : list reply) :
  Forall (fun p => (100 <= length p)%nat) pages ->
  (length last < 100)%nat ->
  let pending := (page_reply <$> pages) ++ page_reply last :: rest in
  swept (Output.list_branches flag self owner repo (Some b) h pending) self
    ("/repos/" +:+ owner +:+ "/" +:+ repo +:+ "/branches")
    {["protected" := JStr (if b then "true" else "false")]} pages last rest h /\
  swept (Output.list_branches flag self owner repo None h pending) self
    ("/repos/" +:+ owner +:+ "/" +:+ repo +:+ "/branches") ∅ pages last rest h /\
  swept (Output.list_organizations flag self h pending) self "/user/orgs" ∅
    pages last rest h /\
  swept (Output.list_teams flag self org h pending) self
    ("/orgs/" +:+ org +:+ "/teams") ∅ pages last rest h /\
  page_params ∅ 1 = <["page" := JNum 1]> {["per_page" := JNum 100]}.
Proof.
  intros Hfull Hshort pending. subst pending.
  split_and!.
  - apply paginate_with_sweep; first [done | apply map_non_empty_singleton].
  - unfold Output.list_branches. rewrite paginate_with_empty.
    apply (swept_longer _ _ _ _ _ _ _ h [∅]). by apply paginate_none_sweep.
  - by apply paginate_none_sweep.
  - by apply paginate_none_sweep.
  - done.
Qed.

Lemma list_branches_sweep_witness :
  (Forall (fun p : list json => (100 <= length p)%nat) [] /\ (length [JNum 1] < 100)%nat) /\
  sent_requests (trace (Output.list_branches true demo_api "octocat" "hello-world"
                          (Some true) [] [page_reply [JNum 1]]).1)
  = [output_request demo_api "GET" "/repos/octocat/hello-world/branches" None
       (Some (<["page" := JNum 1]> (<["per_page" := JNum 100]>
              {["protected" := JStr "true"]}))) None].
Proof.
  assert (H1 : Forall (fun p : list json => (100 <= length p)%nat) []) by constructor.
  assert (H2 : (length [JNum 1] < 100)%nat) by (vm_compute; lia).
  split; [done|].
  destruct (list_branches_sweep true demo_api "octocat" "hello-world" "github" true
              [] [] [JNum 1] [] H1 H2) as ((_ & Hsent & _) & _).
  exact Hsent.
Defined.

(** ** Optional fields of request bodies *)

Lemma blank_falsy (arg : option string) : blank arg -> truthy (str_or_none arg) = false.
Proof. by intros [-> | ->]. Qed.

Lemma filled_truthy (s : string) : s <> "" -> truthy (str_or_none (Some s)) = true.
Proof.
  intros Hs. cbn. apply negb_true_iff. by apply String.eqb_neq.
Qed.



(** ** Wrappers around one plain request *)

Lemma http_error_raises (r : response) :
  raise_for_status r = if http_error r then Some (HTTPError r) else None.
Proof. done. Qed.

(** X17.  [check_if_starred] of [Chapter_4/stargazers.py] makes exactly one
    call and answers by status: [True] for 204, [False] for 404, the
    [HTTPError] of [raise_for_status] for every other status from 400 to
    599, and [None], neither [True] nor [False], for every other status
    (200, 301, ...), because the function ends after [raise_for_status()]
    without a [return]. *)
Theorem check_if_starred_by_status (token owner repo : string) (r : response)
    (rest : list reply) :
  let run := Chapter4Stargazers.check_if_starred token owner repo (Answer r :: rest) in
  calls (trace run) = 1%nat /\
  unread run = rest /\
  (status_code r = 204 -> outcome run = Return (JBool true)) /\
  (status_code r = 404 -> outcome run = Return (JBool false)) /\
  (status_code r <> 404 -> http_error r = true ->
   outcome run = Raise (RequestError (HTTPError r))) /\
  (status_code r <> 204 -> http_error r = false -> outcome run = Return JNull) /\
  (outcome run = Return (JBool true) -> status_code r = 204).
Proof.
  intros run. subst run.
  unfold Chapter4Stargazers.check_if_starred. rewrite bind_run.
  cbn [exchange outcome trace unread].
  destruct (Z.eqb_spec (status_code r) 204) as [E204|E204].
  { split_and!; intros; try done; try lia.
    match goal with H : http_error r = true |- _ =>
      unfold http_error in H; rewrite E204 in H; done end. }
  destruct (Z.eqb_spec (status_code r) 404) as [E404|E404].
  { split_and!; intros; try done; try lia.
    match goal with H : http_error r = false |- _ =>
      unfold http_error in H; rewrite E404 in H; done end. }
  rewrite bind_run. unfold check_status. rewrite http_error_raises.
  destruct (http_error r); split_and!; intros; try done; try lia.
Qed.

(** X18.  The wrappers that switch something on or off with one PUT or
    DELETE make exactly one call and raise the [HTTPError] of
    [raise_for_status] for a status from 400 to 599.  For every other status
    [star_repository] and [unstar_repository] of Chapter 2 and [lock_issue],
    [unlock_issue] and [delete_issue_comment] of the Chapter 3 sample return
    whether the status is 204, so a 200 gives [False] without any
    exception, while [star_repository] and [unstar_repository] of
    [Chapter_4/stargazers.py] and [remove_stargazer] of
    [stargazers-class.py] return [None]. *)
Theorem switches_by_status (ch2 : Chapter2.GitHubAPI) (ch3 : Chapter3Samples.GitHubAPI)
    (cls : StargazersClass.StargazersClient) (token owner repo : string) (number : Z)
    (r : response) (rest : list reply) :
  let pending := Answer r :: rest in
  let flagged (run : run bool) :=
    outcome run = (if http_error r then Raise (RequestError (HTTPError r))
                   else Return (status_code r =? 204)) /\
    calls (trace run) = 1%nat /\ unread run = rest in
  let silent (run : run json) :=
    outcome run = (if http_error r then Raise (RequestError (HTTPError r))
                   else Return JNull) /\
    calls (trace run) = 1%nat /\ unread run = rest in
  flagged (Chapter2.star_repository ch2 owner repo pending) /\
  flagged (Chapter2.unstar_repository ch2 owner repo pending) /\
  flagged (Chapter3Samples.lock_issue ch3 owner repo number pending) /\
  flagged (Chapter3Samples.unlock_issue ch3 owner repo number pending) /\
  flagged (Chapter3Samples.delete_issue_comment ch3 owner repo number pending) /\
  silent (Chapter4Stargazers.star_repository token owner repo pending) /\
  silent (Chapter4Stargazers.unstar_repository token owner repo pending) /\
  silent (StargazersClass.remove_stargazer cls owner repo pending).
Proof.
  intros pending flagged silent. subst pending flagged silent. cbn beta.
  unfold Chapter2.star_repository, Chapter2.unstar_repository,
    Chapter3Samples.lock_issue, Chapter3Samples.unlock_issue,
    Chapter3Samples.delete_issue_comment, Chapter4Stargazers.star_repository,
    Chapter4Stargazers.unstar_repository, StargazersClass.remove_stargazer.
  rewrite !bind_run. cbn [exchange outcome trace unread].
  rewrite !bind_run. unfold check_status. rewrite http_error_raises.
  destruct (http_error r); cbn; done.
Qed.

(** ** Star counts *)

Lemma status_200 (r : response) :
  status_code r = 200 ->
  is_success r = true /\ raise_for_status r = None /\ http_error r = false.
Proof. intros H. unfold is_success, raise_for_status, http_error. by rewrite H. Qed.

(** X19.  The four star counters read the count off a 200 response in
    different ways.
    - For a JSON object, [get_star_count], [get_repository_stargazer_count]
      and [get_stargazer_count] use [.get(key, 0)]: a missing key gives 0;
      [get_starred_count] of [Chapter_4/stargazers.py] subscripts: a
      missing key raises [KeyError].
    - For a JSON list the first three raise [AttributeError] and the last
      one [TypeError].
    - For an empty body the two clients that turn it into [None] raise
      [AttributeError], the other two the decoding error. *)
Theorem counts_by_body (flag : bool)
    (c1 : StargazersAdvanced.GitHubStarsClient)
    (c2 : StargazersAdvanced2.GitHubStargazersAPI)
    (cls : StargazersClass.StargazersClient) (token owner repo : string)
    (r : response) (rest : list reply) :
  0 <= StargazersAdvanced.max_retries (StargazersAdvanced.api c1) ->
  0 <= StargazersAdvanced2.max_retries (StargazersAdvanced2.api c2) ->
  status_code r = 200 ->
  let pending := Answer r :: rest in
  let count1 := outcome (StargazersAdvanced.get_star_count c1 owner repo pending) in
  let count2 := outcome (StargazersAdvanced2.get_repository_stargazer_count flag c2
                           owner repo pending) in
  let count3 := outcome (StargazersClass.get_stargazer_count cls repo pending) in
  let count4 := outcome (Chapter4Stargazers.get_starred_count token owner repo pending) in
  (forall d : dict, body r = JsonText (JDict d) ->
     count1 = Return (default (JNum 0) (d !! "stargazers_count")) /\
     count2 = Return (default (JNum 0) (d !! "stargazers_count")) /\
     count3 = Return (default (JNum 0) (d !! "count")) /\
     count4 = match d !! "stargazers_count" with
              | Some count => Return count
              | None => Raise KeyError
              end) /\
  (forall l : list json, body r = JsonText (JList l) ->
     count1 = Raise AttributeError /\ count2 = Raise AttributeError /\
     count3 = Raise AttributeError /\ count4 = Raise TypeError) /\
  (body r = Empty ->
     count1 = Raise AttributeError /\ count2 = Raise AttributeError /\
     count3 = Raise (RequestError JSONDecodeError) /\
     count4 = Raise (RequestError JSONDecodeError)).
Proof.
  intros Hmax1 Hmax2 Hs pending count1 count2 count3 count4.
  subst pending count1 count2 count3 count4.
  destruct (status_200 r Hs) as (Hok & Hraise & _).
  unfold StargazersAdvanced.get_star_count,
    StargazersAdvanced2.get_repository_stargazer_count,
    StargazersClass.get_stargazer_count, Chapter4Stargazers.get_starred_count.
  rewrite !bind_run.
  destruct (get_success (StargazersAdvanced.api c1) ("repos/" +:+ owner +:+ "/" +:+ repo)
              None None r rest Hmax1 Hok) as (rq & _ & ->).
  unfold StargazersAdvanced2.get. rewrite request_first_success by done.
  cbn [exchange outcome trace unread]. rewrite !bind_run.
  unfold check_status, decode, StargazersAdvanced.decoded, has_content, json_of.
  rewrite Hraise.
  split_and!.
  - intros d Hb. rewrite Hb. cbn. by destruct (d !! "stargazers_count").
  - intros l Hb. rewrite Hb. cbn. done.
  - intros Hb. rewrite Hb. cbn. done.
Qed.

Lemma counts_by_body_witness :
  let r := plain 200 (JsonText (JDict {["name" := JStr "hello-world"]})) in
  (0 <= StargazersAdvanced.max_retries (StargazersAdvanced.api demo_stars) /\
   0 <= StargazersAdvanced2.max_retries (StargazersAdvanced2.api demo_stargazers) /\
   status_code r = 200) /\
  outcome (StargazersAdvanced.get_star_count demo_stars "octocat" "hello-world" [Answer r])
  = Return (JNum 0) /\
  outcome (Chapter4Stargazers.get_starred_count "token" "octocat" "hello-world" [Answer r])
  = Raise KeyError.
Proof.
  intros r.
  assert (H1 : 0 <= StargazersAdvanced.max_retries (StargazersAdvanced.api demo_stars))
    by (vm_compute; discriminate).
  assert (H2 : 0 <= StargazersAdvanced2.max_retries (StargazersAdvanced2.api demo_stargazers))
    by (vm_compute; discriminate).
  assert (H3 : status_code r = 200) by reflexivity.
  split; [done|].
  destruct (counts_by_body true demo_stars demo_stargazers demo_class "token" "octocat"
              "hello-world" r [] H1 H2 H3) as (Hobject & _).
  destruct (Hobject {["name" := JStr "hello-world"]} eq_refl) as (Hc1 & _ & _ & Hc4).
  split; [exact Hc1|exact Hc4].
Defined.

(** ** Membership checks and other errors *)



(** ** The star history of [stargazers-advanced.py] *)

Lemma stars_get_page (self : StargazersAdvanced.GitHubAPIClient) (endpoint : string)
    (params : option dict) (headers : option (gmap string string))
    (items : list json) (rest : list reply) :
  0 <= StargazersAdvanced.max_retries self ->
  StargazersAdvanced.get self endpoint params headers (page_reply items :: rest)
  = Run (Return (JList items))
      [Call (Request "GET"
               (StargazersAdvanced.base_url self +:+ "/" +:+ lstrip_slash endpoint)
               params None (default ∅ headers))]
      rest.
Proof.
  intros Hmax.
  destruct (get_success self endpoint params headers
              (plain 200 (JsonText (JList items))) rest Hmax eq_refl) as (rq & Hrq & Hrun).
  unfold page_reply. rewrite Hrun.
  unfold client_request in Hrq. cbn in Hrq. injection Hrq as <-. done.
Qed.

Lemma stars_history_page_on_page (self : StargazersAdvanced.GitHubStarsClient)
    (owner repo : string) (per_page page : Z) (all_stars items : list json)
    (rest : list reply) :
  0 <= StargazersAdvanced.max_retries (StargazersAdvanced.api self) ->
  StargazersAdvanced.star_history_page self
    ("repos/" +:+ owner +:+ "/" +:+ repo +:+ "/stargazers") per_page page all_stars
    (page_reply items :: rest)
  = Run (Return (StargazersAdvanced.Continue (JList items) (all_stars ++ items)))
      [Call (stars_page_request self owner repo per_page page)] rest.
Proof.
  intros Hmax. unfold StargazersAdvanced.star_history_page, try_except.
  rewrite bind_run, stars_get_page by done. done.
Qed.

Lemma stars_history_pages_sweep (self : StargazersAdvanced.GitHubStarsClient)
    (owner repo : string) (per_page : Z) (pages : list (list json)) (last : list json)
    (rest : list reply) :
  0 <= StargazersAdvanced.max_retries (StargazersAdvanced.api self) ->
  Forall (fun p => len p = per_page) pages ->
  len last <> per_page ->
  forall (fuel : nat) (page : Z) (current all_stars : list json),
    len current = per_page ->
    (S (length pages) < fuel)%nat ->
    StargazersAdvanced.star_history_pages fuel self
      ("repos/" +:+ owner +:+ "/" +:+ repo +:+ "/stargazers") per_page page
      (JList current) all_stars ((page_reply <$> pages) ++ page_reply last :: rest)
    = Run (Return (all_stars ++ concat pages ++ last))
        ((fun i => Call (stars_page_request self owner repo per_page
                           (page + 1 + Z.of_nat i)))
         <$> seq 0 (S (length pages)))
        rest.
Proof.
  intros Hmax Hfull Hlast.
  induction Hfull as [|items pages Hitems _ IH]; intros fuel page current all_stars Hcur Hfuel.
  - destruct fuel as [|[|fuel]]; [simpl in Hfuel; lia..|].
    cbn [fmap list_fmap app StargazersAdvanced.star_history_pages len_of].
    rewrite Hcur, Z.eqb_refl. rewrite bind_run.
    rewrite stars_history_page_on_page by done. cbn [outcome trace unread len_of].
    destruct (Z.eqb_spec (len last) per_page); [done|].
    cbn [length seq fmap list_fmap concat app]. change (Z.of_nat 0) with 0.
    rewrite Z.add_0_r. done.
  - destruct fuel as [|fuel]; [simpl in Hfuel; lia|].
    cbn [fmap list_fmap app StargazersAdvanced.star_history_pages len_of].
    rewrite Hcur, Z.eqb_refl. rewrite bind_run.
    rewrite stars_history_page_on_page by done. cbn [outcome trace unread].
    rewrite IH by (done || (simpl in Hfuel; lia)).
    unfold emit. cbn [outcome trace unread concat length].
    f_equal; [by rewrite <- !app_assoc|].
    replace (seq 0 (S (S (length pages))))
      with (0%nat :: (S <$> seq 0 (S (length pages)))) by (by rewrite fmap_S_seq).
    rewrite fmap_cons, <- list_fmap_compose. cbn [app].
    change (Z.of_nat 0) with 0. rewrite Z.add_0_r.
    f_equal. apply list_fmap_ext. intros _ i _. cbn [compose]. do 2 f_equal. lia.
Qed.

(** X21.  [get_star_history] of [stargazers-advanced.py] requests page 1, 2,
    ... with the caller's [per_page] and goes on as long as a page holds
    exactly [per_page] items; the first page of any other length, shorter
    or longer, ends the sweep.  It returns the items of all pages in the
    order received, after one call per page, each time with the
    star-timestamp media type in [Accept]. *)
Theorem stars_history_sweep (self : StargazersAdvanced.GitHubStarsClient)
    (owner repo : string) (per_page : Z) (pages : list (list json)) (last : list json)
    (rest : list reply) :
  0 <= StargazersAdvanced.max_retries (StargazersAdvanced.api self) ->
  Forall (fun p => len p = per_page) pages ->
  len last <> per_page ->
  StargazersAdvanced.get_star_history self owner repo per_page
    ((page_reply <$> pages) ++ page_reply last :: rest)
  = Run (Return (JList (concat pages ++ last)))
      ((fun i => Call (stars_page_request self owner repo per_page (1 + Z.of_nat i)))
       <$> seq 0 (S (length pages)))
      rest.
Proof.
  intros Hmax Hfull Hlast. unfold StargazersAdvanced.get_star_history.
  destruct Hfull as [|first pages Hfirst Hfull].
  - cbn [fmap list_fmap app]. rewrite bind_run, stars_get_page by done.
    cbn [outcome trace unread]. rewrite bind_run.
    cbn [length StargazersAdvanced.star_history_pages len_of].
    destruct (Z.eqb_spec (len last) per_page); [done|].
    done.
  - cbn [fmap list_fmap app]. rewrite bind_run, stars_get_page by done.
    cbn [outcome trace unread]. rewrite bind_run.
    rewrite (stars_history_pages_sweep self owner repo per_page pages last rest)
      by (done || (cbn [length]; rewrite length_app, length_fmap; simpl; lia)).
    unfold emit, mret, M_ret, finish. cbn [outcome trace unread concat length].
    rewrite app_nil_r, <- app_assoc. f_equal.
    replace (seq 0 (S (S (length pages))))
      with (0%nat :: (S <$> seq 0 (S (length pages)))) by (by rewrite fmap_S_seq).
    rewrite fmap_cons, <- list_fmap_compose. cbn [app]. f_equal.
    apply list_fmap_ext. intros _ i _. cbn [compose]. do 2 f_equal. lia.
Qed.

Lemma stars_history_sweep_witness :
  let page1 := replicate 5 demo_star in
  let page2 := replicate 2 demo_star in
  (0 <= StargazersAdvanced.max_retries (StargazersAdvanced.api demo_stars) /\
   Forall (fun p => len p = 5) [page1] /\ len page2 <> 5) /\
  let run := StargazersAdvanced.get_star_history demo_stars "octocat" "hello-world" 5
               [page_reply page1; page_reply page2] in
  outcome run = Return (JList (page1 ++ page2)) /\
  sent_requests (trace run)
  = [stars_page_request demo_stars "octocat" "hello-world" 5 1;
     stars_page_request demo_stars "octocat" "hello-world" 5 2].
Proof.
  intros page1 page2.
  assert (H1 : 0 <= StargazersAdvanced.max_retries (StargazersAdvanced.api demo_stars))
    by (vm_compute; discriminate).
  assert (H2 : Forall (fun p => len p = 5) [page1]) by (repeat constructor).
  assert (H3 : len page2 <> 5) by (vm_compute; discriminate).
  split; [done|].
  pose proof (stars_history_sweep demo_stars "octocat" "hello-world" 5 [page1] page2 []
                H1 H2 H3) as Hrun.
  cbn [fmap list_fmap app] in Hrun. rewrite Hrun.
  cbn [outcome trace concat app length seq fmap list_fmap sent_requests omap].
  split; [by rewrite app_nil_r|reflexivity].
Defined.




(** ** Query parameters of the list methods *)

Lemma set_unless_none_no_null (k : string) (v : json) (d : dict) :
  no_null d -> no_null (set_unless_none k v d).
Proof.
  intros Hd k'. unfold set_unless_none.
  destruct v; try apply Hd;
    (destruct (decide (k = k')) as [->|Hne];
     [by rewrite lookup_insert_eq|rewrite lookup_insert_ne by done; apply Hd]).
Qed.

Lemma set_unless_none_lookup (k : string) (v : json) (d : dict) :
  d !! k = None -> set_unless_none k v d !! k = given v.
Proof.
  intros Hd. unfold set_unless_none, given. destruct v; by rewrite ?lookup_insert_eq.
Qed.

Lemma set_unless_none_lookup_ne (k k' : string) (v : json) (d : dict) :
  k <> k' -> set_unless_none k v d !! k' = d !! k'.
Proof.
  intros Hne. unfold set_unless_none. destruct v; by rewrite ?lookup_insert_ne.
Qed.

Lemma no_null_empty : no_null ∅.
Proof. intros k. by rewrite lookup_empty. Qed.

Lemma stars_get_sent (self : StargazersAdvanced.GitHubAPIClient) (endpoint : string)
    (params : option dict) (headers : option (gmap string string)) (pending : list reply) :
  Forall (fun sent => sent = Request "GET"
                               (StargazersAdvanced.base_url self +:+ "/"
                                +:+ lstrip_slash endpoint)
                               params None (default ∅ headers))
    (sent_requests (trace (StargazersAdvanced.get self endpoint params headers pending))).
Proof.
  unfold StargazersAdvanced.get. rewrite bind_run.
  pose proof (make_request_loop_sent self
                (Request "GET" (StargazersAdvanced.base_url self +:+ "/"
                                +:+ lstrip_slash endpoint) params None (default ∅ headers))
                pending 0 (StargazersAdvanced.retry_delay self)) as Hsent.
  change (StargazersAdvanced._make_request_loop self _ 0 (StargazersAdvanced.retry_delay self)
            pending)
    with (StargazersAdvanced._make_request self "GET" endpoint params None headers pending)
    in Hsent.
  destruct (outcome (StargazersAdvanced._make_request self "GET" endpoint params None
                       headers pending)) as [response| | |]; try done.
  rewrite trace_emit, sent_requests_app. apply Forall_app. split; [done|].
  unfold StargazersAdvanced.decoded.
  destruct (has_content response); [|done]. by destruct (json_of response).
Qed.

Lemma plain_json_sent (rq : request) (pending : list reply) :
  Forall (fun sent => sent = rq)
    (sent_requests (trace ((response ← exchange rq;
                            _ ← check_status response;
                            decode response) pending))).
Proof.
  rewrite bind_run. destruct pending as [|[r|msg] pending];
    [done| |by repeat constructor].
  cbn [exchange outcome trace unread]. rewrite trace_emit, sent_requests_app.
  apply Forall_app. split; [by repeat constructor|].
  rewrite bind_run. unfold check_status, decode.
  destruct (raise_for_status r); [done|]. cbn [outcome trace unread mret M_ret finish].
  rewrite trace_emit. by destruct (json_of r).
Qed.

(** X23.  The list methods with optional paging arguments send only the
    arguments that were given: on every request they make, the query
    parameters hold an entry for each argument that is not [None], with the
    value given, and no entry at all, in particular no [null], for the
    others.  [list_stargazers] of [stargazers-advanced2.py] never sends its
    [sort] argument as a parameter: [sort] only decides, when it is
    ["created"], that the star-timestamp media type is asked for in
    [Accept]. *)
Theorem optional_query_parameters (flag : bool)
    (c1 : StargazersAdvanced.GitHubStarsClient)
    (c2 : StargazersAdvanced2.GitHubStargazersAPI)
    (cls : StargazersClass.StargazersClient)
    (owner repo : string) (per_page page sort : json) (pending : list reply) :
  Forall (fun rq => exists p, params rq = Some p /\ no_null p /\
                     p !! "per_page" = given per_page /\ p !! "page" = given page /\
                     p !! "sort" = given sort)
    (sent_requests (trace (StargazersAdvanced.list_repository_stars c1 owner repo
                             per_page page sort pending))) /\
  Forall (fun rq => exists p, params rq = Some p /\ no_null p /\
                     p !! "per_page" = given per_page /\ p !! "page" = given page /\
                     p !! "sort" = None /\
                     (sort = JStr "created" -> headers rq = star_accept) /\
                     (sort <> JStr "created" -> headers rq = ∅))
    (sent_requests (trace (StargazersAdvanced2.list_stargazers flag c2 owner repo
                             per_page page sort pending))) /\
  Forall (fun rq => exists p, params rq = Some p /\ no_null p /\
                     p !! "limit" = given per_page /\ p !! "offset" = given page /\
                     p !! "sort_by" = given sort)
    (sent_requests (trace (StargazersClass.list_stargazers cls repo
                             per_page page sort pending))).
Proof.
  split_and!.
  - eapply Forall_impl; [apply stars_get_sent|]. intros rq ->. eexists.
    split; [reflexivity|]. split_and!.
    + by repeat apply set_unless_none_no_null; apply no_null_empty.
    + by rewrite !set_unless_none_lookup_ne, set_unless_none_lookup by done.
    + by rewrite set_unless_none_lookup_ne, set_unless_none_lookup
        by (done || by rewrite set_unless_none_lookup_ne).
    + rewrite set_unless_none_lookup; [done|].
      by rewrite !set_unless_none_lookup_ne.
  - unfold StargazersAdvanced2.list_stargazers, StargazersAdvanced2.get.
    eapply Forall_impl; [apply request_loop_sent|]. intros rq ->. eexists.
    split; [reflexivity|]. split_and!.
    + by repeat apply set_unless_none_no_null; apply no_null_empty.
    + by rewrite set_unless_none_lookup_ne, set_unless_none_lookup by done.
    + rewrite set_unless_none_lookup; [done|]. by rewrite set_unless_none_lookup_ne.
    + by rewrite !set_unless_none_lookup_ne.
    + by intros ->.
    + intros Hsort. cbn [headers]. unfold StargazersAdvanced2.star_headers.
      destruct sort as [| | |s| |]; try done.
      destruct (String.eqb_spec s "created") as [->|Hne]; done.
  - unfold StargazersClass.list_stargazers.
    eapply Forall_impl; [apply plain_json_sent|]. intros rq ->. eexists.
    split; [reflexivity|]. split_and!.
    + by repeat apply set_unless_none_no_null; apply no_null_empty.
    + by rewrite !set_unless_none_lookup_ne, set_unless_none_lookup by done.
    + by rewrite set_unless_none_lookup_ne, set_unless_none_lookup
        by (done || by rewrite set_unless_none_lookup_ne).
    + rewrite set_unless_none_lookup; [done|].
      by rewrite !set_unless_none_lookup_ne.
Qed.

(** ** Exports *)

Lemma make_request_get_success (self : StargazersAdvanced.GitHubAPIClient)
    (endpoint : string) (params : option dict) (headers : option (gmap string string))
    (ok : response) (rest : list reply) :
  0 <= StargazersAdvanced.max_retries self ->
  is_success ok = true ->
  StargazersAdvanced._make_request self "GET" endpoint params None headers
    (Answer ok :: rest)
  = Run (Return ok)
      [Call (Request "GET"
               (StargazersAdvanced.base_url self +:+ "/" +:+ lstrip_slash endpoint)
               params None (default ∅ headers))]
      rest.
Proof.
  intros Hmax Hok. unfold StargazersAdvanced._make_request.
  change (StargazersAdvanced.session_call "GET" ?u ?p None ?h)
    with (Some (Request "GET" u p None h)).
  cbn [StargazersAdvanced._make_request_loop].
  destruct (success_passes ok Hok) as [-> ->].
  by destruct (Z.leb_spec 0 (StargazersAdvanced.max_retries self)); [|lia].
Qed.

(** X24.  The export methods hand back the content of a successful response
    as it is, without decoding it: whatever the body, a JSON document, any
    other bytes or nothing, it is the result.  The export format is sent
    twice, as the query parameter [format] and as [application/<format>] in
    [Accept]. *)
Theorem export_returns_content (c1 : StargazersAdvanced.GitHubStarsClient)
    (cls : StargazersClass.StargazersClient) (owner repo format : string)
    (ok : response) (rest : list reply) :
  0 <= StargazersAdvanced.max_retries (StargazersAdvanced.api c1) ->
  is_success ok = true ->
  StargazersAdvanced.export_stargazers c1 owner repo format (Answer ok :: rest)
  = Run (Return (body ok))
      [Call (Request "GET"
               (StargazersAdvanced.base_url (StargazersAdvanced.api c1) +:+ "/"
                +:+ lstrip_slash ("repos/" +:+ owner +:+ "/" +:+ repo
                                  +:+ "/stargazers/export"))
               (Some {["format" := JStr format]}) None
               {["Accept" := "application/" +:+ format]})]
      rest /\
  StargazersClass.export_stargazers cls repo format (Answer ok :: rest)
  = Run (Return (body ok))
      [Call (Request "GET"
               (StargazersClass.base_url cls +:+ "/repositories/" +:+ repo
                +:+ "/stargazers/export")
               (Some {["format" := JStr format]}) None
               {["Accept" := "application/" +:+ format]})]
      rest.
Proof.
  intros Hmax Hok. destruct (success_passes ok Hok) as [_ Hraise]. split.
  - unfold StargazersAdvanced.export_stargazers, StargazersAdvanced.get_raw.
    rewrite bind_run, make_request_get_success by done. done.
  - unfold StargazersClass.export_stargazers.
    rewrite bind_run. cbn [exchange outcome trace unread]. rewrite bind_run.
    unfold check_status. rewrite Hraise. done.
Qed.

Lemma export_returns_content_witness :
  let csv := plain 200 (Undecodable "login,starred_at") in
  (0 <= StargazersAdvanced.max_retries (StargazersAdvanced.api demo_stars) /\
   is_success csv = true) /\
  outcome (StargazersAdvanced.export_stargazers demo_stars "octocat" "hello-world" "csv"
             [Answer csv])
  = Return (Undecodable "login,starred_at").
Proof.
  intros csv.
  assert (H1 : 0 <= StargazersAdvanced.max_retries (StargazersAdvanced.api demo_stars))
    by (vm_compute; discriminate).
  assert (H2 : is_success csv = true) by reflexivity.
  split; [done|].
  destruct (export_returns_content demo_stars demo_class "octocat" "hello-world" "csv"
              csv [] H1 H2) as [Hrun _].
  by rewrite Hrun.
Defined.

(** ** A [per_page] that is no number *)

(** X25.  [paginate] of [output.py] compares the length of a page with the
    caller's [per_page] as it is.  When the caller's dict holds [per_page]
    as a string (as query parameters often are), the first non-empty page
    cannot be compared: [paginate] raises [TypeError] after that one call,
    and the items of the page are not returned. *)
Theorem paginate_per_page_text (flag : bool) (self : Output.GitHubAPI) (endpoint : string)
    (h : Output.heap) (obj : nat) (d : dict) (s : string)
    (items : list json) (rest : list reply) :
  h !! obj = Some d ->
  d !! "per_page" = Some (JStr s) ->
  items <> [] ->
  let run := (Output.paginate flag self endpoint (Some obj) h
                (page_reply items :: rest)).1 in
  outcome run = Raise TypeError /\
  calls (trace run) = 1%nat /\
  unread run = rest.
Proof.
  intros Hobj Hpp Hitems run. subst run.
  destruct (lookup_total_some h obj d Hobj) as [Hd Hlt].
  assert (Hne : h !!! obj <> (∅ : dict)).
  { rewrite Hd. intros ->. by rewrite lookup_empty in Hpp. }
  destruct (paginate_entry flag self endpoint (Some obj) h (page_reply items :: rest))
    as (obj' & h1 & Hobj' & Hcaller & -> & Hsame & _).
  destruct (Hsame obj eq_refl Hne) as [-> ->].
  cbn [caller_dict]. rewrite Hd. unfold per_page_of. rewrite Hpp. cbn [default from_option id].
  cbn [length Output.paginate_loop].
  rewrite output_request_page. cbn [outcome trace unread fst].
  rewrite !store_lookup by (by rewrite ?store_length).
  rewrite lookup_insert_ne by done. rewrite lookup_insert_eq.
  destruct items as [|x items]; [done|].
  replace (negb (truthy (JList (x :: items))) || (len (x :: items) =? 0)) with false
    by (by cbn).
  done.
Qed.

Lemma paginate_per_page_text_witness :
  let d : dict := {["per_page" := JStr "50"]} in
  let h : Output.heap := [d] in
  (h !! 0%nat = Some d /\ d !! "per_page" = Some (JStr "50") /\ [JNum 1] <> []) /\
  outcome (Output.paginate true demo_api "/user/orgs" (Some 0%nat) h
             [page_reply [JNum 1]]).1
  = Raise TypeError.
Proof.
  intros d h.
  assert (H1 : h !! 0%nat = Some d) by reflexivity.
  assert (H2 : d !! "per_page" = Some (JStr "50")) by reflexivity.
  assert (H3 : [JNum 1] <> []) by discriminate.
  split; [done|].
  destruct (paginate_per_page_text true demo_api "/user/orgs" h 0 d "50" [JNum 1] []
              H1 H2 H3) as (Hout & _).
  exact Hout.
Defined.

(** ** Wrappers that decode one plain response *)

(** X26.  The wrappers of Chapter 2, of the Chapter 3 sample and of
    [Chapter_4/stargazers.py] that return a decoded body make exactly one
    request and never a second one: whatever the status, 429 and 5xx
    included, the one response decides.  A status from 400 to 599 gives the
    [HTTPError] of [raise_for_status]; otherwise the decoded body is
    returned, and a body that is no JSON document (an empty one, say) gives
    the decoding error. *)
Theorem plain_wrappers_single_call (ch2 : Chapter2.GitHubAPI)
    (ch3 : Chapter3Samples.GitHubAPI) (token owner repo username : string) (number : Z)
    (value per_page page : json) (r : response) (rest : list reply) :
  let pending := Answer r :: rest in
  let decided (run : run json) :=
    outcome run = (if http_error r then Raise (RequestError (HTTPError r))
                   else match json_of r with
                        | Some j => Return j
                        | None => Raise (RequestError JSONDecodeError)
                        end) /\
    calls (trace run) = 1%nat /\ unread run = rest in
  decided (Chapter2.get_repository ch2 owner repo pending) /\
  decided (Chapter2.list_issues ch2 owner repo value pending) /\
  decided (Chapter2.list_stargazers ch2 owner repo pending) /\
  decided (Chapter2.list_starred_repositories ch2 username pending) /\
  decided (Chapter2.create_issue ch2 owner repo value None None None pending) /\
  decided (Chapter3Samples.get_issue ch3 owner repo number pending) /\
  decided (Chapter3Samples.add_assignees ch3 owner repo number value pending) /\
  decided (Chapter3Samples.remove_assignees ch3 owner repo number value pending) /\
  decided (Chapter3Samples.create_issue_comment ch3 owner repo number value pending) /\
  decided (Chapter4Stargazers.list_stargazers token owner repo per_page page pending) /\
  decided (Chapter4Stargazers.list_starred_repositories token (Some username)
             value value per_page page pending).
Proof.
  intros pending decided. subst pending decided. cbn beta.
  unfold Chapter2.get_repository, Chapter2.list_issues, Chapter2.list_stargazers,
    Chapter2.list_starred_repositories, Chapter2.create_issue,
    Chapter3Samples.get_issue, Chapter3Samples.add_assignees,
    Chapter3Samples.remove_assignees, Chapter3Samples.create_issue_comment,
    Chapter4Stargazers.list_stargazers, Chapter4Stargazers.list_starred_repositories.
  rewrite !bind_run. cbn [exchange outcome trace unread].
  rewrite !bind_run. unfold check_status, decode. rewrite http_error_raises.
  destruct (http_error r); [cbn; done|].
  destruct (json_of r); cbn; done.
Qed.

(** ** Whose stars *)

(** X27.  [list_starred_repositories] chooses the endpoint by the truth of
    [username]: a user name that is left out and one that is the empty
    string both list the stars of the authenticated user ([/user/starred]);
    any other name lists that user's ([/users/<name>/starred]).  This holds
    for every request the three implementations make. *)
Theorem starred_endpoint_by_username (flag : bool)
    (c1 : StargazersAdvanced.GitHubStarsClient)
    (c2 : StargazersAdvanced2.GitHubStargazersAPI)
    (token : string) (username : option string)
    (sort direction per_page page : json) (pending : list reply) :
  let asked (base path : string) (t : list event) :=
    Forall (fun rq => url rq = base +:+ path) (sent_requests t) in
  let run1 := StargazersAdvanced.list_starred_repositories c1 username per_page page
                sort direction pending in
  let run2 := StargazersAdvanced2.list_starred_repositories flag c2 username sort
                direction per_page page pending in
  let run3 := Chapter4Stargazers.list_starred_repositories token username sort direction
                per_page page pending in
  (blank username ->
   asked (StargazersAdvanced.base_url (StargazersAdvanced.api c1)) "/user/starred"
     (trace run1) /\
   asked (StargazersAdvanced2.base_url (StargazersAdvanced2.api c2)) "/user/starred"
     (trace run2) /\
   asked "https://api.github.com" "/user/starred" (trace run3)) /\
  (forall name, username = Some name -> name <> "" ->
   asked (StargazersAdvanced.base_url (StargazersAdvanced.api c1))
     ("/users/" +:+ name +:+ "/starred") (trace run1) /\
   asked (StargazersAdvanced2.base_url (StargazersAdvanced2.api c2))
     ("/users/" +:+ name +:+ "/starred") (trace run2) /\
   asked "https://api.github.com" ("/users/" +:+ name +:+ "/starred") (trace run3)).
Proof.
  intros asked run1 run2 run3. subst asked run1 run2 run3. cbn beta.
  unfold StargazersAdvanced.list_starred_repositories,
    StargazersAdvanced2.list_starred_repositories, StargazersAdvanced2.get,
    Chapter4Stargazers.list_starred_repositories.
  split.
  - intros Hblank. rewrite (blank_falsy username Hblank). split_and!.
    + eapply Forall_impl; [apply stars_get_sent|]. by intros rq ->.
    + eapply Forall_impl; [apply request_loop_sent|]. by intros rq ->.
    + eapply Forall_impl; [apply plain_json_sent|]. by intros rq ->.
  - intros name -> Hname. rewrite (filled_truthy name Hname). split_and!.
    + eapply Forall_impl; [apply stars_get_sent|]. by intros rq ->.
    + eapply Forall_impl; [apply request_loop_sent|]. by intros rq ->.
    + eapply Forall_impl; [apply plain_json_sent|]. by intros rq ->.
Qed.

Lemma starred_endpoint_by_username_witness :
  blank (Some "") /\
  Forall (fun rq => url rq = "https://api.github.com/user/starred")
    (sent_requests (trace (StargazersAdvanced.list_starred_repositories demo_stars
                             (Some "") JNull JNull JNull JNull [Answer demo_ok]))).
Proof.
  assert (H1 : blank (Some "")) by (by right).
  split; [exact H1|].
  destruct (starred_endpoint_by_username true demo_stars demo_stargazers "token" (Some "")
              JNull JNull JNull JNull [Answer demo_ok]) as [Hblank _].
  destruct (Hblank H1) as (Hasked & _). exact Hasked.
Defined.

(** ** Filters that are tested for truth *)



